(** * FiPulse chart widget: a shallow embedding of [fipulse-widget/src/widget.ts]

    The widget glues a charting library to a market-data SDK.  The
    development follows the source file function by function:

    - the data adapter ([convertCandleToChartData] and its two siblings),
    - the update reconciler ([updateChart], [updateSingleCandle],
      [handleChartUpdate], [handleTrade]),
    - the legend renderer ([updateLegend]),
    - the controller ([constructor], [initialize], [initializeChart],
      [loadTokenData], [waitForWebSocketConnection], [destroy]).

    Conventions of the model.

    - JavaScript numbers that carry prices, volumes and percentages are
      exact rationals ([Q]); the development tracks which expression the
      code evaluates, not IEEE rounding.  Timestamps are integers ([Z],
      UTC seconds), so [Math.floor (t / 60) * 60] is [t / 60 * 60] with
      the flooring division of [Z].
    - [this] is a record [Widget]; a method is a computation in the monad
      [M], which threads [this], records every call made on a collaborator
      (chart, series, SDK, DOM, user callbacks) in a trace, and may throw.
    - The two collaborators are opaque: a call on one of them is an
      [Effect] in the trace.  What the host provides (time-zone rules and
      DOM queries) is a record [Host]. *)

From Stdlib Require Import ZArith QArith Qminmax Ascii String Bool Lia.
From stdpp Require Import base list.

Local Open Scope Z_scope.

(** ** Data model *)

(** [Candle] of the SDK; [TransactionCount] may be absent. *)
Record Candle : Type := mkCandle {
  Timestamp : Z;
  OpenPrice : Q;
  HighPrice : Q;
  LowPrice : Q;
  ClosePrice : Q;
  VolumeIn : Q;
  VolumeOut : Q;
  TransactionCount : option Z
}.

(** [RealTimeTrade] of the SDK. *)
Record RealTimeTrade : Type := mkTrade {
  Price : Q;
  Amount : Q;
  USD : Q;
  TradeTime : Z
}.

(** [ChartData] of the SDK. *)
Record ChartData : Type := mkChartData {
  candles : list Candle;
  lastUpdate : option Z;
  isLoading : bool;
  error : option string
}.

(** The three point shapes handed to the charting library. *)
Record CandlestickData : Type := mkBar {
  bar_time : Z;
  bar_open : Q;
  bar_high : Q;
  bar_low : Q;
  bar_close : Q
}.

Record LineData : Type := mkLinePoint {
  line_time : Z;
  line_value : Q
}.

Record HistogramData : Type := mkVolumePoint {
  vol_time : Z;
  vol_value : Q;
  vol_color : string
}.

Inductive Point : Type :=
| BarPoint (d : CandlestickData)
| LinePoint (d : LineData)
| VolumePoint (d : HistogramData).

Inductive PriceSeriesType : Type := candle | line.
Inductive Theme : Type := light | dark.
Inductive LegendStyle : Type := legend_none | legend_simple | legend_complex.

(** DOM elements and the handles returned by the collaborators. *)
Inductive Element : Type := Elem (id : string).
Inductive IChartApi : Type := ChartApi (mount : Element).
Inductive Series : Type := CandlestickSeries | LineSeries | HistogramSeries.
Inductive CryptoChartSDK : Type := Sdk.

(** [WidgetOptions] as the caller supplies them.  A callback is opaque:
    only whether it was supplied matters to the widget. *)
Record WidgetOptions : Type := mkWidgetOptions {
  container : string + Element;
  tokenId : string;
  symbol : option string;
  height : option Z;
  width : option Z;
  showVolume : option bool;
  priceSeriesType : option PriceSeriesType;
  theme : option Theme;
  legendStyle : option LegendStyle;
  onError : bool;
  onDataUpdate : bool;
  onTrade : bool;
  onConnectionChange : bool
}.

(** [this.options]: the four defaulted fields are required. *)
Record Options : Type := mkOptions {
  o_container : string + Element;
  o_tokenId : string;
  o_symbol : option string;
  o_height : option Z;
  o_width : option Z;
  o_showVolume : bool;
  o_priceSeriesType : PriceSeriesType;
  o_theme : Theme;
  o_legendStyle : LegendStyle;
  o_onError : bool;
  o_onDataUpdate : bool;
  o_onTrade : bool;
  o_onConnectionChange : bool
}.

(** What the browser provides: [Date.prototype.getTimezoneOffset] as a
    function of the epoch milliseconds the [Date] was built from (minutes,
    positive west of UTC), and the DOM queries of [initializeChart].  A
    selector that [querySelector] rejects as malformed is outside the
    model. *)
Record Host : Type := mkHost {
  getTimezoneOffset : Z -> Z;
  getElementById : string -> option Element;
  querySelector : string -> option Element;
  computedPositionIsStatic : Element -> bool
}.

(** ** Numbers *)

(** [a > b] on JavaScript numbers. *)
Definition Qgtb (a b : Q) : bool := negb (Qle_bool a b).

(** [a >= b]. *)
Definition Qgeb (a b : Q) : bool := Qle_bool b a.

(** [pct a b] is [(a / b) * 100]. *)
Definition pct (a b : Q) : Q := (a / b * 100)%Q.

(** ** The widget instance and the calls it makes *)

(** The values the legend template interpolates.  Numbers are kept as
    numbers: [formatPrice] and [formatPercentage] ([toFixed(2)]) and the
    HTML around them are presentation. *)
Record CandleMetrics : Type := mkMetrics {
  m_volume : Q;
  m_candleChange : Q;
  m_candleChangeColor : string;
  m_candleFluctuation : Q
}.

Record HoverView : Type := mkHover {
  h_data : CandlestickData;
  h_metrics : option CandleMetrics
}.

Record LegendView : Type := mkLegend {
  l_tokenName : string;
  l_price : option Q;
  l_rate24h : Q;
  l_rateColor : string;
  l_priceColor : string;
  l_ohlc : option HoverView
}.

(** The parameter of a crosshair-move event: [time] may be undefined and
    [seriesData] is a map from series handles to the hovered point. *)
Record CrosshairParam : Type := mkCrosshair {
  cp_time : option Z;
  cp_seriesData : option (Series -> option CandlestickData)
}.

(** A call on a collaborator. *)
Inductive Effect : Type :=
| SetPositionRelative (el : Element)
| CreateChart (el : Element) (w h : option Z) (th : Theme)
| AddSeries (s : Series) (pane : option nat)
| SetStretchFactor (pane : nat) (f : Q)
| AppendLegend (parent legend : Element)
| SubscribeCrosshairMove
| SetLegendHTML (v : LegendView)
| SetData (s : Series) (pts : list Point)
| Update (s : Series) (pt : Point)
| FitContent
| ScrollToRealTime
| ChartRemove
| SdkCreate
| SdkRegisterCallbacks
| SdkConnectWebSocket
| SdkInitialize (token : string)
| SdkSubscribe (token : string)
| SdkGetSubscriptionStatus
| SdkDestroy
| SetTimeout (ms : Z)
| CallOnError (msg : string)
| CallOnDataUpdate (d : ChartData)
| CallOnTrade (t : RealTimeTrade).

(** The private fields of [FiPulseChartWidget]. *)
Record Widget : Type := mkWidget {
  chart : option IChartApi;
  legendElement : option Element;
  candlestickSeries : option Series;
  lineSeries : option Series;
  volumeSeries : option Series;
  sdk : option CryptoChartSDK;
  chartData : ChartData;
  currentPrice : option Q;
  priceChange : Q;
  previousCandleCount : nat;
  isInitialLoad : bool;
  options : Options;
  previousPrice : Q
}.

(** Field assignments [this.f = v]. *)
Definition set_chart (v : option IChartApi) (w : Widget) : Widget :=
  mkWidget v (legendElement w) (candlestickSeries w) (lineSeries w) (volumeSeries w)
    (sdk w) (chartData w) (currentPrice w) (priceChange w) (previousCandleCount w)
    (isInitialLoad w) (options w) (previousPrice w).

Definition set_legendElement (v : option Element) (w : Widget) : Widget :=
  mkWidget (chart w) v (candlestickSeries w) (lineSeries w) (volumeSeries w)
    (sdk w) (chartData w) (currentPrice w) (priceChange w) (previousCandleCount w)
    (isInitialLoad w) (options w) (previousPrice w).

Definition set_candlestickSeries (v : option Series) (w : Widget) : Widget :=
  mkWidget (chart w) (legendElement w) v (lineSeries w) (volumeSeries w)
    (sdk w) (chartData w) (currentPrice w) (priceChange w) (previousCandleCount w)
    (isInitialLoad w) (options w) (previousPrice w).

Definition set_lineSeries (v : option Series) (w : Widget) : Widget :=
  mkWidget (chart w) (legendElement w) (candlestickSeries w) v (volumeSeries w)
    (sdk w) (chartData w) (currentPrice w) (priceChange w) (previousCandleCount w)
    (isInitialLoad w) (options w) (previousPrice w).

Definition set_volumeSeries (v : option Series) (w : Widget) : Widget :=
  mkWidget (chart w) (legendElement w) (candlestickSeries w) (lineSeries w) v
    (sdk w) (chartData w) (currentPrice w) (priceChange w) (previousCandleCount w)
    (isInitialLoad w) (options w) (previousPrice w).

Definition set_sdk (v : option CryptoChartSDK) (w : Widget) : Widget :=
  mkWidget (chart w) (legendElement w) (candlestickSeries w) (lineSeries w) (volumeSeries w)
    v (chartData w) (currentPrice w) (priceChange w) (previousCandleCount w)
    (isInitialLoad w) (options w) (previousPrice w).

Definition set_chartData (v : ChartData) (w : Widget) : Widget :=
  mkWidget (chart w) (legendElement w) (candlestickSeries w) (lineSeries w) (volumeSeries w)
    (sdk w) v (currentPrice w) (priceChange w) (previousCandleCount w)
    (isInitialLoad w) (options w) (previousPrice w).

Definition set_currentPrice (v : option Q) (w : Widget) : Widget :=
  mkWidget (chart w) (legendElement w) (candlestickSeries w) (lineSeries w) (volumeSeries w)
    (sdk w) (chartData w) v (priceChange w) (previousCandleCount w)
    (isInitialLoad w) (options w) (previousPrice w).

Definition set_priceChange (v : Q) (w : Widget) : Widget :=
  mkWidget (chart w) (legendElement w) (candlestickSeries w) (lineSeries w) (volumeSeries w)
    (sdk w) (chartData w) (currentPrice w) v (previousCandleCount w)
    (isInitialLoad w) (options w) (previousPrice w).

Definition set_previousCandleCount (v : nat) (w : Widget) : Widget :=
  mkWidget (chart w) (legendElement w) (candlestickSeries w) (lineSeries w) (volumeSeries w)
    (sdk w) (chartData w) (currentPrice w) (priceChange w) v
    (isInitialLoad w) (options w) (previousPrice w).

Definition set_isInitialLoad (v : bool) (w : Widget) : Widget :=
  mkWidget (chart w) (legendElement w) (candlestickSeries w) (lineSeries w) (volumeSeries w)
    (sdk w) (chartData w) (currentPrice w) (priceChange w) (previousCandleCount w)
    v (options w) (previousPrice w).

Definition set_previousPrice (v : Q) (w : Widget) : Widget :=
  mkWidget (chart w) (legendElement w) (candlestickSeries w) (lineSeries w) (volumeSeries w)
    (sdk w) (chartData w) (currentPrice w) (priceChange w) (previousCandleCount w)
    (isInitialLoad w) (options w) v.

(** ** The method monad: state of [this], trace of calls, exceptions *)

Inductive Completion (A : Type) : Type :=
| Normal (a : A)
| Throw (msg : string).

Arguments Normal {A} a.
Arguments Throw {A} msg.

Definition M (A : Type) : Type := Widget -> Completion A * Widget * list Effect.

Definition ret {A : Type} (a : A) : M A := fun w => (Normal a, w, []).

Definition bind {A B : Type} (m : M A) (f : A -> M B) : M B :=
  fun w =>
    match m w with
    | (Normal a, w1, t1) =>
        match f a w1 with
        | (r, w2, t2) => (r, w2, t1 ++ t2)
        end
    | (Throw msg, w1, t1) => (Throw msg, w1, t1)
    end.

Definition gets {A : Type} (f : Widget -> A) : M A := fun w => (Normal (f w), w, []).

Definition assign (f : Widget -> Widget) : M unit := fun w => (Normal tt, f w, []).

Definition emit (e : Effect) : M unit := fun w => (Normal tt, w, [e]).

Definition throw {A : Type} (msg : string) : M A := fun w => (Throw msg, w, []).

(** [this.f.method(...)]: reading a property of [null] throws. *)
Definition deref {A : Type} (f : Widget -> option A) : M A :=
  fun w =>
    match f w with
    | Some a => (Normal a, w, [])
    | None => (Throw "TypeError: Cannot read properties of null", w, [])
    end.

(** Modelled from the spec: the charting library and the market-data SDK,
    the two collaborators whose code is not part of the widget's sources.
    The spec gives their operations (full replace, single-point upsert, fit
    to content, scroll to real time, subscribe, ...) and lists no error
    condition for them, so a call on a collaborator is recorded and
    returns. *)
Definition call (e : Effect) : M unit := emit e.

(** [if (c) { body }] without an else branch. *)
Definition when (c : bool) (body : M unit) : M unit := if c then body else ret tt.

Declare Scope method_scope.
Delimit Scope method_scope with method.
Notation "x <- c1 ;; c2" := (bind c1 (fun x => c2))
  (at level 100, c1 at next level, right associativity) : method_scope.
Notation "c1 ;; c2" := (bind c1 (fun _ => c2))
  (at level 100, right associativity) : method_scope.

(** The state and the trace a method leaves behind. *)
Definition stateOf {A : Type} (r : Completion A * Widget * list Effect) : Widget := snd (fst r).
Definition traceOf {A : Type} (r : Completion A * Widget * list Effect) : list Effect := snd r.
Definition completionOf {A : Type} (r : Completion A * Widget * list Effect) : Completion A :=
  fst (fst r).

(** JavaScript truthiness of the values the widget tests. *)
Definition truthy {A : Type} (o : option A) : bool :=
  match o with Some _ => true | None => false end.

Definition truthyZ (o : option Z) : bool :=
  match o with Some z => negb (z =? 0) | None => false end.

Definition truthyString (o : option string) : bool :=
  match o with Some EmptyString => false | Some _ => true | None => false end.

(** [candles[candles.length - 1]]. *)
Definition latest (cs : list Candle) : option Candle := cs !! (length cs - 1)%nat.

Definition set_candles (cs : list Candle) (d : ChartData) : ChartData :=
  mkChartData cs (lastUpdate d) (isLoading d) (error d).

(** [x || 0] on an optional count. *)
Definition orZero (o : option Z) : Z :=
  match o with Some n => n | None => 0 end.

Definition isDark (w : Widget) : bool :=
  match o_theme (options w) with dark => true | light => false end.

(** [priceSeriesType === 'candle'] and [priceSeriesType === 'line']. *)
Definition isCandle (t : PriceSeriesType) : bool :=
  match t with candle => true | line => false end.

Definition isLine (t : PriceSeriesType) : bool :=
  match t with line => true | candle => false end.

(** ['light'] and ['dark'] are non-empty strings. *)
Definition truthyTheme (th : Theme) : bool :=
  match th with light => true | dark => true end.

(** [s.replace('#', '')]: the first ['#'] is dropped. *)
Fixpoint replaceHash (s : string) : string :=
  match s with
  | EmptyString => EmptyString
  | String c r => if Ascii.eqb c "#"%char then r else String c (replaceHash r)
  end.

Section WithHost.
Context (host : Host).
Local Open Scope method_scope.

(** ** Data adapter *)

(** The four lines the three conversions share:
    [utcTimestamp - new Date(utcTimestamp * 1000).getTimezoneOffset() * 60]. *)
Definition localTimestamp (utcTimestamp : Z) : Z :=
  let timezoneOffsetSeconds := getTimezoneOffset host (utcTimestamp * 1000) * 60 in
  utcTimestamp - timezoneOffsetSeconds.

Definition convertCandleToChartData (c : Candle) : CandlestickData :=
  {| bar_time := localTimestamp (Timestamp c);
     bar_open := OpenPrice c;
     bar_high := HighPrice c;
     bar_low := LowPrice c;
     bar_close := ClosePrice c |}.

Definition convertCandleToAreaData (c : Candle) : LineData :=
  {| line_time := localTimestamp (Timestamp c);
     line_value := ClosePrice c |}.

Definition convertCandleToVolumeData (dark_theme : bool) (c : Candle) : HistogramData :=
  let isUp := Qgeb (ClosePrice c) (OpenPrice c) in
  let color :=
    (if isUp then (if dark_theme then "#00d4aa80" else "#26a69a40")
     else (if dark_theme then "#ff6b6b80" else "#ef535040"))%string in
  {| vol_time := localTimestamp (Timestamp c);
     vol_value := VolumeIn c;
     vol_color := color |}.

(** ** Legend renderer *)

(** The predicate of [candles.find] in [updateLegend]. *)
Definition matchesCrosshair (crosshairTime : Z) (c : Candle) : bool :=
  Z.abs (localTimestamp (Timestamp c) - crosshairTime) <? 60.

Definition findMatchingCandle (cs : list Candle) (crosshairTime : Z) : option Candle :=
  List.find (matchesCrosshair crosshairTime) cs.

Definition candleChange (c : Candle) : Q :=
  if Qgtb (OpenPrice c) 0
  then pct (ClosePrice c - OpenPrice c)%Q (OpenPrice c)
  else 0%Q.

Definition candleFluctuation (c : Candle) : Q :=
  if Qgtb (OpenPrice c) 0
  then pct (HighPrice c - LowPrice c)%Q (OpenPrice c)
  else 0%Q.

Definition upColor (dark_theme : bool) : string :=
  (if dark_theme then "#00d4aa" else "#26a69a")%string.

Definition downColor (dark_theme : bool) : string :=
  (if dark_theme then "#ff6b6b" else "#ef5350")%string.

Definition candleMetrics (dark_theme : bool) (c : Candle) : CandleMetrics :=
  {| m_volume := VolumeIn c;
     m_candleChange := candleChange c;
     m_candleChangeColor :=
       if Qgeb (candleChange c) 0 then upColor dark_theme else downColor dark_theme;
     m_candleFluctuation := candleFluctuation c |}.

(** The block guarded by
    [crosshairParam && crosshairParam.time && crosshairParam.seriesData
     && this.candlestickSeries]. *)
Definition hoverView (this : Widget) (crosshairParam : option CrosshairParam)
  : option HoverView :=
  match crosshairParam with
  | Some p =>
      match cp_time p, cp_seriesData p, candlestickSeries this with
      | Some crosshairTime, Some seriesData, Some s =>
          if crosshairTime =? 0 then None
          else
            match seriesData s with
            | Some data =>
                let matchingCandle :=
                  findMatchingCandle (candles (chartData this)) crosshairTime in
                Some {| h_data := data;
                        h_metrics := option_map (candleMetrics (isDark this)) matchingCandle |}
            | None => None
            end
      | _, _, _ => None
      end
  | None => None
  end.

Definition legendView (this : Widget) (crosshairParam : option CrosshairParam)
  : LegendView :=
  let dark_theme := isDark this in
  {| l_tokenName :=
       (if truthyString (o_symbol (options this))
        then match o_symbol (options this) with Some s => s | None => "Token" end
        else "Token")%string;
     l_price := currentPrice this;
     l_rate24h := priceChange this;
     l_rateColor :=
       if Qgeb (priceChange this) 0 then upColor dark_theme else downColor dark_theme;
     l_priceColor :=
       (if Qgtb (priceChange this) 0 then upColor dark_theme
        else if Qgtb 0 (priceChange this) then downColor dark_theme
        else if dark_theme then "#64b5f6" else "#2196f3")%string;
     l_ohlc := hoverView this crosshairParam |}.

Definition updateLegend (crosshairParam : option CrosshairParam) : M unit :=
  this <- gets id ;;
  if negb (truthy (legendElement this)) || negb (truthy (chart this)) then ret tt
  else
    _ <- deref legendElement ;;
    call (SetLegendHTML (legendView this crosshairParam)).

(** The handler passed to [subscribeCrosshairMove]. *)
Definition onCrosshairMove (param : option CrosshairParam) : M unit :=
  style <- gets (fun w => o_legendStyle (options w)) ;;
  match style with
  | legend_complex => updateLegend param
  | _ => ret tt
  end.

(** ** Update reconciler *)

Definition updateChart (data : ChartData) : M unit :=
  this <- gets id ;;
  if (length (candles data) =? 0)%nat then ret tt
  else
    (if isCandle (o_priceSeriesType (options this)) && truthy (candlestickSeries this)
     then
       s <- deref candlestickSeries ;;
       call (SetData s (map (fun c => BarPoint (convertCandleToChartData c)) (candles data)))
     else if isLine (o_priceSeriesType (options this)) && truthy (lineSeries this)
     then
       s <- deref lineSeries ;;
       call (SetData s (map (fun c => LinePoint (convertCandleToAreaData c)) (candles data)))
     else ret tt) ;;
    when (o_showVolume (options this) && truthy (volumeSeries this))
      (s <- deref volumeSeries ;;
       call (SetData s
               (map (fun c => VolumePoint (convertCandleToVolumeData (isDark this) c))
                    (candles data)))) ;;
    when (truthy (chart this) && (0 <? length (candles data))%nat)
      (_ <- deref chart ;;
       call FitContent).

Definition updateSingleCandle (c : Candle) : M unit :=
  assign (set_currentPrice (Some (ClosePrice c))) ;;
  this <- gets id ;;
  (if isCandle (o_priceSeriesType (options this)) && truthy (candlestickSeries this)
   then
     s <- deref candlestickSeries ;;
     call (Update s (BarPoint (convertCandleToChartData c)))
   else if isLine (o_priceSeriesType (options this)) && truthy (lineSeries this)
   then
     s <- deref lineSeries ;;
     call (Update s (LinePoint (convertCandleToAreaData c)))
   else ret tt) ;;
  when (truthyTheme (o_theme (options this)) && truthy (volumeSeries this))
    (s <- deref volumeSeries ;;
     call (Update s (VolumePoint (convertCandleToVolumeData (isDark this) c)))) ;;
  when (truthy (chart this))
    (_ <- deref chart ;;
     call ScrollToRealTime).

Definition MAX_INCREMENTAL_CANDLES : Z := 50.

Definition handleChartUpdate (data : ChartData) : M unit :=
  assign (set_chartData data) ;;
  previousCount <- gets previousCandleCount ;;
  let currentCount := length (candles data) in
  let candleCountDiff := Z.of_nat currentCount - Z.of_nat previousCount in
  initial <- gets isInitialLoad ;;
  let isIncrementalUpdate :=
    negb initial && (0 <? currentCount)%nat && (0 <=? candleCountDiff)
    && (candleCountDiff <=? MAX_INCREMENTAL_CANDLES) in
  (if isIncrementalUpdate && (0 <? length (candles data))%nat
   then
     if (candleCountDiff =? 0) || (candleCountDiff =? 1)
     then match latest (candles data) with
          | Some latestCandle => updateSingleCandle latestCandle
          | None => ret tt
          end
     else updateChart data
   else
     updateChart data ;;
     assign (set_isInitialLoad false)) ;;
  assign (set_previousCandleCount currentCount) ;;
  when (0 <? length (candles data))%nat
    (match latest (candles data) with
     | Some latestCandle =>
         assign (set_currentPrice (Some (ClosePrice latestCandle))) ;;
         when (1 <? length (candles data))%nat
           (match candles data !! 0%nat with
            | Some firstCandle =>
                when (Qgtb (OpenPrice firstCandle) 0)
                  (assign (set_priceChange
                             (pct (ClosePrice latestCandle - OpenPrice firstCandle)%Q
                                  (OpenPrice firstCandle))))
            | None => ret tt
            end) ;;
         style <- gets (fun w => o_legendStyle (options w)) ;;
         match style with
         | legend_none => ret tt
         | _ => updateLegend None
         end
     | None => ret tt
     end) ;;
  cb <- gets (fun w => o_onDataUpdate (options w)) ;;
  when cb (call (CallOnDataUpdate data)).

(** The object literal [{ ...latestCandle, ClosePrice: ..., ... }]. *)
Definition mergeTrade (latestCandle : Candle) (trade : RealTimeTrade) : Candle :=
  {| Timestamp := Timestamp latestCandle;
     OpenPrice := OpenPrice latestCandle;
     HighPrice := Qmax (HighPrice latestCandle) (Price trade);
     LowPrice := Qmin (LowPrice latestCandle) (Price trade);
     ClosePrice := Price trade;
     VolumeIn := (VolumeIn latestCandle + USD trade)%Q;
     VolumeOut := (VolumeOut latestCandle + Amount trade)%Q;
     TransactionCount := Some (orZero (TransactionCount latestCandle) + 1) |}.

(** [Math.floor(trade.TradeTime / 60) * 60]. *)
Definition tradeMinuteTimestamp (trade : RealTimeTrade) : Z := TradeTime trade / 60 * 60.

(** The write [candles[length - 1] = updatedCandle] goes to the array the
    SDK handed over in the last snapshot; the model keeps the widget's view
    of it. *)
Definition handleTrade (trade : RealTimeTrade) : M unit :=
  assign (set_currentPrice (Some (Price trade))) ;;
  assign (set_previousPrice (Price trade)) ;;
  style <- gets (fun w => o_legendStyle (options w)) ;;
  match style with
  | legend_none => ret tt
  | _ => updateLegend None
  end ;;
  cs <- gets (fun w => candles (chartData w)) ;;
  when (0 <? length cs)%nat
    (match latest cs with
     | Some latestCandle =>
         let timeDiff := tradeMinuteTimestamp trade - Timestamp latestCandle in
         when ((0 <=? timeDiff) && (timeDiff <=? 120))
           (let updatedCandle := mergeTrade latestCandle trade in
            assign (fun w =>
                      set_chartData
                        (set_candles (<[(length cs - 1)%nat := updatedCandle]> cs)
                                     (chartData w)) w) ;;
            updateSingleCandle updatedCandle)
     | None => ret tt
     end) ;;
  cb <- gets (fun w => o_onTrade (options w)) ;;
  when cb (call (CallOnTrade trade)).

(** ** Widget controller *)

(** The [container] expression at the top of [initializeChart]. *)
Definition resolveContainer (o : Options) : option Element :=
  match o_container o with
  | inl selector =>
      match getElementById host (replaceHash selector) with
      | Some el => Some el
      | None => querySelector host selector
      end
  | inr el => Some el
  end.

(** The template string [`${this.options.container}`]. *)
Definition containerText (o : Options) : string :=
  match o_container o with
  | inl selector => selector
  | inr _ => "[object HTMLElement]"%string
  end.

Definition legendDiv : Element := Elem "chart-legend".

Definition initializeChart : M unit :=
  this <- gets id ;;
  match resolveContainer (options this) with
  | None =>
      throw (String.append "Chart container not found: " (containerText (options this)))
  | Some containerElement =>
      when (computedPositionIsStatic host containerElement)
        (call (SetPositionRelative containerElement)) ;;
      call (CreateChart containerElement
              (if truthyZ (o_width (options this)) then o_width (options this) else None)
              (if truthyZ (o_height (options this)) then o_height (options this) else None)
              (o_theme (options this))) ;;
      assign (set_chart (Some (ChartApi containerElement))) ;;
      match o_priceSeriesType (options this) with
      | candle =>
          _ <- deref chart ;;
          call (AddSeries CandlestickSeries (Some 0%nat)) ;;
          assign (set_candlestickSeries (Some CandlestickSeries))
      | line =>
          _ <- deref chart ;;
          call (AddSeries LineSeries None) ;;
          assign (set_lineSeries (Some LineSeries))
      end ;;
      when (o_showVolume (options this))
        (_ <- deref chart ;;
         call (AddSeries HistogramSeries (Some 1%nat)) ;;
         assign (set_volumeSeries (Some HistogramSeries)) ;;
         call (SetStretchFactor 0 (9 # 10)) ;;
         call (SetStretchFactor 1 (1 # 10))) ;;
      match o_legendStyle (options this) with
      | legend_none => ret tt
      | _ =>
          assign (set_legendElement (Some legendDiv)) ;;
          _ <- deref legendElement ;;
          call (AppendLegend containerElement legendDiv) ;;
          _ <- deref chart ;;
          call SubscribeCrosshairMove
      end ;;
      updateLegend None
  end.

Definition initializeSDK : M unit :=
  call SdkCreate ;;
  assign (set_sdk (Some Sdk)) ;;
  _ <- deref sdk ;;
  call SdkRegisterCallbacks ;;
  _ <- deref sdk ;;
  call SdkConnectWebSocket.

Definition emptyChartData : ChartData :=
  {| candles := []; lastUpdate := None; isLoading := true; error := None |}.

(** How the promise of [sdk.initialize(tokenId, true)] settles. *)
Inductive InitializeOutcome : Type :=
| InitResolved
| InitRejectedError (message : string)
| InitRejectedOther.

(** [loadTokenData] up to [await this.sdk.initialize(...)]; the result
    tells whether the await was reached. *)
Definition loadTokenData_begin (token : string) : M bool :=
  s <- gets sdk ;;
  if negb (truthy s) then ret false
  else
    assign (set_isInitialLoad true) ;;
    assign (set_previousCandleCount 0%nat) ;;
    assign (set_chartData emptyChartData) ;;
    _ <- deref sdk ;;
    call (SdkInitialize token) ;;
    ret true.

(** [loadTokenData] after the await: the timer of the [try] block, or the
    [catch] block. *)
Definition loadTokenData_resume (outcome : InitializeOutcome) : M unit :=
  match outcome with
  | InitResolved => call (SetTimeout 1000)
  | _ =>
      let errorMessage :=
        match outcome with
        | InitRejectedError message => message
        | _ => "Failed to load token data"%string
        end in
      assign (fun w =>
                set_chartData
                  (mkChartData (candles (chartData w)) (lastUpdate (chartData w))
                               false (Some errorMessage)) w) ;;
      cb <- gets (fun w => o_onError (options w)) ;;
      when cb (call (CallOnError errorMessage))
  end.

(** What the polling loop observes: [Date.now()] when the wait starts, and
    at the [k]-th run of [checkConnection] the transport's [isConnected] and
    [Date.now()]. *)
Record Transport : Type := mkTransport {
  startTime : Z;
  isConnectedAt : nat -> bool;
  nowAt : nat -> Z
}.

(** [checkConnection], re-armed by [setTimeout(checkConnection, 100)].  The
    result is [None] while the promise is still pending after [fuel] runs. *)
Fixpoint checkConnection (tr : Transport) (maxWaitMs : Z) (fuel k : nat)
  : option (bool * list Effect) :=
  match fuel with
  | O => None
  | S fuel' =>
      if isConnectedAt tr k then Some (true, [SdkGetSubscriptionStatus])
      else if nowAt tr k - startTime tr >? maxWaitMs
           then Some (false, [SdkGetSubscriptionStatus])
           else
             match checkConnection tr maxWaitMs fuel' (S k) with
             | Some (b, t) => Some (b, SdkGetSubscriptionStatus :: SetTimeout 100 :: t)
             | None => None
             end
  end.

Definition waitForWebSocketConnection (tr : Transport) (maxWaitMs : Z) (fuel : nat)
  : option (bool * list Effect) :=
  checkConnection tr maxWaitMs fuel 0.

(** The timer callback of [loadTokenData] up to its await: [false] when it
    returns at [if (!this.sdk) return]. *)
Definition subscribeTimer_begin : M bool :=
  s <- gets sdk ;;
  ret (truthy s).

(** The timer callback after the await; [this.sdk] is read again. *)
Definition subscribeTimer_resume (isConnected : bool) (token : string) : M unit :=
  when isConnected
    (_ <- deref sdk ;;
     call (SdkSubscribe token)).

(** The whole timer callback when nothing else touches the widget while it
    waits. *)
Definition subscribeTimer (tr : Transport) (fuel : nat) (token : string) (w : Widget)
  : option (Completion unit * Widget * list Effect) :=
  match subscribeTimer_begin w with
  | (Normal true, w1, t1) =>
      match waitForWebSocketConnection tr 5000 fuel with
      | Some (isConnected, t2) =>
          match subscribeTimer_resume isConnected token w1 with
          | (r, w2, t3) => Some (r, w2, t1 ++ t2 ++ t3)
          end
      | None => None
      end
  | (Normal false, w1, t1) => Some (Normal tt, w1, t1)
  | (Throw msg, w1, t1) => Some (Throw msg, w1, t1)
  end.

(** [initialize] is asynchronous.  Up to its first [await] it runs the body
    of [initializeSDK], inside the constructor's call. *)
Definition initialize_begin : M unit := initializeSDK.

(** [initialize] after [await this.initializeSDK()], run as a microtask once
    the constructor has returned: [initializeChart], then [loadTokenData] up
    to its own await.  The result tells whether that await was reached. *)
Definition initialize_resume : M bool :=
  initializeChart ;;
  this <- gets id ;;
  if truthy (sdk this) && negb (String.eqb (o_tokenId (options this)) "")
  then loadTokenData_begin (o_tokenId (options this))
  else ret false.

Definition destroy : M unit :=
  s <- gets sdk ;;
  when (truthy s)
    (_ <- deref sdk ;;
     call SdkDestroy ;;
     assign (set_sdk None)) ;;
  c <- gets chart ;;
  when (truthy c)
    (_ <- deref chart ;;
     call ChartRemove ;;
     assign (set_chart None)).

End WithHost.

(** The object spread [{ showVolume: false, ..., ...options }].  The type
    of [this.options] makes the four defaulted fields required, so an option
    passed explicitly as [undefined] is not represented. *)
Definition applyDefaults (o : WidgetOptions) : Options :=
  {| o_container := container o;
     o_tokenId := tokenId o;
     o_symbol := symbol o;
     o_height := height o;
     o_width := width o;
     o_showVolume := match showVolume o with Some b => b | None => false end;
     o_priceSeriesType := match priceSeriesType o with Some t => t | None => candle end;
     o_theme := match theme o with Some t => t | None => light end;
     o_legendStyle := match legendStyle o with Some l => l | None => legend_complex end;
     o_onError := onError o;
     o_onDataUpdate := onDataUpdate o;
     o_onTrade := onTrade o;
     o_onConnectionChange := onConnectionChange o |}.

(** The field initialisers of the class and the first statement of the
    constructor. *)
Definition newWidget (o : WidgetOptions) : Widget :=
  {| chart := None;
     legendElement := None;
     candlestickSeries := None;
     lineSeries := None;
     volumeSeries := None;
     sdk := None;
     chartData := emptyChartData;
     currentPrice := None;
     priceChange := 0;
     previousCandleCount := 0;
     isInitialLoad := true;
     options := applyDefaults o;
     previousPrice := 0 |}.

(** [new FiPulseChartWidget(options)].  The call [this.initialize()] runs
    [initialize] up to its first await and yields a promise; a throw inside
    an asynchronous function settles that promise and does not reach the
    caller, and the constructor only chains [.then] on it. *)
Definition constructor (o : WidgetOptions) : Completion Widget * list Effect :=
  match initialize_begin (newWidget o) with
  | (_, w, t) => (Normal w, t)
  end.

(** [FiPulseWidget.create]. *)
Definition create (o : WidgetOptions) : Completion Widget * list Effect := constructor o.

(** How the promise of [initialize()] stands after the microtask: pending on
    [loadTokenData]'s await, fulfilled, or rejected. *)
Inductive PromiseState : Type :=
| Pending
| Fulfilled
| Rejected (reason : string).

Definition initializePromise (host : Host) (w : Widget)
  : PromiseState * Widget * list Effect :=
  match initialize_resume host w with
  | (Normal true, w', t) => (Pending, w', t)
  | (Normal false, w', t) => (Fulfilled, w', t)
  | (Throw msg, w', t) => (Rejected msg, w', t)
  end.

(** ** Observing a trace *)

Definition Series_eqb (a b : Series) : bool :=
  match a, b with
  | CandlestickSeries, CandlestickSeries => true
  | LineSeries, LineSeries => true
  | HistogramSeries, HistogramSeries => true
  | _, _ => false
  end.

(** The points passed to [update] on series [s], in call order. *)
Fixpoint updatesOn (s : Series) (t : list Effect) : list Point :=
  match t with
  | [] => []
  | Update s' pt :: t' =>
      if Series_eqb s s' then pt :: updatesOn s t' else updatesOn s t'
  | _ :: t' => updatesOn s t'
  end.

(** The point lists passed to [setData] on series [s], in call order. *)
Fixpoint setDataOn (s : Series) (t : list Effect) : list (list Point) :=
  match t with
  | [] => []
  | SetData s' pts :: t' =>
      if Series_eqb s s' then pts :: setDataOn s t' else setDataOn s t'
  | _ :: t' => setDataOn s t'
  end.

Definition isUpdate (e : Effect) : bool :=
  match e with Update _ _ => true | _ => false end.

Definition isSetData (e : Effect) : bool :=
  match e with SetData _ _ => true | _ => false end.

Definition isSubscribe (e : Effect) : bool :=
  match e with SdkSubscribe _ => true | _ => false end.

Definition isOnError (e : Effect) : bool :=
  match e with CallOnError _ => true | _ => false end.

(** The calls that reach a series or the time scale of the chart. *)
Definition isChartCall (e : Effect) : bool :=
  match e with
  | SetData _ _ | Update _ _ | FitContent | ScrollToRealTime => true
  | _ => false
  end.

Definition chartCalls (t : list Effect) : list Effect := List.filter isChartCall t.

(** How many calls of a kind a trace holds. *)
Definition countCalls (p : Effect -> bool) (t : list Effect) : nat :=
  length (List.filter p t).

(** The series that [priceSeriesType] selects. *)
Definition activePriceSeries (w : Widget) : Series :=
  match o_priceSeriesType (options w) with
  | candle => CandlestickSeries
  | line => LineSeries
  end.

(** The adapter conversion that feeds the active price series. *)
Definition pricePoint (host : Host) (w : Widget) (c : Candle) : Point :=
  match o_priceSeriesType (options w) with
  | candle => BarPoint (convertCandleToChartData host c)
  | line => LinePoint (convertCandleToAreaData host c)
  end.

Definition volumePoint (host : Host) (w : Widget) (c : Candle) : Point :=
  VolumePoint (convertCandleToVolumeData host (isDark w) c).

(** The state [initializeChart] leaves behind when it returns: the chart
    exists, exactly the price series that [priceSeriesType] selects exists,
    and the volume series exists if and only if [showVolume] is set. *)
Definition ready (w : Widget) : bool :=
  truthy (chart w)
  && match o_priceSeriesType (options w), candlestickSeries w, lineSeries w with
     | candle, Some CandlestickSeries, None => true
     | line, None, Some LineSeries => true
     | _, _, _ => false
     end
  && match o_showVolume (options w), volumeSeries w with
     | true, Some HistogramSeries => true
     | false, None => true
     | _, _ => false
     end.

(** ** A concrete page, used to run the model *)

Module Demo.

(** A browser two hours east of UTC whose document holds [<div id="c">]. *)
Definition host : Host :=
  {| getTimezoneOffset := fun _ => -120;
     getElementById := fun i => if String.eqb i "c" then Some (Elem "c") else None;
     querySelector := fun _ => None;
     computedPositionIsStatic := fun _ => true |}.

Definition opts (sel : string) (ty : PriceSeriesType) (vol : bool) : WidgetOptions :=
  {| container := inl sel;
     tokenId := "1-0xabc";
     symbol := Some "BTC/USDT"%string;
     height := None;
     width := None;
     showVolume := Some vol;
     priceSeriesType := Some ty;
     theme := None;
     legendStyle := None;
     onError := true;
     onDataUpdate := true;
     onTrade := true;
     onConnectionChange := false |}.

(** The widget once [initialize] has run up to [loadTokenData]'s await. *)
Definition mounted (sel : string) (ty : PriceSeriesType) (vol : bool) : Widget :=
  match constructor (opts sel ty vol) with
  | (Normal w, _) => snd (fst (initializePromise host w))
  | (Throw _, _) => newWidget (opts sel ty vol)
  end.

Definition bar (ts : Z) (o h l c v : Q) : Candle :=
  {| Timestamp := ts; OpenPrice := o; HighPrice := h; LowPrice := l; ClosePrice := c;
     VolumeIn := v; VolumeOut := 1; TransactionCount := Some 3 |}.

Definition snapshot (cs : list Candle) : ChartData :=
  {| candles := cs; lastUpdate := None; isLoading := false; error := None |}.

Definition c1 : Candle := bar 600 100 110 95 105 1000.
Definition c2 : Candle := bar 660 105 108 101 102 500.
Definition c3 : Candle := bar 720 102 120 102 118 700.

(** The widget after a first snapshot [cs]. *)
Definition loaded (ty : PriceSeriesType) (vol : bool) (cs : list Candle) : Widget :=
  stateOf (handleChartUpdate host (snapshot cs) (mounted "#c" ty vol)).

End Demo.

(** ** Events pushed by the collaborators *)

Inductive CallbackEvent : Type :=
| ChartUpdateEvent (data : ChartData)
| TradeEvent (trade : RealTimeTrade)
| CrosshairMoveEvent (param : option CrosshairParam).

(** The handler the widget registered for an event. *)
Definition fire (host : Host) (ev : CallbackEvent) : M unit :=
  match ev with
  | ChartUpdateEvent data => handleChartUpdate host data
  | TradeEvent trade => handleTrade host trade
  | CrosshairMoveEvent param => onCrosshairMove host param
  end.

(** The handlers run one after the other; an exception ends the run. *)
Fixpoint fireAll (host : Host) (evs : list CallbackEvent) : M unit :=
  match evs with
  | [] => ret tt
  | ev :: evs' => bind (fire host ev) (fun _ => fireAll host evs')
  end.

(** ** Inputs for concrete runs *)

(** Two candles thirty seconds apart. *)
Definition closeCandles : list Candle :=
  [Demo.bar 600 100 110 95 105 1000; Demo.bar 630 105 108 101 102 500].

Definition c4 : Candle := Demo.bar 780 118 119 117 118 50.

Definition trade30 : RealTimeTrade :=
  {| Price := 119; Amount := 2; USD := 238; TradeTime := 750 |}.

(** A hover at shifted time [t] over a bar of the candlestick series. *)
Definition hoverAt (t : Z) : CrosshairParam :=
  {| cp_time := Some t;
     cp_seriesData :=
       Some (fun s => match s with
                      | CandlestickSeries => Some (mkBar t 105 108 101 102)
                      | _ => None
                      end) |}.

(** A transport that never connects, polled exactly every 100 ms. *)
Definition deadTransport : Transport :=
  {| startTime := 1000; isConnectedAt := fun _ => false;
     nowAt := fun k => 1000 + 100 * Z.of_nat k |}.

(** A transport that connects at the 52nd poll, 5100 ms into the wait. *)
Definition lateTransport : Transport :=
  {| startTime := 0; isConnectedAt := fun k => (k =? 51)%nat;
     nowAt := fun k => 100 * Z.of_nat k |}.

(** ** Notions used by the statements *)

(** [w'] has the handles and the options of [w]. *)
Definition sameHandles (w w' : Widget) : Prop :=
  chart w' = chart w /\ legendElement w' = legendElement w
  /\ candlestickSeries w' = candlestickSeries w /\ lineSeries w' = lineSeries w
  /\ volumeSeries w' = volumeSeries w /\ sdk w' = sdk w /\ options w' = options w.

(** The [k]-th run of [checkConnection] takes place: every earlier run saw
    the transport disconnected and the ceiling not yet passed. *)
Definition reached (tr : Transport) (maxWaitMs : Z) (k : nat) : Prop :=
  forall j, (j < k)%nat ->
    isConnectedAt tr j = false /\ nowAt tr j - startTime tr <= maxWaitMs.

(** ** The remaining methods of the class *)

(** Calls on the chart that only [updateVolumeSeries] and [resize] make,
    beside the calls of [Effect]. *)
Inductive ChartCommand : Type :=
| Core (e : Effect)
| ApplyLeftPriceScale (visible : bool) (borderColor : option string)
| ApplySize (w h : option Z)
| RemoveSeries (s : Series).

(** [updateVolumeSeries], in state-passing form.  No caller exists in the
    class; the method is private. *)
Definition updateVolumeSeries (host : Host) (w : Widget)
  : Completion unit * Widget * list ChartCommand :=
  match chart w with
  | None => (Normal tt, w, [])
  | Some _ =>
      if o_showVolume (options w)
      then
        let created :=
          match volumeSeries w with
          | None =>
              (set_volumeSeries (Some HistogramSeries) w,
               [Core (AddSeries HistogramSeries (Some 1%nat));
                Core (SetStretchFactor 0 (9 # 10));
                Core (SetStretchFactor 1 (1 # 10))])
          | Some _ => (w, [])
          end in
        let w1 := fst created in
        let filled :=
          if (0 <? length (candles (chartData w1)))%nat
          then
            match volumeSeries w1 with
            | Some s =>
                Normal
                  [Core (SetData s
                           (map (fun c =>
                                   VolumePoint (convertCandleToVolumeData host (isDark w1) c))
                                (candles (chartData w1))))]
            | None => Throw "TypeError: Cannot read properties of null"
            end
          else Normal [] in
        match filled with
        | Normal t2 =>
            (Normal tt, w1,
             snd created ++ t2
             ++ [ApplyLeftPriceScale true
                   (Some (if isDark w1 then "#444444" else "#cccccc")%string)])
        | Throw msg => (Throw msg, w1, snd created)
        end
      else
        let removed :=
          match volumeSeries w with
          | Some s =>
              (set_volumeSeries None w,
               [RemoveSeries s; Core (SetStretchFactor 0 1)])
          | None => (w, [])
          end in
        (Normal tt, fst removed, snd removed ++ [ApplyLeftPriceScale false None])
  end.

(** [resize(width?, height?)]. *)
Definition resize (width height : option Z) (w : Widget)
  : Completion unit * Widget * list ChartCommand :=
  match chart w with
  | Some _ => (Normal tt, w, [ApplySize width height])
  | None => (Normal tt, w, [])
  end.

(** ** More notions used by the statements *)

Definition isAddSeriesCommand (c : ChartCommand) : bool :=
  match c with Core (AddSeries _ _) => true | _ => false end.

Definition isRemoveSeriesCommand (c : ChartCommand) : bool :=
  match c with RemoveSeries _ => true | _ => false end.

Definition countCommands (p : ChartCommand -> bool) (t : list ChartCommand) : nat :=
  length (List.filter p t).


(** What a live update sends to the chart for candle [c]. *)
Definition liveCalls (host : Host) (w : Widget) (c : Candle) : list Effect :=
  Update (activePriceSeries w) (pricePoint host w c)
    :: (if o_showVolume (options w)
        then [Update HistogramSeries (volumePoint host w c)] else [])
    ++ [ScrollToRealTime].

(** What a full replace sends to the chart for the candles [cs]. *)
Definition replaceCalls (host : Host) (w : Widget) (cs : list Candle) : list Effect :=
  SetData (activePriceSeries w) (map (pricePoint host w) cs)
    :: (if o_showVolume (options w)
        then [SetData HistogramSeries (map (volumePoint host w) cs)] else [])
    ++ [FitContent].

Definition isLegendCall (e : Effect) : bool :=
  match e with SetLegendHTML _ => true | _ => false end.

Definition isOnTrade (e : Effect) : bool :=
  match e with CallOnTrade _ => true | _ => false end.

Definition isOnDataUpdate (e : Effect) : bool :=
  match e with CallOnDataUpdate _ => true | _ => false end.

Definition isTimer (e : Effect) : bool :=
  match e with SetTimeout _ => true | _ => false end.

Definition isSdkInitialize (e : Effect) : bool :=
  match e with SdkInitialize _ => true | _ => false end.

Definition isCreateChart (e : Effect) : bool :=
  match e with CreateChart _ _ _ _ => true | _ => false end.

(** The series kinds passed to [addSeries], in call order. *)
Fixpoint addedSeries (t : list Effect) : list Series :=
  match t with
  | [] => []
  | AddSeries s _ :: t' => s :: addedSeries t'
  | _ :: t' => addedSeries t'
  end.

(** How many series the widget feeds: the price series, and the volume
    series when volume is shown. *)
Definition activeSeriesCount (w : Widget) : nat :=
  if o_showVolume (options w) then 2%nat else 1%nat.

(** The widget as the constructor leaves it: no chart, no legend element,
    no series handle. *)
Definition unmounted (w : Widget) : Prop :=
  chart w = None /\ legendElement w = None
  /\ candlestickSeries w = None /\ lineSeries w = None /\ volumeSeries w = None.

(** Strictly increasing times. *)
Definition ascending (l : list Z) : Prop :=
  forall i j x y, (i < j)%nat -> l !! i = Some x -> l !! j = Some y -> x < y.

(** The message [loadTokenData] reports for a rejected [sdk.initialize]. *)
Definition loadErrorMessage (outcome : InitializeOutcome) : string :=
  match outcome with
  | InitRejectedError message => message
  | _ => "Failed to load token data"%string
  end.

(** The shifted timestamps of distinct candles of [cs] are at least 60
    seconds apart. *)
Definition minuteSpaced (host : Host) (cs : list Candle) : Prop :=
  forall i j ci cj,
    cs !! i = Some ci -> cs !! j = Some cj -> i <> j ->
    60 <= Z.abs (localTimestamp host (Timestamp ci) - localTimestamp host (Timestamp cj)).

(** What [updateLegend(null)] writes when a handler calls it behind the
    test [legendStyle !== 'none']. *)
Definition renderCalls (host : Host) (w : Widget) : list Effect :=
  match o_legendStyle (options w) with
  | legend_none => []
  | _ =>
      if truthy (legendElement w) && truthy (chart w)
      then [SetLegendHTML (legendView host w None)] else []
  end.

(** The trade's minute bucket falls in the merge window of candle [c]. *)
Definition inMergeWindow (trade : RealTimeTrade) (c : Candle) : bool :=
  (0 <=? tradeMinuteTimestamp trade - Timestamp c)
  && (tradeMinuteTimestamp trade - Timestamp c <=? 120).

(** ** More inputs for concrete runs *)

Definition c5 : Candle := Demo.bar 840 118 121 116 120 80.

Definition trade31 : RealTimeTrade :=
  {| Price := 116; Amount := 1; USD := 116; TradeTime := 790 |}.

(** Options without a token, a legend or callbacks. *)
Definition plainOpts : WidgetOptions :=
  {| container := inl "#c"%string;
     tokenId := ""%string;
     symbol := None;
     height := None;
     width := None;
     showVolume := None;
     priceSeriesType := None;
     theme := None;
     legendStyle := Some legend_none;
     onError := false;
     onDataUpdate := false;
     onTrade := false;
     onConnectionChange := false |}.

(** The widget that [create] returns for the options [o]. *)
Definition created (o : WidgetOptions) : Widget :=
  match create o with
  | (Normal w, _) => w
  | (Throw _, _) => newWidget o
  end.

(** The widget for [plainOpts] once the chart is mounted. *)
Definition plainMounted : Widget :=
  snd (fst (initializePromise Demo.host (created plainOpts))).

(** A snapshot, a trade and a hover, in this order. *)
Definition someEvents : list CallbackEvent :=
  [ChartUpdateEvent (Demo.snapshot [Demo.c1; Demo.c2; Demo.c3]);
   TradeEvent trade30;
   CrosshairMoveEvent (Some (hoverAt 7860))].

(** The calls of a wait that resolves at the poll number [k] (counting
    from 0): a status read and a 100 ms timer for each earlier poll, and the
    last status read. *)
Fixpoint pollsThenResolve (k : nat) : list Effect :=
  match k with
  | O => [SdkGetSubscriptionStatus]
  | S k' => SdkGetSubscriptionStatus :: SetTimeout 100 :: pollsThenResolve k'
  end.

Definition isStatusRead (e : Effect) : bool :=
  match e with SdkGetSubscriptionStatus => true | _ => false end.

(** * Properties *)

(** ** Running methods *)

(** Unfold the operations of the method monad. *)
Ltac unfold_m :=
  cbv [bind ret gets assign emit call deref throw when stateOf traceOf completionOf id].

Lemma latest_nonempty (cs : list Candle) :
  cs <> [] -> exists c, latest cs = Some c.
Proof.
  intros H. unfold latest.
  destruct (lookup_lt_is_Some_2 cs (length cs - 1)%nat) as [c Hc].
  - destruct cs; [congruence | simpl; lia].
  - eauto.
Qed.

Lemma latest_snoc (cs : list Candle) (c : Candle) : latest (cs ++ [c]) = Some c.
Proof.
  unfold latest. rewrite length_app. simpl.
  replace (length cs + 1 - 1)%nat with (length cs + 0)%nat by lia.
  rewrite lookup_app_r by lia.
  replace (length cs + 0 - length cs)%nat with 0%nat by lia. reflexivity.
Qed.

Lemma latest_empty : latest [] = None.
Proof. reflexivity. Qed.

Lemma latest_insert (cs : list Candle) (c u : Candle) :
  latest cs = Some c -> latest (<[(length cs - 1)%nat := u]> cs) = Some u.
Proof.
  unfold latest. intros H. rewrite length_insert.
  apply list_lookup_insert_eq. apply lookup_lt_Some in H. exact H.
Qed.

Lemma length_pos_ltb (cs : list Candle) : cs <> [] -> (0 <? length cs)%nat = true.
Proof. intros H. destruct cs; [congruence | reflexivity]. Qed.

Lemma Qgtb_true (a b : Q) : (b < a)%Q -> Qgtb a b = true.
Proof.
  intros H. unfold Qgtb. destruct (Qle_bool a b) eqn:E; [| reflexivity].
  apply Qle_bool_iff in E. exfalso. exact (Qlt_not_le _ _ H E).
Qed.

Lemma Qgtb_false (a b : Q) : (a <= b)%Q -> Qgtb a b = false.
Proof.
  intros H. unfold Qgtb. apply Qle_bool_iff in H. rewrite H. reflexivity.
Qed.

Section Properties.
Context (host : Host).

(** Name the fields of [this] and of its options. *)
Ltac break_widget w :=
  destruct w as [ch le cs ls vs sd cd cp pc pcc il
                 [oc ot os oh ow ov oty oth ol oe od otr occ] pp].

(** Case analysis on the handles a method tests before it uses them. *)
Ltac by_handles w :=
  let ch := fresh "ch" in
  let le := fresh "le" in
  let cs := fresh "cs" in
  let ls := fresh "ls" in
  let vs := fresh "vs" in
  destruct w as [ch le cs ls vs ? ? ? ? ? ? ? ?];
  destruct ch, le, cs, ls, vs; cbn.

(** [updateLegend] only writes the legend's markup. *)
Lemma updateLegend_run (p : option CrosshairParam) (w : Widget) :
  updateLegend host p w =
    (Normal tt, w,
     if truthy (legendElement w) && truthy (chart w)
     then [SetLegendHTML (legendView host w p)] else []).
Proof.
  unfold updateLegend. unfold_m. by_handles w; reflexivity.
Qed.

(** [updateChart] never assigns a field of [this] and never throws. *)
Lemma updateChart_frame (data : ChartData) (w : Widget) :
  exists t, updateChart host data w = (Normal tt, w, t).
Proof.
  unfold updateChart. unfold_m.
  destruct (length (candles data) =? 0)%nat; [eauto |].
  destruct (o_priceSeriesType (options w)), (o_showVolume (options w)),
    (0 <? length (candles data))%nat;
    by_handles w; eauto.
Qed.

(** [updateSingleCandle] assigns [currentPrice] only and never throws. *)
Lemma updateSingleCandle_frame (c : Candle) (w : Widget) :
  exists t,
    updateSingleCandle host c w = (Normal tt, set_currentPrice (Some (ClosePrice c)) w, t).
Proof.
  unfold updateSingleCandle. unfold_m. cbn.
  destruct (o_priceSeriesType (options w)), (o_theme (options w));
    by_handles w; eauto.
Qed.

(** An empty snapshot sends nothing to the chart. *)
Lemma updateChart_empty (data : ChartData) (w : Widget) :
  candles data = [] -> updateChart host data w = (Normal tt, w, []).
Proof. intros H. unfold updateChart. unfold_m. rewrite H. reflexivity. Qed.

Lemma ready_inv (w : Widget) :
  ready w = true ->
  (exists ch, chart w = Some ch)
  /\ (o_priceSeriesType (options w) = candle
      /\ candlestickSeries w = Some CandlestickSeries /\ lineSeries w = None
      \/ o_priceSeriesType (options w) = line
         /\ candlestickSeries w = None /\ lineSeries w = Some LineSeries)
  /\ (o_showVolume (options w) = true /\ volumeSeries w = Some HistogramSeries
      \/ o_showVolume (options w) = false /\ volumeSeries w = None).
Proof.
  unfold ready. intros H.
  apply andb_prop in H as [H Hv]. apply andb_prop in H as [Hc Hp].
  split; [| split].
  - destruct (chart w); [eauto | discriminate].
  - destruct (o_priceSeriesType (options w)), (candlestickSeries w) as [[]|],
      (lineSeries w) as [[]|]; try discriminate; auto.
  - destruct (o_showVolume (options w)), (volumeSeries w) as [[]|];
      try discriminate; auto.
Qed.

(** On a mounted widget a live update is one [update] per active series,
    then the scroll request. *)
Lemma updateSingleCandle_run (c : Candle) (w : Widget) :
  ready w = true ->
  updateSingleCandle host c w =
    (Normal tt, set_currentPrice (Some (ClosePrice c)) w,
     Update (activePriceSeries w) (pricePoint host w c)
       :: (if o_showVolume (options w)
           then [Update HistogramSeries (volumePoint host w c)] else [])
       ++ [ScrollToRealTime]).
Proof.
  intros Hr. break_widget w.
  unfold ready in Hr.
  unfold updateSingleCandle, activePriceSeries, pricePoint, volumePoint, isDark.
  unfold_m. cbn in Hr |- *.
  destruct ch; [| discriminate Hr].
  destruct oty, cs as [[]|], ls as [[]|]; try discriminate Hr;
    destruct ov, vs as [[]|]; try discriminate Hr;
    destruct oth; reflexivity.
Qed.

(** On a mounted widget a non-empty snapshot is one [setData] per active
    series, then the fit request. *)
Lemma updateChart_run (data : ChartData) (w : Widget) :
  ready w = true -> candles data <> [] ->
  updateChart host data w =
    (Normal tt, w,
     SetData (activePriceSeries w) (map (pricePoint host w) (candles data))
       :: (if o_showVolume (options w)
           then [SetData HistogramSeries (map (volumePoint host w) (candles data))]
           else [])
       ++ [FitContent]).
Proof.
  intros Hr Hne. break_widget w.
  unfold ready in Hr.
  unfold updateChart, activePriceSeries, pricePoint, volumePoint, isDark.
  unfold_m.
  destruct (candles data) as [| c0 cs0] eqn:Hcs; [congruence |].
  cbn in Hr |- *.
  destruct ch; [| discriminate Hr].
  destruct oty, cs as [[]|], ls as [[]|]; try discriminate Hr;
    destruct ov, vs as [[]|]; try discriminate Hr; reflexivity.
Qed.

(** ** Data adapter *)

(** C6.  For every candle, the price-bar point carries the candle's open,
    high, low and close, the line point carries its close, the volume point
    carries its inbound volume, and all three carry the candle's timestamp
    minus the local time-zone offset in seconds, which each conversion
    obtains from the host's date facility for that timestamp. *)
Theorem adapter_fidelity (c : Candle) (dark_theme : bool) :
  let shifted := Timestamp c - getTimezoneOffset host (Timestamp c * 1000) * 60 in
  convertCandleToChartData host c =
    {| bar_time := shifted; bar_open := OpenPrice c; bar_high := HighPrice c;
       bar_low := LowPrice c; bar_close := ClosePrice c |}
  /\ convertCandleToAreaData host c = {| line_time := shifted; line_value := ClosePrice c |}
  /\ vol_time (convertCandleToVolumeData host dark_theme c) = shifted
  /\ vol_value (convertCandleToVolumeData host dark_theme c) = VolumeIn c.
Proof. repeat split. Qed.

(** ** Update reconciler *)

(** Reduce field reads through field assignments. *)
Ltac norm_fields :=
  cbn [chart legendElement candlestickSeries lineSeries volumeSeries sdk chartData
       currentPrice priceChange previousCandleCount isInitialLoad options previousPrice
       set_chart set_legendElement set_candlestickSeries set_lineSeries set_volumeSeries
       set_sdk set_chartData set_currentPrice set_priceChange set_previousCandleCount
       set_isInitialLoad set_previousPrice candles set_candles].

(** One step through a handler: replace a call of a sub-method by what it
    returns, or split on the test in front. *)
Ltac run_step :=
  match goal with
  | |- context [updateLegend ?h ?p ?w] => rewrite (updateLegend_run p w)
  | |- context [updateChart ?h ?d ?w] =>
      let t := fresh "t" in
      let H := fresh "H" in
      destruct (updateChart_frame d w) as [t H]; rewrite H; clear H
  | |- context [updateSingleCandle ?h ?c ?w] =>
      let t := fresh "t" in
      let H := fresh "H" in
      destruct (updateSingleCandle_frame c w) as [t H]; rewrite H; clear H
  | |- context [match latest ?cs with _ => _ end] => destruct (latest cs) eqn:?
  | |- context [match ?cs !! 0%nat with _ => _ end] => destruct (cs !! 0%nat) eqn:?
  | |- context [match o_legendStyle ?o with _ => _ end] => destruct (o_legendStyle o) eqn:?
  | |- context [if ?b then _ else _] =>
      match type of b with bool => destruct b eqn:? end
  end;
  cbv beta iota zeta; norm_fields.

Ltac run := unfold_m; repeat run_step.

Lemma destroy_run (w : Widget) :
  destroy w =
    (Normal tt, set_chart None (set_sdk None w),
     (if truthy (sdk w) then [SdkDestroy] else [])
     ++ (if truthy (chart w) then [ChartRemove] else [])).
Proof.
  unfold destroy. unfold_m.
  destruct w as [[?|] ? ? ? ? [?|] ? ? ? ? ? ? ?]; reflexivity.
Qed.

(** A state [d] that has the series handles and the options of the mounted
    widget [w] and no chart, as [destroy] leaves it: a live update upserts
    on the series and skips the scroll request. *)
Lemma updateSingleCandle_detached (c : Candle) (w d : Widget) :
  ready w = true ->
  chart d = None ->
  candlestickSeries d = candlestickSeries w ->
  lineSeries d = lineSeries w ->
  volumeSeries d = volumeSeries w ->
  options d = options w ->
  updateSingleCandle host c d =
    (Normal tt, set_currentPrice (Some (ClosePrice c)) d,
     Update (activePriceSeries w) (pricePoint host w c)
       :: (if o_showVolume (options w)
           then [Update HistogramSeries (volumePoint host w c)] else [])).
Proof.
  intros Hr Hch Hcs Hls Hvs Ho.
  destruct d as [dch dle dcs dls dvs dsd dcd dcp dpc dpcc dil dop dpp].
  cbn in Hch, Hcs, Hls, Hvs, Ho. subst dch dcs dls dvs dop.
  break_widget w. unfold ready in Hr.
  unfold updateSingleCandle, activePriceSeries, pricePoint, volumePoint, isDark.
  unfold_m. cbn in Hr |- *.
  destruct ch; [| discriminate Hr].
  destruct oty, cs as [[]|], ls as [[]|]; try discriminate Hr;
    destruct ov, vs as [[]|]; try discriminate Hr;
    destruct oth; reflexivity.
Qed.

(** The same for a full replace: the fit request is skipped. *)
Lemma updateChart_detached (data : ChartData) (w d : Widget) :
  ready w = true ->
  candles data <> [] ->
  chart d = None ->
  candlestickSeries d = candlestickSeries w ->
  lineSeries d = lineSeries w ->
  volumeSeries d = volumeSeries w ->
  options d = options w ->
  updateChart host data d =
    (Normal tt, d,
     SetData (activePriceSeries w) (map (pricePoint host w) (candles data))
       :: (if o_showVolume (options w)
           then [SetData HistogramSeries (map (volumePoint host w) (candles data))]
           else [])).
Proof.
  intros Hr Hne Hch Hcs Hls Hvs Ho.
  destruct d as [dch dle dcs dls dvs dsd dcd dcp dpc dpcc dil dop dpp].
  cbn in Hch, Hcs, Hls, Hvs, Ho. subst dch dcs dls dvs dop.
  break_widget w. unfold ready in Hr.
  unfold updateChart, activePriceSeries, pricePoint, volumePoint, isDark.
  unfold_m.
  destruct (candles data) as [| c0 cs0] eqn:Hcs0; [congruence |].
  cbn in Hr |- *.
  destruct ch; [| discriminate Hr].
  destruct oty, cs as [[]|], ls as [[]|]; try discriminate Hr;
    destruct ov, vs as [[]|]; try discriminate Hr; reflexivity.
Qed.

(** C10.  After a snapshot of at least two candles whose first candle opens
    above zero, the stored price change is (last close - first open) / first
    open * 100; after a snapshot of fewer than two candles, or one whose
    first candle opens at or below zero, the stored value is the one held
    before. *)
Theorem price_change_after_snapshot (data : ChartData) (w : Widget) :
  let w' := stateOf (handleChartUpdate host data w) in
  (forall firstCandle latestCandle,
      candles data !! 0%nat = Some firstCandle ->
      latest (candles data) = Some latestCandle ->
      (2 <= length (candles data))%nat ->
      (0 < OpenPrice firstCandle)%Q ->
      priceChange w' =
        ((ClosePrice latestCandle - OpenPrice firstCandle) / OpenPrice firstCandle * 100)%Q)
  /\ ((length (candles data) < 2)%nat -> priceChange w' = priceChange w)
  /\ (forall firstCandle,
        candles data !! 0%nat = Some firstCandle ->
        (OpenPrice firstCandle <= 0)%Q ->
        priceChange w' = priceChange w).
Proof.
  cbv zeta. unfold handleChartUpdate.
  split; [| split].
  - intros firstCandle latestCandle Hf Hl Hn Ho.
    assert (H0 : (0 <? length (candles data))%nat = true) by (apply Nat.ltb_lt; lia).
    assert (H1 : (1 <? length (candles data))%nat = true) by (apply Nat.ltb_lt; lia).
    unfold_m. rewrite Hl, Hf, H0, H1, (Qgtb_true _ _ Ho).
    repeat run_step; reflexivity.
  - intros Hn.
    assert (H1 : (1 <? length (candles data))%nat = false) by (apply Nat.ltb_ge; lia).
    unfold_m. rewrite H1.
    repeat run_step; reflexivity.
  - intros firstCandle Hf Ho.
    unfold_m. rewrite Hf, (Qgtb_false _ _ Ho).
    repeat run_step; reflexivity.
Qed.


#[local] Arguments updateSingleCandle : simpl never.
#[local] Arguments updateChart : simpl never.
#[local] Arguments updateLegend : simpl never.

Lemma updatesOn_chartCalls (s : Series) (t : list Effect) :
  updatesOn s (chartCalls t) = updatesOn s t.
Proof.
  unfold chartCalls.
  induction t as [| e t IH]; [reflexivity |].
  destruct e; cbn; rewrite ?IH; reflexivity.
Qed.

Lemma setDataOn_chartCalls (s : Series) (t : list Effect) :
  setDataOn s (chartCalls t) = setDataOn s t.
Proof.
  unfold chartCalls.
  induction t as [| e t IH]; [reflexivity |].
  destruct e; cbn; rewrite ?IH; reflexivity.
Qed.

Lemma countCalls_chartCalls (p : Effect -> bool) (t : list Effect) :
  (forall e, p e = true -> isChartCall e = true) ->
  countCalls p (chartCalls t) = countCalls p t.
Proof.
  intros Hp. unfold countCalls, chartCalls.
  induction t as [| e t IH]; [reflexivity |].
  cbn. destruct (isChartCall e) eqn:Hc; cbn.
  - destruct (p e); cbn; rewrite IH; reflexivity.
  - destruct (p e) eqn:Hpe; [apply Hp in Hpe; congruence | exact IH].
Qed.

Lemma In_chartCalls (e : Effect) (t : list Effect) :
  In e (chartCalls t) -> In e t.
Proof. unfold chartCalls. intros H. apply List.filter_In in H. tauto. Qed.

(** C2 (as the code has it).  On a mounted widget, for a snapshot that is
    not the first since (re)subscription, that holds at least one candle and
    whose count exceeds the previous count by 0 or 1, the calls that reach
    the chart are exactly:
    one single-point upsert of the last candle on the active price series,
    one on the volume series if volume is enabled, and the request to scroll
    to real time; no series is replaced.  Once [destroy] has run, the same
    delivery still upserts on the series handles the widget kept, and the
    scroll request is not made.  An empty snapshot, in any state of the
    widget, sends nothing to the chart: the only call is the user's
    [onDataUpdate], when supplied. *)
Theorem live_update_is_single_upsert (data : ChartData) (w : Widget) :
  let diff := Z.of_nat (length (candles data)) - Z.of_nat (previousCandleCount w) in
  let t := traceOf (handleChartUpdate host data w) in
  (forall c,
     ready w = true ->
     isInitialLoad w = false ->
     latest (candles data) = Some c ->
     diff = 0 \/ diff = 1 ->
     chartCalls t =
       Update (activePriceSeries w) (pricePoint host w c)
         :: (if o_showVolume (options w)
             then [Update HistogramSeries (volumePoint host w c)] else [])
         ++ [ScrollToRealTime]
     /\ updatesOn (activePriceSeries w) t = [pricePoint host w c]
     /\ updatesOn HistogramSeries t =
          (if o_showVolume (options w) then [volumePoint host w c] else [])
     /\ countCalls isUpdate t = (if o_showVolume (options w) then 2%nat else 1%nat)
     /\ countCalls isSetData t = 0%nat
     /\ In ScrollToRealTime t
     /\ chartCalls (traceOf (handleChartUpdate host data (stateOf (destroy w)))) =
          Update (activePriceSeries w) (pricePoint host w c)
            :: (if o_showVolume (options w)
                then [Update HistogramSeries (volumePoint host w c)] else []))
  /\ (candles data = [] ->
      t = if o_onDataUpdate (options w) then [CallOnDataUpdate data] else []).
Proof.
  cbv zeta. split.
  - intros c Hr Hi Hc Hd.
    assert (Hlen : (0 <? length (candles data))%nat = true).
    { apply length_pos_ltb. intros E. rewrite E in Hc. discriminate. }
    assert (Ht : chartCalls (traceOf (handleChartUpdate host data w)) =
      Update (activePriceSeries w) (pricePoint host w c)
        :: (if o_showVolume (options w)
            then [Update HistogramSeries (volumePoint host w c)] else [])
        ++ [ScrollToRealTime]).
    { unfold handleChartUpdate. unfold_m.
      cbn [isInitialLoad previousCandleCount set_chartData].
      rewrite Hi, Hc, Hlen.
      destruct Hd as [Hd | Hd]; rewrite Hd; cbn.
      all: rewrite (updateSingleCandle_run c (set_chartData data w) Hr).
      all: repeat run_step.
      all: destruct (o_showVolume (options w)); reflexivity. }
    split; [exact Ht |].
    rewrite <- (updatesOn_chartCalls (activePriceSeries w)),
      <- (updatesOn_chartCalls HistogramSeries),
      <- (countCalls_chartCalls isUpdate), <- (countCalls_chartCalls isSetData), Ht
      by (intros []; cbn; congruence).
    split; [| split; [| split; [| split; [| split]]]].
    + unfold activePriceSeries, pricePoint.
      destruct (o_priceSeriesType (options w)), (o_showVolume (options w)); reflexivity.
    + unfold activePriceSeries, pricePoint.
      destruct (o_priceSeriesType (options w)), (o_showVolume (options w)); reflexivity.
    + destruct (o_showVolume (options w)); reflexivity.
    + destruct (o_showVolume (options w)); reflexivity.
    + apply In_chartCalls. rewrite Ht. cbn. right.
      apply in_or_app. right. left. reflexivity.
    + rewrite destroy_run. cbn [stateOf fst snd].
      unfold handleChartUpdate. unfold_m. norm_fields.
      rewrite Hi, Hc, Hlen.
      destruct Hd as [Hd | Hd]; rewrite Hd; cbn.
      all: rewrite (updateSingleCandle_detached c w _ Hr) by reflexivity.
      all: repeat run_step.
      all: destruct (o_showVolume (options w)); reflexivity.
  - intros He. unfold handleChartUpdate. unfold_m. norm_fields.
    rewrite He. cbn [length Nat.ltb Nat.leb]. rewrite !andb_false_r. cbn [andb].
    rewrite (updateChart_empty data _ He). norm_fields.
    destruct (o_onDataUpdate (options w)); reflexivity.
Qed.


(** C3 (as the code has it).  On a mounted widget, for a snapshot that
    holds at least one candle and is the first since (re)subscription, or
    holds fewer candles than the previous one, or over 50 more, the calls
    that reach the chart are exactly: one [setData] on the active price series with the adapter's
    point for every candle, one on the volume series if volume is enabled,
    and the request to fit the content; no single-point upsert occurs.
    Once [destroy] has run, the same delivery still replaces the data of the
    series handles the widget kept, and the fit request is not made.  An
    empty snapshot, in any state of the widget, replaces no series and
    requests no fit: the only call is the user's [onDataUpdate], when
    supplied. *)
Theorem full_replace_on_reload (data : ChartData) (w : Widget) :
  let diff := Z.of_nat (length (candles data)) - Z.of_nat (previousCandleCount w) in
  let t := traceOf (handleChartUpdate host data w) in
  (ready w = true ->
   candles data <> [] ->
   isInitialLoad w = true \/ diff < 0 \/ 50 < diff ->
   chartCalls t =
     SetData (activePriceSeries w) (map (pricePoint host w) (candles data))
       :: (if o_showVolume (options w)
           then [SetData HistogramSeries (map (volumePoint host w) (candles data))]
           else [])
       ++ [FitContent]
   /\ setDataOn (activePriceSeries w) t = [map (pricePoint host w) (candles data)]
   /\ setDataOn HistogramSeries t =
        (if o_showVolume (options w)
         then [map (volumePoint host w) (candles data)] else [])
   /\ countCalls isUpdate t = 0%nat
   /\ In FitContent t
   /\ chartCalls (traceOf (handleChartUpdate host data (stateOf (destroy w)))) =
        SetData (activePriceSeries w) (map (pricePoint host w) (candles data))
          :: (if o_showVolume (options w)
              then [SetData HistogramSeries (map (volumePoint host w) (candles data))]
              else []))
  /\ (candles data = [] ->
      t = if o_onDataUpdate (options w) then [CallOnDataUpdate data] else []).
Proof.
  cbv zeta. split.
  - intros Hr Hne Hcase.
    assert (Hcond :
      negb (isInitialLoad w) && (0 <? length (candles data))%nat
      && (0 <=? Z.of_nat (length (candles data)) - Z.of_nat (previousCandleCount w))
      && (Z.of_nat (length (candles data)) - Z.of_nat (previousCandleCount w)
          <=? MAX_INCREMENTAL_CANDLES) = false).
    { destruct Hcase as [H | [H | H]].
      - rewrite H. reflexivity.
      - apply Z.leb_gt in H. rewrite H, andb_false_r. reflexivity.
      - apply andb_false_intro2. apply Z.leb_gt. exact H. }
    assert (Ht : chartCalls (traceOf (handleChartUpdate host data w)) =
      SetData (activePriceSeries w) (map (pricePoint host w) (candles data))
        :: (if o_showVolume (options w)
            then [SetData HistogramSeries (map (volumePoint host w) (candles data))]
            else [])
        ++ [FitContent]).
    { unfold handleChartUpdate. unfold_m.
      cbn [isInitialLoad previousCandleCount set_chartData].
      rewrite Hcond. cbn.
      rewrite (updateChart_run data (set_chartData data w) Hr Hne).
      repeat run_step.
      all: destruct (o_showVolume (options w)); reflexivity. }
    split; [exact Ht |].
    rewrite <- (setDataOn_chartCalls (activePriceSeries w)),
      <- (setDataOn_chartCalls HistogramSeries),
      <- (countCalls_chartCalls isUpdate), Ht
      by (intros []; cbn; congruence).
    split; [| split; [| split; [| split]]].
    + unfold activePriceSeries.
      destruct (o_priceSeriesType (options w)), (o_showVolume (options w)); reflexivity.
    + unfold activePriceSeries.
      destruct (o_priceSeriesType (options w)), (o_showVolume (options w)); reflexivity.
    + destruct (o_showVolume (options w)); reflexivity.
    + apply In_chartCalls. rewrite Ht. cbn. right.
      apply in_or_app. right. left. reflexivity.
    + rewrite destroy_run. cbn [stateOf fst snd].
      unfold handleChartUpdate. unfold_m. norm_fields.
      rewrite Hcond. cbn.
      rewrite (updateChart_detached data w _ Hr Hne) by reflexivity.
      repeat run_step.
      all: destruct (o_showVolume (options w)); reflexivity.
  - intros He. unfold handleChartUpdate. unfold_m. norm_fields.
    rewrite He. cbn [length Nat.ltb Nat.leb]. rewrite !andb_false_r. cbn [andb].
    rewrite (updateChart_empty data _ He). norm_fields.
    destruct (o_onDataUpdate (options w)); reflexivity.
Qed.

(** C1.  For a live trade on a non-empty candle list, with T the trade's
    minute bucket floor(TradeTime / 60) * 60: if 0 <= T - last.Timestamp <=
    120, the last candle is replaced in place by a copy whose close is the
    trade price, high the max and low the min of the old value and the trade
    price, inbound volume raised by the trade's USD value, outbound volume by
    its base amount and transaction count by one, and, the widget being
    mounted, that candle is upserted as a single point on each active series;
    if T is outside the window the candle sequence is unchanged and nothing
    reaches the chart. *)
Theorem trade_merges_into_last_candle
  (trade : RealTimeTrade) (w : Widget) (latestCandle : Candle) :
  latest (candles (chartData w)) = Some latestCandle ->
  let T := TradeTime trade / 60 * 60 in
  let r := handleTrade host trade w in
  let updated :=
    {| Timestamp := Timestamp latestCandle;
       OpenPrice := OpenPrice latestCandle;
       HighPrice := Qmax (HighPrice latestCandle) (Price trade);
       LowPrice := Qmin (LowPrice latestCandle) (Price trade);
       ClosePrice := Price trade;
       VolumeIn := (VolumeIn latestCandle + USD trade)%Q;
       VolumeOut := (VolumeOut latestCandle + Amount trade)%Q;
       TransactionCount := Some (orZero (TransactionCount latestCandle) + 1) |} in
  (0 <= T - Timestamp latestCandle <= 120 ->
     candles (chartData (stateOf r)) =
       <[(length (candles (chartData w)) - 1)%nat := updated]> (candles (chartData w))
     /\ latest (candles (chartData (stateOf r))) = Some updated
     /\ (ready w = true ->
         chartCalls (traceOf r) =
           Update (activePriceSeries w) (pricePoint host w updated)
             :: (if o_showVolume (options w)
                 then [Update HistogramSeries (volumePoint host w updated)] else [])
             ++ [ScrollToRealTime]))
  /\ (T - Timestamp latestCandle < 0 \/ 120 < T - Timestamp latestCandle ->
      candles (chartData (stateOf r)) = candles (chartData w)
      /\ chartCalls (traceOf r) = []).
Proof.
  intros Hl. cbv zeta.
  assert (Hlen : (0 <? length (candles (chartData w)))%nat = true).
  { apply length_pos_ltb. intros E. rewrite E in Hl. discriminate. }
  split.
  - intros Hwin.
    assert (Hcond :
      (0 <=? tradeMinuteTimestamp trade - Timestamp latestCandle)
      && (tradeMinuteTimestamp trade - Timestamp latestCandle <=? 120) = true).
    { unfold tradeMinuteTimestamp. apply andb_true_intro. split; apply Z.leb_le; lia. }
    split; [| split].
    + unfold handleTrade. unfold_m. norm_fields.
      repeat first [rewrite Hlen | rewrite Hl | rewrite Hcond | run_step]; reflexivity.
    + unfold handleTrade. unfold_m. norm_fields.
      repeat first [rewrite Hlen | rewrite Hl | rewrite Hcond | run_step]; cbn;
        apply (latest_insert _ latestCandle); exact Hl.
    + intros Hr. unfold handleTrade. unfold_m. norm_fields.
      repeat first [rewrite Hlen | rewrite Hl | rewrite Hcond
                   | rewrite updateSingleCandle_run by exact Hr | run_step].
      all: destruct (o_showVolume (options w)); reflexivity.
  - intros Hout.
    assert (Hcond :
      (0 <=? tradeMinuteTimestamp trade - Timestamp latestCandle)
      && (tradeMinuteTimestamp trade - Timestamp latestCandle <=? 120) = false).
    { unfold tradeMinuteTimestamp. destruct Hout as [H | H].
      - apply andb_false_intro1. apply Z.leb_gt. exact H.
      - apply andb_false_intro2. apply Z.leb_gt. exact H. }
    split.
    + unfold handleTrade. unfold_m. norm_fields.
      repeat first [rewrite Hlen | rewrite Hl | rewrite Hcond | run_step]; reflexivity.
    + unfold handleTrade. unfold_m. norm_fields.
      repeat first [rewrite Hlen | rewrite Hl | rewrite Hcond | run_step]; reflexivity.
Qed.


Lemma sameHandles_ready (w w' : Widget) : sameHandles w w' -> ready w' = ready w.
Proof.
  intros (H1 & H2 & H3 & H4 & H5 & H6 & H7). unfold ready.
  rewrite H1, H3, H4, H5, H7. reflexivity.
Qed.

Lemma handleChartUpdate_returns (data : ChartData) (w : Widget) :
  completionOf (handleChartUpdate host data w) = Normal tt
  /\ sameHandles w (stateOf (handleChartUpdate host data w)).
Proof.
  unfold handleChartUpdate, sameHandles. run; cbn; auto 10.
Qed.

Lemma handleTrade_returns (trade : RealTimeTrade) (w : Widget) :
  completionOf (handleTrade host trade w) = Normal tt
  /\ sameHandles w (stateOf (handleTrade host trade w)).
Proof.
  unfold handleTrade, sameHandles. run; cbn; auto 10.
Qed.

Lemma handleChartUpdate_ready (data : ChartData) (w : Widget) :
  ready (stateOf (handleChartUpdate host data w)) = ready w.
Proof. apply sameHandles_ready, handleChartUpdate_returns. Qed.

Lemma handleTrade_ready (trade : RealTimeTrade) (w : Widget) :
  ready (stateOf (handleTrade host trade w)) = ready w.
Proof. apply sameHandles_ready, handleTrade_returns. Qed.

(** A trade on an empty candle list leaves it empty and reaches no series. *)
Lemma handleTrade_no_candles (trade : RealTimeTrade) (w : Widget) :
  candles (chartData w) = [] ->
  candles (chartData (stateOf (handleTrade host trade w))) = []
  /\ chartCalls (traceOf (handleTrade host trade w)) = [].
Proof.
  intros He. unfold handleTrade. unfold_m. norm_fields.
  split; repeat first [rewrite He; cbn [length Nat.ltb Nat.leb] | run_step];
    cbn; rewrite ?He; reflexivity.
Qed.

Lemma onCrosshairMove_returns (param : option CrosshairParam) (w : Widget) :
  onCrosshairMove host param w =
    (Normal tt, w,
     match o_legendStyle (options w) with
     | legend_complex =>
         if truthy (legendElement w) && truthy (chart w)
         then [SetLegendHTML (legendView host w param)] else []
     | _ => []
     end).
Proof.
  unfold onCrosshairMove. unfold_m.
  destruct (o_legendStyle (options w)); try reflexivity.
  rewrite updateLegend_run. reflexivity.
Qed.

Lemma fire_returns (ev : CallbackEvent) (w : Widget) :
  completionOf (fire host ev w) = Normal tt.
Proof.
  destruct ev; cbn [fire].
  - apply handleChartUpdate_returns.
  - apply handleTrade_returns.
  - rewrite onCrosshairMove_returns. reflexivity.
Qed.

Lemma fireAll_returns (evs : list CallbackEvent) (w : Widget) :
  completionOf (fireAll host evs w) = Normal tt.
Proof.
  revert w. induction evs as [| ev evs IH]; intros w; [reflexivity |].
  cbn [fireAll]. unfold bind.
  pose proof (fire_returns ev w) as Hf.
  destruct (fire host ev w) as [[[[] | msg] w1] t1]; [| discriminate Hf].
  specialize (IH w1).
  destruct (fireAll host evs w1) as [[r w2] t2]. exact IH.
Qed.

(** ** Widget controller *)

(** C4.  Once [destroy] has run, the chart and the SDK references are null,
    and any sequence of chart-update, trade and crosshair-move callbacks
    fired afterwards runs to completion without an exception: every use of
    a reference that [destroy] nulled sits behind a test of that reference.
    (Calls on the collaborators themselves are taken to return.) *)
Theorem callbacks_after_destroy_return (w : Widget) (evs : list CallbackEvent) :
  let d := stateOf (destroy w) in
  completionOf (destroy w) = Normal tt
  /\ chart d = None
  /\ sdk d = None
  /\ completionOf (fireAll host evs d) = Normal tt.
Proof.
  cbv zeta. rewrite destroy_run. cbn.
  repeat split. apply fireAll_returns.
Qed.

(** [destroy] keeps the series handles, so a snapshot that arrives later
    still reaches the series of the removed chart; only the requests on the
    chart itself are skipped. *)
Lemma series_calls_survive_destroy (data : ChartData) (w : Widget) :
  ready w = true -> candles data <> [] -> isInitialLoad w = true ->
  chartCalls (traceOf (handleChartUpdate host data (stateOf (destroy w)))) =
    SetData (activePriceSeries w) (map (pricePoint host w) (candles data))
      :: (if o_showVolume (options w)
          then [SetData HistogramSeries (map (volumePoint host w) (candles data))]
          else []).
Proof.
  intros Hr Hne Hi. rewrite destroy_run. cbn [stateOf fst snd].
  break_widget w. unfold ready in Hr. cbn in Hr, Hi. subst il.
  unfold handleChartUpdate, updateChart, activePriceSeries, pricePoint, volumePoint, isDark.
  unfold_m. cbn.
  destruct (candles data) as [| c0 cs0] eqn:Hcs; [congruence |].
  cbn.
  destruct ch; [| discriminate Hr].
  destruct oty, cs as [[]|], ls as [[]|]; try discriminate Hr;
    destruct ov, vs as [[]|]; try discriminate Hr; cbn;
    repeat run_step; reflexivity.
Qed.

(** [initializeChart] on a page that holds the container leaves the widget
    mounted. *)
Lemma initializeChart_ready (o : WidgetOptions) (el : Element) :
  resolveContainer host (applyDefaults o) = Some el ->
  forall w t, constructor o = (Normal w, t) ->
  completionOf (initializeChart host w) = Normal tt
  /\ ready (stateOf (initializeChart host w)) = true.
Proof.
  intros Hres w t Hc. unfold constructor in Hc. cbn in Hc.
  injection Hc as <- <-.
  unfold initializeChart. unfold_m. cbn [options newWidget set_sdk].
  rewrite Hres.
  destruct o as [oc ot os oh ow ov oty oth ol oe od otr occ].
  destruct ov as [[] |], oty as [[] |], ol as [[] |];
    destruct (computedPositionIsStatic host el); cbn; auto.
Qed.

(** C8 (as the code has it).  When the configured container does not
    resolve to an element, [initializeChart] throws "Chart container not
    found" at once and creates nothing.  It runs inside the asynchronous
    [initialize], after the SDK was created and connected and after the
    constructor returned the widget: the exception rejects the promise of
    [initialize] and the constructor still completes normally. *)
Theorem container_not_found_rejects_initialize (o : WidgetOptions) :
  resolveContainer host (applyDefaults o) = None ->
  exists w t,
    create o = (Normal w, t)
    /\ sdk w = Some Sdk
    /\ In SdkConnectWebSocket t
    /\ initializeChart host w =
         (Throw (String.append "Chart container not found: "
                               (containerText (applyDefaults o))), w, [])
    /\ initializePromise host w =
         (Rejected (String.append "Chart container not found: "
                                  (containerText (applyDefaults o))), w, [])
    /\ chart w = None.
Proof.
  intros Hres. unfold create, constructor. cbn.
  eexists. eexists. split; [reflexivity |].
  split; [reflexivity |].
  split; [cbn; auto |].
  assert (Hi : forall w, options w = applyDefaults o ->
            initializeChart host w =
              (Throw (String.append "Chart container not found: "
                                    (containerText (applyDefaults o))), w, [])).
  { intros w Ho. unfold initializeChart. unfold_m. rewrite Ho, Hres. reflexivity. }
  split; [apply Hi; reflexivity |].
  split; [| reflexivity].
  unfold initializePromise, initialize_resume. unfold bind at 1.
  rewrite Hi by reflexivity. reflexivity.
Qed.

(** ** Legend renderer *)

Lemma find_first_match {A : Type} (f : A -> bool) (l : list A) (x : A) :
  List.find f l = Some x ->
  exists l1 l2, l = l1 ++ x :: l2 /\ f x = true /\ Forall (fun y => f y = false) l1.
Proof.
  induction l as [| a l IH]; cbn; [discriminate |].
  destruct (f a) eqn:Ha.
  - intros [= ->]. exists [], l. auto.
  - intros H. destruct (IH H) as (l1 & l2 & -> & Hx & Hall).
    exists (a :: l1), l2. auto.
Qed.

Lemma find_no_match {A : Type} (f : A -> bool) (l : list A) :
  List.find f l = None -> Forall (fun y => f y = false) l.
Proof.
  induction l as [| a l IH]; cbn; [constructor |].
  destruct (f a) eqn:Ha; [discriminate |]. auto.
Qed.

(** What the legend shows for a hover that carries a time and a point of
    the candlestick series. *)
Lemma updateLegend_hover
  (this : Widget) (p : CrosshairParam) (crosshairTime : Z)
  (seriesData : Series -> option CandlestickData) (s : Series) (d : CandlestickData) :
  truthy (legendElement this) = true ->
  truthy (chart this) = true ->
  cp_time p = Some crosshairTime ->
  crosshairTime <> 0 ->
  cp_seriesData p = Some seriesData ->
  candlestickSeries this = Some s ->
  seriesData s = Some d ->
  exists v,
    updateLegend host (Some p) this = (Normal tt, this, [SetLegendHTML v])
    /\ l_ohlc v =
         Some {| h_data := d;
                 h_metrics :=
                   option_map (candleMetrics (isDark this))
                     (findMatchingCandle host (candles (chartData this)) crosshairTime) |}.
Proof.
  intros Hle Hch Ht Hnz Hsd Hs Hd.
  rewrite updateLegend_run, Hle, Hch. cbn [andb].
  eexists. split; [reflexivity |].
  unfold legendView, hoverView. cbn [l_ohlc].
  rewrite Ht, Hsd, Hs, Hd.
  destruct (Z.eqb_spec crosshairTime 0); [contradiction | reflexivity].
Qed.

(** C5 (as the code has it).  For a hover, the matched candle is the first
    candle, in sequence order, whose locally shifted timestamp differs from
    the crosshair time by less than 60 seconds; when no candle is that
    close, none is matched. *)
Theorem legend_match_is_first_within_tolerance
  (this : Widget) (p : CrosshairParam) (crosshairTime : Z)
  (seriesData : Series -> option CandlestickData) (s : Series) (d : CandlestickData) :
  truthy (legendElement this) = true ->
  truthy (chart this) = true ->
  cp_time p = Some crosshairTime ->
  crosshairTime <> 0 ->
  cp_seriesData p = Some seriesData ->
  candlestickSeries this = Some s ->
  seriesData s = Some d ->
  let distance c :=
    Z.abs (Timestamp c - getTimezoneOffset host (Timestamp c * 1000) * 60 - crosshairTime) in
  exists v hv,
    traceOf (updateLegend host (Some p) this) = [SetLegendHTML v]
    /\ l_ohlc v = Some hv
    /\ h_data hv = d
    /\ ((exists before c after,
            candles (chartData this) = before ++ c :: after
            /\ distance c < 60
            /\ Forall (fun c' => 60 <= distance c') before
            /\ h_metrics hv = Some (candleMetrics (isDark this) c))
        \/ (Forall (fun c' => 60 <= distance c') (candles (chartData this))
            /\ h_metrics hv = None)).
Proof.
  intros Hle Hch Ht Hnz Hsd Hs Hd. cbv zeta.
  destruct (updateLegend_hover this p crosshairTime seriesData s d
              Hle Hch Ht Hnz Hsd Hs Hd) as (v & Hrun & Hv).
  exists v. eexists. rewrite Hrun. split; [reflexivity |].
  split; [exact Hv |]. split; [reflexivity |]. cbn [h_metrics].
  assert (Hfar : forall l,
            Forall (fun y => matchesCrosshair host crosshairTime y = false) l ->
            Forall (fun c' =>
                      60 <= Z.abs (Timestamp c'
                                   - getTimezoneOffset host (Timestamp c' * 1000) * 60
                                   - crosshairTime)) l).
  { intros l Hl. eapply Forall_impl; [exact Hl |]. intros c' Hc'.
    unfold matchesCrosshair, localTimestamp in Hc'. apply Z.ltb_ge in Hc'. exact Hc'. }
  destruct (findMatchingCandle host (candles (chartData this)) crosshairTime) as [c |] eqn:Hf.
  - left. apply find_first_match in Hf as (l1 & l2 & Hsplit & Hc & Hall).
    exists l1, c, l2. repeat split; auto.
    unfold matchesCrosshair, localTimestamp in Hc. apply Z.ltb_lt in Hc. exact Hc.
  - right. split; [| reflexivity]. apply Hfar. apply find_no_match. exact Hf.
Qed.

(** C7.  For the matched hovered candle the legend shows, as the bar's
    change, (close - open) / open * 100 when the open is positive and 0
    otherwise, and, as the bar's fluctuation, (high - low) / open * 100 when
    the open is positive and 0 otherwise. *)
Theorem legend_bar_metrics
  (this : Widget) (p : CrosshairParam) (crosshairTime : Z)
  (seriesData : Series -> option CandlestickData) (s : Series) (d : CandlestickData)
  (c : Candle) :
  truthy (legendElement this) = true ->
  truthy (chart this) = true ->
  cp_time p = Some crosshairTime ->
  crosshairTime <> 0 ->
  cp_seriesData p = Some seriesData ->
  candlestickSeries this = Some s ->
  seriesData s = Some d ->
  findMatchingCandle host (candles (chartData this)) crosshairTime = Some c ->
  exists v m,
    traceOf (updateLegend host (Some p) this) = [SetLegendHTML v]
    /\ l_ohlc v = Some {| h_data := d; h_metrics := Some m |}
    /\ ((0 < OpenPrice c)%Q ->
        m_candleChange m = ((ClosePrice c - OpenPrice c) / OpenPrice c * 100)%Q
        /\ m_candleFluctuation m = ((HighPrice c - LowPrice c) / OpenPrice c * 100)%Q)
    /\ ((OpenPrice c <= 0)%Q ->
        m_candleChange m = 0%Q /\ m_candleFluctuation m = 0%Q).
Proof.
  intros Hle Hch Ht Hnz Hsd Hs Hd Hf.
  destruct (updateLegend_hover this p crosshairTime seriesData s d
              Hle Hch Ht Hnz Hsd Hs Hd) as (v & Hrun & Hv).
  rewrite Hf in Hv. cbn [option_map] in Hv.
  exists v. eexists. rewrite Hrun. split; [reflexivity |].
  split; [exact Hv |].
  unfold candleMetrics, candleChange, candleFluctuation. cbn [m_candleChange m_candleFluctuation].
  split; intros Ho.
  - rewrite (Qgtb_true _ _ Ho). split; reflexivity.
  - rewrite (Qgtb_false _ _ Ho). split; reflexivity.
Qed.

(** ** Waiting for the transport *)

Lemma checkConnection_step (tr : Transport) (maxWaitMs : Z) (fuel k : nat) :
  checkConnection tr maxWaitMs (S fuel) k =
    if isConnectedAt tr k then Some (true, [SdkGetSubscriptionStatus])
    else if nowAt tr k - startTime tr >? maxWaitMs
         then Some (false, [SdkGetSubscriptionStatus])
         else
           match checkConnection tr maxWaitMs fuel (S k) with
           | Some (b, t) => Some (b, SdkGetSubscriptionStatus :: SetTimeout 100 :: t)
           | None => None
           end.
Proof. reflexivity. Qed.

Lemma checkConnection_more_fuel (tr : Transport) (maxWaitMs : Z) (extra : nat) :
  forall fuel k r,
    checkConnection tr maxWaitMs fuel k = Some r ->
    checkConnection tr maxWaitMs (fuel + extra) k = Some r.
Proof.
  induction fuel as [| fuel IH]; intros k r; cbn; [discriminate |].
  destruct (isConnectedAt tr k); [auto |].
  destruct (nowAt tr k - startTime tr >? maxWaitMs); [auto |].
  destruct (checkConnection tr maxWaitMs fuel (S k)) as [[b t] |] eqn:E; [| discriminate].
  rewrite (IH _ _ E). auto.
Qed.

(** The calls of the polling loop: status reads and 100 ms timers. *)
Lemma checkConnection_polls_only (tr : Transport) (maxWaitMs : Z) :
  forall fuel k b t,
    checkConnection tr maxWaitMs fuel k = Some (b, t) ->
    Forall (fun e => e = SdkGetSubscriptionStatus \/ e = SetTimeout 100) t.
Proof.
  induction fuel as [| fuel IH]; intros k b t; [discriminate |].
  rewrite checkConnection_step.
  destruct (isConnectedAt tr k); [intros [= <- <-]; auto |].
  destruct (nowAt tr k - startTime tr >? maxWaitMs); [intros [= <- <-]; auto |].
  destruct (checkConnection tr maxWaitMs fuel (S k)) as [[b' t'] |] eqn:E; [| discriminate].
  intros [= <- <-]. specialize (IH _ _ _ E). auto.
Qed.

Lemma polls_only_quiet (t : list Effect) :
  Forall (fun e => e = SdkGetSubscriptionStatus \/ e = SetTimeout 100) t ->
  countCalls isSubscribe t = 0%nat /\ countCalls isOnError t = 0%nat.
Proof.
  unfold countCalls. induction 1 as [| e t [-> | ->] _ IH]; cbn; auto.
Qed.

Lemma checkConnection_gives_up (tr : Transport) (maxWaitMs : Z) (k : nat) :
  reached tr maxWaitMs k ->
  isConnectedAt tr k = false ->
  maxWaitMs < nowAt tr k - startTime tr ->
  forall n j, (j + n = k)%nat ->
    checkConnection tr maxWaitMs (S n) j = Some (false, pollsThenResolve n).
Proof.
  intros Hreach Hoff Hlate. induction n as [| n IH]; intros j Hj.
  - assert (j = k) by lia. subst j.
    rewrite checkConnection_step, Hoff.
    assert (E : (nowAt tr k - startTime tr >? maxWaitMs) = true)
      by (apply Z.gtb_lt; lia).
    rewrite E. reflexivity.
  - destruct (Hreach j) as [Hoffj Hin]; [lia |].
    rewrite checkConnection_step, Hoffj.
    assert (E : (nowAt tr j - startTime tr >? maxWaitMs) = false).
    { rewrite Z.gtb_ltb. apply Z.ltb_ge. exact Hin. }
    rewrite E, (IH (S j)) by lia. reflexivity.
Qed.

Lemma pollsThenResolve_counts (k : nat) :
  countCalls isStatusRead (pollsThenResolve k) = S k
  /\ countCalls isTimer (pollsThenResolve k) = k
  /\ countCalls isSubscribe (pollsThenResolve k) = 0%nat
  /\ countCalls isOnError (pollsThenResolve k) = 0%nat
  /\ length (pollsThenResolve k) = (2 * k + 1)%nat.
Proof.
  unfold countCalls. induction k as [| k (H1 & H2 & H3 & H4 & H5)]; cbn; [auto |].
  rewrite H1, H2, H3, H4, H5. repeat split; lia.
Qed.

(** C9 (as the code has it).  The wait that precedes the subscribe call is
    started by a 1000 ms timer; each poll reads the transport's connection
    status first and the clock second, and re-arms itself with a 100 ms
    timer.  Let the poll number k (counting from 0) be the first that takes
    place more than 5000 ms after the wait started.  If the transport
    reports that it is not connected at every poll up to and including that
    one, the wait resolves [false] after exactly k + 1 status reads and k
    timers (at most 52 reads when polls are at least 100 ms apart), and the
    timer callback ends without a subscribe call and without calling
    [onError], leaving the widget's state, its error field included, as it
    was. *)
Theorem subscribe_wait_gives_up_silently
  (tr : Transport) (token : string) (w : Widget) (k : nat) :
  reached tr 5000 k ->
  isConnectedAt tr k = false ->
  5000 < nowAt tr k - startTime tr ->
  traceOf (loadTokenData_resume InitResolved w) = [SetTimeout 1000]
  /\ (forall fuel, (k < fuel)%nat ->
        waitForWebSocketConnection tr 5000 fuel = Some (false, pollsThenResolve k))
  /\ (forall fuel, (k < fuel)%nat ->
        subscribeTimer tr fuel token w =
          Some (Normal tt, w, if truthy (sdk w) then pollsThenResolve k else []))
  /\ countCalls isStatusRead (pollsThenResolve k) = S k
  /\ countCalls isTimer (pollsThenResolve k) = k
  /\ countCalls isSubscribe (pollsThenResolve k) = 0%nat
  /\ countCalls isOnError (pollsThenResolve k) = 0%nat
  /\ ((forall j, startTime tr + 100 * Z.of_nat j <= nowAt tr j) -> (k <= 51)%nat).
Proof.
  intros Hreach Hoff Hlate. split; [reflexivity |].
  assert (Hwait : forall fuel, (k < fuel)%nat ->
            waitForWebSocketConnection tr 5000 fuel = Some (false, pollsThenResolve k)).
  { intros fuel Hf. unfold waitForWebSocketConnection.
    replace fuel with (S k + (fuel - S k))%nat by lia.
    apply checkConnection_more_fuel.
    apply (checkConnection_gives_up tr 5000 k Hreach Hoff Hlate). lia. }
  split; [exact Hwait |].
  split.
  - intros fuel Hf. unfold subscribeTimer, subscribeTimer_begin, subscribeTimer_resume.
    unfold_m. rewrite (Hwait fuel Hf).
    destruct (sdk w); cbn [truthy app]; rewrite ?app_nil_r; reflexivity.
  - destruct (pollsThenResolve_counts k) as (H1 & H2 & H3 & H4 & _).
    repeat (split; [assumption |]).
    intros Hclock. destruct k as [| k]; [lia |].
    destruct (Hreach k) as [_ Hin]; [lia |].
    specialize (Hclock k). lia.
Qed.

(** The hazard the wait leaves open: when [destroy] runs while the wait is
    pending and the wait still resolves [true], the callback reads
    [this.sdk], now null. *)
Lemma subscribe_after_destroy_dereferences_null (token : string) (w : Widget) :
  completionOf (subscribeTimer_resume true token (stateOf (destroy w))) =
    Throw "TypeError: Cannot read properties of null".
Proof. rewrite destroy_run. reflexivity. Qed.


End Properties.

(** * The model at work on a concrete page *)

(** ** Counterexamples to the claims the code does not meet as stated *)

(** C2 as stated fails on an empty snapshot: after a first, empty delivery a
    second empty one has N - P = 0 and is not the first, and no upsert
    reaches the price series. *)
Lemma live_update_claim_fails_on_empty_snapshot :
  ~ (forall (host : Host) (data : ChartData) (w : Widget),
        ready w = true ->
        isInitialLoad w = false ->
        Z.of_nat (length (candles data)) - Z.of_nat (previousCandleCount w) = 0
        \/ Z.of_nat (length (candles data)) - Z.of_nat (previousCandleCount w) = 1 ->
        length (updatesOn (activePriceSeries w)
                  (traceOf (handleChartUpdate host data w))) = 1%nat
        /\ In ScrollToRealTime (traceOf (handleChartUpdate host data w))).
Proof.
  intros H.
  destruct (H Demo.host (Demo.snapshot []) (Demo.loaded line true []))
    as [Hone _]; [reflexivity | reflexivity | left; reflexivity |].
  vm_compute in Hone. discriminate Hone.
Qed.

(** C3 as stated fails on an empty snapshot: the first delivery after
    mounting, when it holds no candle, replaces no series and requests no
    fit. *)
Lemma full_replace_claim_fails_on_empty_snapshot :
  ~ (forall (host : Host) (data : ChartData) (w : Widget),
        ready w = true ->
        isInitialLoad w = true
        \/ Z.of_nat (length (candles data)) - Z.of_nat (previousCandleCount w) < 0
        \/ 50 < Z.of_nat (length (candles data)) - Z.of_nat (previousCandleCount w) ->
        length (setDataOn (activePriceSeries w)
                  (traceOf (handleChartUpdate host data w))) = 1%nat
        /\ In FitContent (traceOf (handleChartUpdate host data w))).
Proof.
  intros H.
  destruct (H Demo.host (Demo.snapshot []) (Demo.mounted "#c" line true))
    as [Hone _]; [reflexivity | left; reflexivity |].
  vm_compute in Hone. discriminate Hone.
Qed.

(** C9 as stated fails: a poll reads the connection status before it
    looks at the clock, so a transport that is not connected at any poll
    within the 5000 ms ceiling and connects before the poll at 5100 ms is
    seen as connected: the wait resolves [true] and the widget subscribes. *)
Lemma connection_after_the_ceiling_is_subscribed :
  ~ (forall (tr : Transport) (token : string) (w : Widget) (fuel : nat)
            (b : bool) (t : list Effect)
            (r : Completion unit) (w' : Widget) (t' : list Effect),
        (forall k, nowAt tr k - startTime tr <= 5000 -> isConnectedAt tr k = false) ->
        waitForWebSocketConnection tr 5000 fuel = Some (b, t) ->
        subscribeTimer tr fuel token w = Some (r, w', t') ->
        b = false /\ countCalls isSubscribe t' = 0%nat).
Proof.
  intros H.
  destruct (H lateTransport "1-0xabc"%string (Demo.mounted "#c" line true) 52%nat
              true (pollsThenResolve 51)
              (Normal tt) (Demo.mounted "#c" line true)
              (pollsThenResolve 51 ++ [SdkSubscribe "1-0xabc"]))
    as [Hb _].
  - intros k Hk. cbn [lateTransport nowAt startTime isConnectedAt] in Hk |- *.
    apply Nat.eqb_neq. lia.
  - vm_compute. reflexivity.
  - vm_compute. reflexivity.
  - discriminate Hb.
Qed.

(** C5 as stated fails: with the crosshair on the second candle (shifted
    time 7830), both candles are within 60 seconds, and the one selected is
    the first, 30 seconds away, not the second, 0 seconds away. *)
Lemma legend_match_is_not_the_nearest :
  ~ (forall (host : Host) (cs : list Candle) (crosshairTime : Z) (c c' : Candle),
        findMatchingCandle host cs crosshairTime = Some c ->
        In c' cs ->
        Z.abs (localTimestamp host (Timestamp c') - crosshairTime) < 60 ->
        Z.abs (localTimestamp host (Timestamp c) - crosshairTime)
        <= Z.abs (localTimestamp host (Timestamp c') - crosshairTime)).
Proof.
  intros H.
  specialize (H Demo.host closeCandles 7830
                (Demo.bar 600 100 110 95 105 1000) (Demo.bar 630 105 108 101 102 500)).
  assert (Hle : 30 <= 0); [| lia].
  apply H; [reflexivity | right; left; reflexivity | reflexivity].
Qed.

(** C8 as stated fails: with a container that is not in the document the
    constructor does not throw; it returns the widget. *)
Lemma construction_is_not_aborted :
  ~ (forall (host : Host) (o : WidgetOptions),
        resolveContainer host (applyDefaults o) = None ->
        exists msg, fst (create o) = Throw msg).
Proof.
  intros H.
  destruct (H Demo.host (Demo.opts "#missing" candle false)) as [msg Hmsg];
    [reflexivity |].
  discriminate Hmsg.
Qed.

(** ** Runs that meet the hypotheses of the theorems *)

(** The spec's scenario: a trade 30 seconds after the last candle. *)
Lemma trade_merges_into_last_candle_witness :
  let w := Demo.loaded line true [Demo.c1; Demo.c2; Demo.c3] in
  let r := handleTrade Demo.host trade30 w in
  latest (candles (chartData w)) = Some Demo.c3
  /\ candles (chartData (stateOf r)) =
       [Demo.c1; Demo.c2;
        {| Timestamp := 720; OpenPrice := 102; HighPrice := 120; LowPrice := 102;
           ClosePrice := 119; VolumeIn := (700 + 238)%Q; VolumeOut := (1 + 2)%Q;
           TransactionCount := Some 4 |}]
  /\ updatesOn LineSeries (chartCalls (traceOf r)) =
       [LinePoint {| line_time := 7920; line_value := 119 |}].
Proof.
  cbv zeta.
  assert (Hl : latest (candles (chartData
                 (Demo.loaded line true [Demo.c1; Demo.c2; Demo.c3]))) = Some Demo.c3)
    by reflexivity.
  destruct (trade_merges_into_last_candle Demo.host trade30 _ Demo.c3 Hl) as [Hin _].
  destruct Hin as (Hc & _ & Hcalls); [vm_compute; split; discriminate |].
  split; [exact Hl |]. split; [exact Hc |].
  rewrite Hcalls by reflexivity. reflexivity.
Defined.

Lemma live_update_is_single_upsert_witness :
  let w := Demo.loaded line true [Demo.c1; Demo.c2; Demo.c3] in
  let data := Demo.snapshot [Demo.c1; Demo.c2; Demo.c3; c4] in
  let t := traceOf (handleChartUpdate Demo.host data w) in
  updatesOn LineSeries t = [LinePoint {| line_time := 7980; line_value := 118 |}]
  /\ countCalls isSetData t = 0%nat
  /\ In ScrollToRealTime t
  /\ chartCalls (traceOf (handleChartUpdate Demo.host data (stateOf (destroy w)))) =
       [Update LineSeries (LinePoint {| line_time := 7980; line_value := 118 |});
        Update HistogramSeries (volumePoint Demo.host w c4)]
  /\ traceOf (handleChartUpdate Demo.host (Demo.snapshot []) w) =
       [CallOnDataUpdate (Demo.snapshot [])].
Proof.
  cbv zeta.
  pose proof (live_update_is_single_upsert Demo.host
                (Demo.snapshot [Demo.c1; Demo.c2; Demo.c3; c4])
                (Demo.loaded line true [Demo.c1; Demo.c2; Demo.c3])) as H.
  cbv zeta in H. destruct H as [H _].
  destruct (H c4) as (_ & Hu & _ & _ & Hs & Hi & Hd);
    [reflexivity | reflexivity | reflexivity | right; reflexivity |].
  pose proof (live_update_is_single_upsert Demo.host (Demo.snapshot [])
                (Demo.loaded line true [Demo.c1; Demo.c2; Demo.c3])) as He.
  cbv zeta in He. destruct He as [_ He].
  split; [exact Hu |]. split; [exact Hs |]. split; [exact Hi |].
  split; [exact Hd | exact (He eq_refl)].
Defined.

Lemma full_replace_on_reload_witness :
  let w := Demo.mounted "#c" line true in
  let data := Demo.snapshot [Demo.c1; Demo.c2; Demo.c3] in
  let t := traceOf (handleChartUpdate Demo.host data w) in
  setDataOn LineSeries t =
    [[LinePoint {| line_time := 7800; line_value := 105 |};
      LinePoint {| line_time := 7860; line_value := 102 |};
      LinePoint {| line_time := 7920; line_value := 118 |}]]
  /\ In FitContent t
  /\ chartCalls (traceOf (handleChartUpdate Demo.host data (stateOf (destroy w)))) =
       [SetData LineSeries (map (pricePoint Demo.host w) [Demo.c1; Demo.c2; Demo.c3]);
        SetData HistogramSeries (map (volumePoint Demo.host w) [Demo.c1; Demo.c2; Demo.c3])]
  /\ traceOf (handleChartUpdate Demo.host (Demo.snapshot []) w) =
       [CallOnDataUpdate (Demo.snapshot [])].
Proof.
  cbv zeta.
  pose proof (full_replace_on_reload Demo.host
                (Demo.snapshot [Demo.c1; Demo.c2; Demo.c3])
                (Demo.mounted "#c" line true)) as H.
  cbv zeta in H. destruct H as [H _].
  destruct H as (_ & Hs & _ & _ & Hf & Hd);
    [reflexivity | discriminate | left; reflexivity |].
  pose proof (full_replace_on_reload Demo.host (Demo.snapshot [])
                (Demo.mounted "#c" line true)) as He.
  cbv zeta in He. destruct He as [_ He].
  split; [exact Hs |]. split; [exact Hf |].
  split; [exact Hd | exact (He eq_refl)].
Defined.

Lemma legend_match_is_first_within_tolerance_witness :
  exists v hv,
    traceOf (updateLegend Demo.host (Some (hoverAt 7860))
               (Demo.loaded candle false [Demo.c1; Demo.c2; Demo.c3])) = [SetLegendHTML v]
    /\ l_ohlc v = Some hv
    /\ h_metrics hv = Some (candleMetrics false Demo.c2).
Proof.
  destruct (legend_match_is_first_within_tolerance Demo.host
              (Demo.loaded candle false [Demo.c1; Demo.c2; Demo.c3])
              (hoverAt 7860) 7860
              (fun s => match s with
                        | CandlestickSeries => Some (mkBar 7860 105 108 101 102)
                        | _ => None
                        end)
              CandlestickSeries (mkBar 7860 105 108 101 102))
    as (v & hv & Ht & Ho & _ & Hm);
    [reflexivity | reflexivity | reflexivity | discriminate
    | reflexivity | reflexivity | reflexivity |].
  exists v, hv. split; [exact Ht |]. split; [exact Ho |].
  destruct Hm as [(before & c & after & Hsplit & Hd & Hfar & Hm) | [Hfar _]].
  - destruct before as [| b0 before].
    + cbn in Hsplit. injection Hsplit as <- _. vm_compute in Hd. discriminate Hd.
    + cbn in Hsplit. injection Hsplit as <- Hsplit.
      destruct before as [| b1 before].
      * cbn in Hsplit. injection Hsplit as <- _. exact Hm.
      * cbn in Hsplit. injection Hsplit as <- _.
        apply Forall_cons in Hfar as [_ Hfar]. apply Forall_cons in Hfar as [Hfar _].
        vm_compute in Hfar. exfalso. apply Hfar. reflexivity.
  - apply Forall_cons in Hfar as [_ Hfar]. apply Forall_cons in Hfar as [Hfar _].
    vm_compute in Hfar. exfalso. apply Hfar. reflexivity.
Defined.

Lemma legend_bar_metrics_witness :
  exists v m,
    traceOf (updateLegend Demo.host (Some (hoverAt 7860))
               (Demo.loaded candle false [Demo.c1; Demo.c2; Demo.c3])) = [SetLegendHTML v]
    /\ l_ohlc v = Some {| h_data := mkBar 7860 105 108 101 102; h_metrics := Some m |}
    /\ m_candleChange m = ((102 - 105) / 105 * 100)%Q
    /\ m_candleFluctuation m = ((108 - 101) / 105 * 100)%Q.
Proof.
  destruct (legend_bar_metrics Demo.host
              (Demo.loaded candle false [Demo.c1; Demo.c2; Demo.c3])
              (hoverAt 7860) 7860
              (fun s => match s with
                        | CandlestickSeries => Some (mkBar 7860 105 108 101 102)
                        | _ => None
                        end)
              CandlestickSeries (mkBar 7860 105 108 101 102) Demo.c2)
    as (v & m & Ht & Ho & Hpos & _);
    [reflexivity | reflexivity | reflexivity | discriminate
    | reflexivity | reflexivity | reflexivity | reflexivity |].
  exists v, m. split; [exact Ht |]. split; [exact Ho |].
  apply Hpos. reflexivity.
Defined.

Lemma container_not_found_rejects_initialize_witness :
  exists w t,
    create (Demo.opts "#missing" candle false) = (Normal w, t)
    /\ initializePromise Demo.host w =
         (Rejected "Chart container not found: #missing", w, []).
Proof.
  destruct (container_not_found_rejects_initialize Demo.host
              (Demo.opts "#missing" candle false))
    as (w & t & Hc & _ & _ & _ & Hp & _); [reflexivity |].
  exists w, t. split; [exact Hc | exact Hp].
Defined.

Lemma subscribe_wait_gives_up_silently_witness :
  waitForWebSocketConnection deadTransport 5000 52 = Some (false, pollsThenResolve 51)
  /\ subscribeTimer deadTransport 52 "1-0xabc" (Demo.mounted "#c" line true)
       = Some (Normal tt, Demo.mounted "#c" line true, pollsThenResolve 51)
  /\ countCalls isStatusRead (pollsThenResolve 51) = 52%nat
  /\ countCalls isSubscribe (pollsThenResolve 51) = 0%nat.
Proof.
  destruct (subscribe_wait_gives_up_silently deadTransport "1-0xabc"
              (Demo.mounted "#c" line true) 51)
    as (_ & Hw & Hs & Hn & _ & Hq & _);
    [intros j Hj; split; [reflexivity | cbn [deadTransport nowAt startTime]; lia]
    | reflexivity | reflexivity |].
  split; [apply Hw; lia |]. split; [apply Hs; lia |].
  split; [exact Hn | exact Hq].
Defined.

Lemma price_change_after_snapshot_witness :
  priceChange (stateOf (handleChartUpdate Demo.host
                          (Demo.snapshot [Demo.c1; Demo.c2; Demo.c3])
                          (Demo.mounted "#c" line true)))
  = ((118 - 100) / 100 * 100)%Q
  /\ priceChange (stateOf (handleChartUpdate Demo.host (Demo.snapshot [Demo.c1])
                             (Demo.mounted "#c" line true)))
     = priceChange (Demo.mounted "#c" line true).
Proof.
  split.
  - apply (proj1 (price_change_after_snapshot Demo.host
                    (Demo.snapshot [Demo.c1; Demo.c2; Demo.c3])
                    (Demo.mounted "#c" line true)) Demo.c1 Demo.c3);
      [reflexivity | reflexivity | cbn; lia | reflexivity].
  - apply (proj1 (proj2 (price_change_after_snapshot Demo.host (Demo.snapshot [Demo.c1])
                           (Demo.mounted "#c" line true)))).
    cbn. lia.
Defined.

(** The spec's end-to-end scenario: a line widget with volume receives a
    snapshot of three candles, then a trade 30 seconds after the last
    candle at a price above its close. *)
Example scenario_snapshot_then_trade :
  let w0 := Demo.mounted "#c" line true in
  let r1 := handleChartUpdate Demo.host (Demo.snapshot [Demo.c1; Demo.c2; Demo.c3]) w0 in
  let r2 := handleTrade Demo.host trade30 (stateOf r1) in
  ready w0 = true
  /\ length (setDataOn LineSeries (traceOf r1)) = 1%nat
  /\ map (@length Point) (setDataOn LineSeries (traceOf r1)) = [3%nat]
  /\ map (@length Point) (setDataOn HistogramSeries (traceOf r1)) = [3%nat]
  /\ chartCalls (traceOf r2) =
       [Update LineSeries (LinePoint {| line_time := 7920; line_value := 119 |});
        Update HistogramSeries
          (VolumePoint {| vol_time := 7920; vol_value := (700 + 238)%Q;
                          vol_color := "#26a69a40" |});
        ScrollToRealTime]
  /\ currentPrice (stateOf r2) = Some 119%Q
  /\ (exists v, In (SetLegendHTML v) (traceOf r2) /\ l_price v = Some 119%Q).
Proof.
  vm_compute. repeat split.
  eexists. split; [left; reflexivity | reflexivity].
Qed.

(** * Further properties of the widget *)

Section MoreProperties.
Context (host : Host).

#[local] Arguments updateSingleCandle : simpl never.
#[local] Arguments updateChart : simpl never.
#[local] Arguments updateLegend : simpl never.

(** Reduce field reads through field assignments. *)
Ltac fields :=
  cbn [chart legendElement candlestickSeries lineSeries volumeSeries sdk chartData
       currentPrice priceChange previousCandleCount isInitialLoad options previousPrice
       set_chart set_legendElement set_candlestickSeries set_lineSeries set_volumeSeries
       set_sdk set_chartData set_currentPrice set_priceChange set_previousCandleCount
       set_isInitialLoad set_previousPrice candles set_candles].

Ltac fields_in H :=
  cbn [chart legendElement candlestickSeries lineSeries volumeSeries sdk chartData
       currentPrice priceChange previousCandleCount isInitialLoad options previousPrice
       set_chart set_legendElement set_candlestickSeries set_lineSeries set_volumeSeries
       set_sdk set_chartData set_currentPrice set_priceChange set_previousCandleCount
       set_isInitialLoad set_previousPrice candles set_candles] in H.

(** One step through a handler, the sub-methods being replaced by what
    they return. *)
Ltac step :=
  match goal with
  | |- context [updateLegend ?h ?p ?w] => rewrite (updateLegend_run h p w)
  | |- context [updateChart ?h ?d ?w] =>
      let t := fresh "t" in
      let H := fresh "H" in
      destruct (updateChart_frame h d w) as [t H]; rewrite H; clear H
  | |- context [updateSingleCandle ?h ?c ?w] =>
      let t := fresh "t" in
      let H := fresh "H" in
      destruct (updateSingleCandle_frame h c w) as [t H]; rewrite H; clear H
  | |- context [match latest ?cs with _ => _ end] => destruct (latest cs) eqn:?
  | |- context [match ?cs !! 0%nat with _ => _ end] => destruct (cs !! 0%nat) eqn:?
  | |- context [match o_legendStyle ?o with _ => _ end] => destruct (o_legendStyle o) eqn:?
  | |- context [if ?b then _ else _] =>
      match type of b with bool => destruct b eqn:? end
  end;
  cbv beta iota zeta; fields.

Lemma latest_Some_nonempty (cs : list Candle) (c : Candle) :
  latest cs = Some c -> cs <> [] /\ (0 <? length cs)%nat = true.
Proof.
  intros H. assert (cs <> []) by (intros E; rewrite E in H; discriminate).
  split; [assumption | apply length_pos_ltb; assumption].
Qed.

(** The bookkeeping of [handleChartUpdate], whatever branch it takes. *)
Lemma handleChartUpdate_state (data : ChartData) (w : Widget) :
  let w' := stateOf (handleChartUpdate host data w) in
  chartData w' = data
  /\ previousCandleCount w' = length (candles data)
  /\ isInitialLoad w' = false
  /\ currentPrice w' =
       match latest (candles data) with
       | Some c => Some (ClosePrice c)
       | None => currentPrice w
       end
  /\ previousPrice w' = previousPrice w.
Proof.
  cbv zeta. unfold handleChartUpdate. unfold_m. fields.
  destruct (candles data) as [| c0 cs] eqn:Hcs.
  - rewrite latest_empty.
    cbn [length Nat.ltb Nat.leb andb negb]. rewrite !andb_false_r. cbn [andb].
    repeat step; cbn; auto.
  - destruct (latest_nonempty (c0 :: cs)) as [c Hc]; [discriminate |].
    rewrite Hc. cbn [length Nat.ltb Nat.leb].
    destruct (isInitialLoad w) eqn:Hi; cbn [negb andb];
      repeat step; cbn; auto.
Qed.

(** What a non-empty snapshot sends to the chart of a mounted widget. *)
Lemma handleChartUpdate_chartCalls (data : ChartData) (w : Widget) (c : Candle) :
  ready w = true ->
  latest (candles data) = Some c ->
  let diff := Z.of_nat (length (candles data)) - Z.of_nat (previousCandleCount w) in
  chartCalls (traceOf (handleChartUpdate host data w)) =
    if negb (isInitialLoad w) && ((diff =? 0) || (diff =? 1))
    then liveCalls host w c
    else replaceCalls host w (candles data).
Proof.
  intros Hr Hc. cbv zeta.
  destruct (latest_Some_nonempty _ _ Hc) as [Hne Hlen].
  unfold handleChartUpdate, liveCalls, replaceCalls. unfold_m. fields.
  rewrite Hlen, Hc.
  destruct (isInitialLoad w); cbn [negb andb].
  - rewrite (updateChart_run host data (set_chartData data w) Hr Hne).
    repeat step. all: destruct (o_showVolume (options w)); reflexivity.
  - destruct (Z.eqb_spec (Z.of_nat (length (candles data)) - Z.of_nat (previousCandleCount w)) 0)
      as [E0 | N0].
    + rewrite E0. cbn.
      rewrite (updateSingleCandle_run host c (set_chartData data w) Hr).
      repeat step. all: destruct (o_showVolume (options w)); reflexivity.
    + destruct (Z.eqb_spec (Z.of_nat (length (candles data)) - Z.of_nat (previousCandleCount w)) 1)
        as [E1 | N1].
      * rewrite E1. cbn.
        rewrite (updateSingleCandle_run host c (set_chartData data w) Hr).
        repeat step. all: destruct (o_showVolume (options w)); reflexivity.
      * cbn [orb].
        destruct ((0 <=? _) && (_ <=? MAX_INCREMENTAL_CANDLES)); cbn [andb];
          rewrite (updateChart_run host data (set_chartData data w) Hr Hne);
          repeat step.
        all: destruct (o_showVolume (options w)); reflexivity.
Qed.

Lemma liveCalls_counts (w : Widget) (c : Candle) :
  countCalls isUpdate (liveCalls host w c) = activeSeriesCount w
  /\ countCalls isSetData (liveCalls host w c) = 0%nat.
Proof.
  unfold liveCalls, activeSeriesCount. destruct (o_showVolume (options w)); split; reflexivity.
Qed.

Lemma replaceCalls_counts (w : Widget) (cs : list Candle) :
  countCalls isSetData (replaceCalls host w cs) = activeSeriesCount w
  /\ countCalls isUpdate (replaceCalls host w cs) = 0%nat.
Proof.
  unfold replaceCalls, activeSeriesCount. destruct (o_showVolume (options w)); split; reflexivity.
Qed.

Lemma is_chart_call_update (e : Effect) : isUpdate e = true -> isChartCall e = true.
Proof. destruct e; cbn; congruence. Qed.

Lemma is_chart_call_setData (e : Effect) : isSetData e = true -> isChartCall e = true.
Proof. destruct e; cbn; congruence. Qed.

(** ** Update reconciler *)

(** X1.  After any snapshot delivery, whichever branch the reconciler takes,
    the widget holds the delivered snapshot, its previous-count equals the
    snapshot's size, the first-delivery flag is cleared (also by an empty
    snapshot), and the current price is the last candle's close, or is left
    alone when the snapshot is empty. *)
Theorem snapshot_bookkeeping (data : ChartData) (w : Widget) :
  let w' := stateOf (handleChartUpdate host data w) in
  chartData w' = data
  /\ previousCandleCount w' = length (candles data)
  /\ isInitialLoad w' = false
  /\ (forall c, latest (candles data) = Some c -> currentPrice w' = Some (ClosePrice c))
  /\ (candles data = [] -> currentPrice w' = currentPrice w).
Proof.
  cbv zeta. destruct (handleChartUpdate_state data w) as (H1 & H2 & H3 & H4 & _).
  repeat split; auto.
  - intros c Hc. rewrite H4, Hc. reflexivity.
  - intros He. rewrite H4, He. reflexivity.
Qed.

(** X2.  On a mounted widget a non-empty snapshot is applied in exactly one
    of two ways.  It is a live update (one upsert per active series, no
    [setData]) exactly when it is not the first delivery and the count grew
    by 0 or 1; in every other case, growth by 2 to 50 candles included, it
    is a full replace (one [setData] per active series, no upsert). *)
Theorem snapshot_is_live_update_or_full_replace
  (data : ChartData) (w : Widget) (c : Candle) :
  ready w = true ->
  latest (candles data) = Some c ->
  let diff := Z.of_nat (length (candles data)) - Z.of_nat (previousCandleCount w) in
  let t := traceOf (handleChartUpdate host data w) in
  (isInitialLoad w = false /\ (diff = 0 \/ diff = 1) ->
     chartCalls t = liveCalls host w c
     /\ countCalls isUpdate t = activeSeriesCount w
     /\ countCalls isSetData t = 0%nat)
  /\ (isInitialLoad w = true \/ diff < 0 \/ 2 <= diff ->
      chartCalls t = replaceCalls host w (candles data)
      /\ countCalls isSetData t = activeSeriesCount w
      /\ countCalls isUpdate t = 0%nat).
Proof.
  intros Hr Hc. cbv zeta.
  pose proof (handleChartUpdate_chartCalls data w c Hr Hc) as H. cbv zeta in H.
  split.
  - intros [Hi Hd].
    assert (E : negb (isInitialLoad w)
                && ((Z.of_nat (length (candles data)) - Z.of_nat (previousCandleCount w) =? 0)
                    || (Z.of_nat (length (candles data)) - Z.of_nat (previousCandleCount w) =? 1))
                = true).
    { rewrite Hi. destruct Hd as [-> | ->]; reflexivity. }
    rewrite E in H. split; [exact H |].
    rewrite <- (countCalls_chartCalls isUpdate), <- (countCalls_chartCalls isSetData), H
      by (first [apply is_chart_call_update | apply is_chart_call_setData]).
    apply liveCalls_counts.
  - intros Hcase.
    assert (E : negb (isInitialLoad w)
                && ((Z.of_nat (length (candles data)) - Z.of_nat (previousCandleCount w) =? 0)
                    || (Z.of_nat (length (candles data)) - Z.of_nat (previousCandleCount w) =? 1))
                = false).
    { destruct Hcase as [Hi | Hd]; [rewrite Hi; reflexivity |].
      apply andb_false_intro2. apply orb_false_intro; apply Z.eqb_neq; lia. }
    rewrite E in H. split; [exact H |].
    rewrite <- (countCalls_chartCalls isUpdate), <- (countCalls_chartCalls isSetData), H
      by (first [apply is_chart_call_update | apply is_chart_call_setData]).
    apply replaceCalls_counts.
Qed.

(** X3.  Delivering the same non-empty snapshot twice to a mounted widget:
    whatever the first delivery did, the second one is a live update of the
    last candle, with no [setData] and no fit request. *)
Theorem repeated_snapshot_is_live_update (data : ChartData) (w : Widget) (c : Candle) :
  ready w = true ->
  latest (candles data) = Some c ->
  let w1 := stateOf (handleChartUpdate host data w) in
  chartCalls (traceOf (handleChartUpdate host data w1)) = liveCalls host w c.
Proof.
  intros Hr Hc. cbv zeta.
  destruct (handleChartUpdate_state data w) as (_ & Hp & Hi & _).
  destruct (handleChartUpdate_returns host data w) as [_ Hs].
  assert (Hr1 : ready (stateOf (handleChartUpdate host data w)) = true)
    by (rewrite (sameHandles_ready _ _ Hs); exact Hr).
  rewrite (handleChartUpdate_chartCalls data _ c Hr1 Hc).
  rewrite Hp, Hi, Z.sub_diag. cbn [negb andb orb Z.eqb].
  destruct Hs as (_ & _ & _ & _ & _ & _ & Ho).
  unfold liveCalls, activePriceSeries, pricePoint, volumePoint, isDark. rewrite Ho.
  reflexivity.
Qed.

(** X4.  An empty first delivery uses up the first-delivery status: when a
    mounted widget receives an empty snapshot and then a snapshot of exactly
    one candle, the second is applied as a live update (a single upsert per
    active series), not as a full replace, so the series are never reset. *)
Theorem single_candle_after_empty_snapshot_is_upserted
  (empty data : ChartData) (w : Widget) (c : Candle) :
  ready w = true ->
  candles empty = [] ->
  candles data = [c] ->
  let w1 := stateOf (handleChartUpdate host empty w) in
  let t := traceOf (handleChartUpdate host empty w)
           ++ traceOf (handleChartUpdate host data w1) in
  chartCalls t = liveCalls host w c
  /\ countCalls isSetData t = 0%nat.
Proof.
  intros Hr He Hd. cbv zeta.
  destruct (handleChartUpdate_state empty w) as (_ & Hp & Hi & _).
  destruct (handleChartUpdate_returns host empty w) as [_ Hs].
  assert (Hr1 : ready (stateOf (handleChartUpdate host empty w)) = true)
    by (rewrite (sameHandles_ready _ _ Hs); exact Hr).
  assert (Hc : latest (candles data) = Some c) by (rewrite Hd; reflexivity).
  assert (H0 : chartCalls (traceOf (handleChartUpdate host empty w)) = []).
  { unfold handleChartUpdate. unfold_m. fields. rewrite He.
    cbn [length Nat.ltb Nat.leb]. rewrite !andb_false_r. cbn [andb].
    rewrite (updateChart_empty host empty _ He). repeat step; reflexivity. }
  assert (H1 : chartCalls (traceOf (handleChartUpdate host data
                 (stateOf (handleChartUpdate host empty w)))) = liveCalls host w c).
  { rewrite (handleChartUpdate_chartCalls data _ c Hr1 Hc).
    rewrite Hp, Hi, He, Hd. cbn -[liveCalls replaceCalls handleChartUpdate stateOf].
    destruct Hs as (_ & _ & _ & _ & _ & _ & Ho).
    unfold liveCalls, activePriceSeries, pricePoint, volumePoint, isDark. rewrite Ho.
    reflexivity. }
  assert (Ht : chartCalls (traceOf (handleChartUpdate host empty w)
                 ++ traceOf (handleChartUpdate host data
                      (stateOf (handleChartUpdate host empty w)))) = liveCalls host w c).
  { unfold chartCalls in *. rewrite List.filter_app, H0, H1. reflexivity. }
  split; [exact Ht |].
  rewrite <- (countCalls_chartCalls isSetData), Ht by apply is_chart_call_setData.
  apply liveCalls_counts.
Qed.


(** ** Live trades *)

(** The calls of [updateSingleCandle] and [updateChart] all go to the
    chart. *)
Lemma updateSingleCandle_chart_only (c : Candle) (w : Widget) :
  exists t,
    updateSingleCandle host c w = (Normal tt, set_currentPrice (Some (ClosePrice c)) w, t)
    /\ Forall (fun e => isChartCall e = true) t.
Proof.
  unfold updateSingleCandle. unfold_m. cbn.
  destruct (o_priceSeriesType (options w)), (o_theme (options w));
    destruct w as [[?|] ? [?|] [?|] [?|] ? ? ? ? ? ? ? ?]; cbn;
    eexists; (split; [reflexivity | repeat constructor]).
Qed.

Lemma updateChart_chart_only (data : ChartData) (w : Widget) :
  exists t,
    updateChart host data w = (Normal tt, w, t)
    /\ Forall (fun e => isChartCall e = true) t.
Proof.
  unfold updateChart. unfold_m.
  destruct (length (candles data) =? 0)%nat;
    [eexists; split; [reflexivity | constructor] |].
  destruct (o_priceSeriesType (options w)), (o_showVolume (options w)),
    (0 <? length (candles data))%nat;
    destruct w as [[?|] ? [?|] [?|] [?|] ? ? ? ? ? ? ? ?]; cbn;
    eexists; (split; [reflexivity | repeat constructor]).
Qed.

Lemma countCalls_app (p : Effect -> bool) (t1 t2 : list Effect) :
  countCalls p (t1 ++ t2) = (countCalls p t1 + countCalls p t2)%nat.
Proof. unfold countCalls. rewrite List.filter_app, length_app. reflexivity. Qed.

Lemma countCalls_chart_only (p : Effect -> bool) (t : list Effect) :
  (forall e, isChartCall e = true -> p e = false) ->
  Forall (fun e => isChartCall e = true) t ->
  countCalls p t = 0%nat.
Proof.
  intros Hp. unfold countCalls. induction 1 as [| e t He _ IH]; [reflexivity |].
  cbn. rewrite (Hp e He). exact IH.
Qed.

(** One step through a handler that keeps track of where the calls go. *)
Ltac step_calls :=
  match goal with
  | |- context [updateLegend ?h ?p ?w] => rewrite (updateLegend_run h p w)
  | |- context [updateChart ?h ?d ?w] =>
      let t := fresh "t" in
      let H := fresh "H" in
      let F := fresh "F" in
      destruct (updateChart_chart_only d w) as (t & H & F); rewrite H; clear H
  | |- context [updateSingleCandle ?h ?c ?w] =>
      let t := fresh "t" in
      let H := fresh "H" in
      let F := fresh "F" in
      destruct (updateSingleCandle_chart_only c w) as (t & H & F); rewrite H; clear H
  | |- context [match latest ?cs with _ => _ end] => destruct (latest cs) eqn:?
  | |- context [match ?cs !! 0%nat with _ => _ end] => destruct (cs !! 0%nat) eqn:?
  | |- context [match o_legendStyle ?o with _ => _ end] => destruct (o_legendStyle o) eqn:?
  | |- context [if ?b then _ else _] =>
      match type of b with bool => destruct b eqn:? end
  end;
  cbv beta iota zeta; fields.

(** Close a goal [exists tc, trace = L ++ tc ++ C /\ Forall _ tc]. *)
Ltac pick_chart_part :=
  cbn [app stateOf traceOf fst snd]; rewrite ?app_nil_r;
  first
    [ match goal with
      | F : Forall _ ?t |- _ =>
          exists t; split; [cbn [app]; rewrite ?app_nil_r; reflexivity | exact F]
      end
    | exists []; split; [reflexivity | constructor] ].

(** The trace of [handleTrade]: the legend, then calls on the chart, then
    the user's callback. *)
Lemma handleTrade_trace (trade : RealTimeTrade) (w : Widget) :
  exists tc,
    traceOf (handleTrade host trade w) =
      renderCalls host (set_previousPrice (Price trade)
                          (set_currentPrice (Some (Price trade)) w))
      ++ tc
      ++ (if o_onTrade (options w) then [CallOnTrade trade] else [])
    /\ Forall (fun e => isChartCall e = true) tc.
Proof.
  unfold handleTrade, renderCalls. unfold_m. fields.
  repeat step_calls; pick_chart_part.
Qed.

(** The state [handleTrade] leaves behind. *)
Lemma handleTrade_state (trade : RealTimeTrade) (w : Widget) :
  let w' := stateOf (handleTrade host trade w) in
  currentPrice w' = Some (Price trade)
  /\ previousPrice w' = Price trade
  /\ priceChange w' = priceChange w
  /\ previousCandleCount w' = previousCandleCount w
  /\ isInitialLoad w' = isInitialLoad w
  /\ candles (chartData w') =
       match latest (candles (chartData w)) with
       | Some c =>
           if inMergeWindow trade c
           then <[(length (candles (chartData w)) - 1)%nat := mergeTrade c trade]>
                  (candles (chartData w))
           else candles (chartData w)
       | None => candles (chartData w)
       end.
Proof.
  cbv zeta. unfold handleTrade, inMergeWindow. unfold_m. fields.
  destruct (latest (candles (chartData w))) as [c |] eqn:Hl.
  - destruct (latest_Some_nonempty _ _ Hl) as [_ Hlen].
    repeat first [rewrite Hlen | rewrite Hl | step]; cbn; auto 10.
  - assert (Hlen : (0 <? length (candles (chartData w)))%nat = false).
    { destruct (candles (chartData w)) as [| c0 cs] eqn:Hcs; [reflexivity |].
      destruct (latest_nonempty (c0 :: cs)) as [c Hc]; [discriminate | congruence]. }
    repeat first [rewrite Hlen | rewrite Hl | step]; cbn; auto 10.
Qed.

Lemma map_insert_same {B : Type} (f : Candle -> B) (cs : list Candle) (i : nat)
  (c u : Candle) :
  cs !! i = Some c -> f u = f c -> map f (<[i := u]> cs) = map f cs.
Proof.
  revert i. induction cs as [| a cs IH]; intros i Hi Hf; [discriminate |].
  destruct i as [| i]; cbn in Hi |- *.
  - injection Hi as ->. rewrite Hf. reflexivity.
  - f_equal. apply IH; assumption.
Qed.

(** X5.  A trade never adds, removes or reorders candles: whatever the
    trade and the state, the candle list keeps its length, every candle
    keeps its timestamp and its open price, and every candle but the last
    is untouched. *)
Theorem trade_keeps_the_timeline (trade : RealTimeTrade) (w : Widget) :
  let cs := candles (chartData w) in
  let cs' := candles (chartData (stateOf (handleTrade host trade w))) in
  length cs' = length cs
  /\ map Timestamp cs' = map Timestamp cs
  /\ map OpenPrice cs' = map OpenPrice cs
  /\ (forall i, (i + 1 < length cs)%nat -> cs' !! i = cs !! i).
Proof.
  cbv zeta. destruct (handleTrade_state trade w) as (_ & _ & _ & _ & _ & Hc).
  rewrite Hc. clear Hc.
  destruct (latest (candles (chartData w))) as [c |] eqn:Hl; [| auto].
  destruct (inMergeWindow trade c); [| auto].
  repeat split.
  - apply length_insert.
  - apply (map_insert_same Timestamp _ _ c); [exact Hl | reflexivity].
  - apply (map_insert_same OpenPrice _ _ c); [exact Hl | reflexivity].
  - intros i Hi. apply list_lookup_insert_ne. lia.
Qed.

(** X6.  After a trade is merged, the last candle brackets the trade price:
    low <= price <= high, so low <= high holds even if it did not before;
    the low never rises and the high never falls. *)
Theorem merged_candle_brackets_the_price
  (trade : RealTimeTrade) (w : Widget) (c : Candle) :
  latest (candles (chartData w)) = Some c ->
  0 <= TradeTime trade / 60 * 60 - Timestamp c <= 120 ->
  exists u,
    latest (candles (chartData (stateOf (handleTrade host trade w)))) = Some u
    /\ (LowPrice u <= Price trade)%Q /\ (Price trade <= HighPrice u)%Q
    /\ (LowPrice u <= HighPrice u)%Q
    /\ (LowPrice u <= LowPrice c)%Q /\ (HighPrice c <= HighPrice u)%Q
    /\ ClosePrice u = Price trade.
Proof.
  intros Hl Hwin.
  destruct (handleTrade_state trade w) as (_ & _ & _ & _ & _ & Hc).
  rewrite Hl in Hc.
  assert (Hin : inMergeWindow trade c = true).
  { unfold inMergeWindow, tradeMinuteTimestamp.
    apply andb_true_intro. split; apply Z.leb_le; lia. }
  rewrite Hin in Hc. exists (mergeTrade c trade). rewrite Hc.
  split; [apply (latest_insert _ c); exact Hl |].
  cbn [mergeTrade LowPrice HighPrice ClosePrice].
  repeat split.
  - apply Q.le_min_r.
  - apply Q.le_max_r.
  - apply Qle_trans with (Price trade); [apply Q.le_min_r | apply Q.le_max_r].
  - apply Q.le_min_l.
  - apply Q.le_max_l.
Qed.

(** X7.  When the last candle starts on a minute boundary, the merge window
    reads in plain seconds: a trade is merged exactly when its time lies in
    the three minutes that start with the candle, [Timestamp, Timestamp +
    180); an earlier or later trade leaves the candles as they are. *)
Theorem merge_window_is_three_minutes
  (trade : RealTimeTrade) (w : Widget) (c : Candle) :
  latest (candles (chartData w)) = Some c ->
  Timestamp c mod 60 = 0 ->
  let cs := candles (chartData w) in
  let cs' := candles (chartData (stateOf (handleTrade host trade w))) in
  (Timestamp c <= TradeTime trade < Timestamp c + 180 ->
     cs' = <[(length cs - 1)%nat := mergeTrade c trade]> cs)
  /\ (TradeTime trade < Timestamp c \/ Timestamp c + 180 <= TradeTime trade ->
      cs' = cs).
Proof.
  intros Hl Hmin. cbv zeta.
  destruct (handleTrade_state trade w) as (_ & _ & _ & _ & _ & Hc).
  rewrite Hl in Hc. rewrite Hc. clear Hc.
  unfold inMergeWindow, tradeMinuteTimestamp.
  pose proof (Z.div_mod (TradeTime trade) 60 ltac:(lia)) as Hq.
  pose proof (Z.mod_pos_bound (TradeTime trade) 60 ltac:(lia)) as Hrem.
  pose proof (Z.div_mod (Timestamp c) 60 ltac:(lia)) as Hk.
  rewrite Hmin in Hk.
  split; intros H.
  - assert (E : (0 <=? TradeTime trade / 60 * 60 - Timestamp c)
                && (TradeTime trade / 60 * 60 - Timestamp c <=? 120) = true).
    { apply andb_true_intro. split; apply Z.leb_le; lia. }
    rewrite E. reflexivity.
  - assert (E : (0 <=? TradeTime trade / 60 * 60 - Timestamp c)
                && (TradeTime trade / 60 * 60 - Timestamp c <=? 120) = false).
    { destruct H as [H | H].
      - apply andb_false_intro1. apply Z.leb_gt. lia.
      - apply andb_false_intro2. apply Z.leb_gt. lia. }
    rewrite E. reflexivity.
Qed.

(** X8.  Two trades that both fall in the window of the last candle
    compose: the candle ends with the second trade's price as close, the
    high and low taken over both prices, both USD values and both base
    amounts added to the volumes, and the transaction count raised by two;
    all other candles are as before. *)
Theorem two_trades_compose (t1 t2 : RealTimeTrade) (w : Widget) (c : Candle) :
  latest (candles (chartData w)) = Some c ->
  0 <= TradeTime t1 / 60 * 60 - Timestamp c <= 120 ->
  0 <= TradeTime t2 / 60 * 60 - Timestamp c <= 120 ->
  let w2 := stateOf (handleTrade host t2 (stateOf (handleTrade host t1 w))) in
  candles (chartData w2) =
    <[(length (candles (chartData w)) - 1)%nat :=
        {| Timestamp := Timestamp c;
           OpenPrice := OpenPrice c;
           HighPrice := Qmax (Qmax (HighPrice c) (Price t1)) (Price t2);
           LowPrice := Qmin (Qmin (LowPrice c) (Price t1)) (Price t2);
           ClosePrice := Price t2;
           VolumeIn := (VolumeIn c + USD t1 + USD t2)%Q;
           VolumeOut := (VolumeOut c + Amount t1 + Amount t2)%Q;
           TransactionCount := Some (orZero (TransactionCount c) + 2) |}]>
      (candles (chartData w))
  /\ currentPrice w2 = Some (Price t2).
Proof.
  intros Hl H1 H2. cbv zeta.
  assert (Hin : forall t u, Timestamp u = Timestamp c ->
            0 <= TradeTime t / 60 * 60 - Timestamp c <= 120 ->
            inMergeWindow t u = true).
  { intros t u Hu H. unfold inMergeWindow, tradeMinuteTimestamp. rewrite Hu.
    apply andb_true_intro. split; apply Z.leb_le; lia. }
  destruct (handleTrade_state t1 w) as (_ & _ & _ & _ & _ & Hc1).
  rewrite Hl, (Hin t1 c eq_refl H1) in Hc1.
  destruct (handleTrade_state t2 (stateOf (handleTrade host t1 w)))
    as (Hp & _ & _ & _ & _ & Hc2).
  split; [| exact Hp].
  rewrite Hc2, Hc1. rewrite (latest_insert _ c _ Hl).
  rewrite (Hin t2 (mergeTrade c t1) eq_refl H2).
  rewrite length_insert, list_insert_insert_eq.
  unfold mergeTrade. cbn [Timestamp OpenPrice HighPrice LowPrice ClosePrice VolumeIn
                          VolumeOut TransactionCount orZero].
  replace (orZero (TransactionCount c) + 1 + 1) with (orZero (TransactionCount c) + 2)
    by lia.
  reflexivity.
Qed.

(** X9.  Every trade, merged or not, sets the current and the previous
    price to the trade price and, when an [onTrade] callback was supplied,
    calls it exactly once with the trade, as the last call of the handler;
    without a callback no call is made. *)
Theorem every_trade_sets_price_and_notifies (trade : RealTimeTrade) (w : Widget) :
  let r := handleTrade host trade w in
  currentPrice (stateOf r) = Some (Price trade)
  /\ previousPrice (stateOf r) = Price trade
  /\ countCalls isOnTrade (traceOf r) = (if o_onTrade (options w) then 1%nat else 0%nat)
  /\ (o_onTrade (options w) = true -> last (traceOf r) = Some (CallOnTrade trade)).
Proof.
  cbv zeta. destruct (handleTrade_state trade w) as (Hp & Hpp & _).
  destruct (handleTrade_trace trade w) as (tc & Ht & Hf).
  split; [exact Hp |]. split; [exact Hpp |]. rewrite Ht.
  split.
  - rewrite !countCalls_app.
    rewrite (countCalls_chart_only isOnTrade tc) by (auto; intros []; cbn; congruence).
    assert (Hr : forall w1, countCalls isOnTrade (renderCalls host w1) = 0%nat).
    { intros w1. unfold renderCalls.
      destruct (o_legendStyle (options w1)), (truthy (legendElement w1) && truthy (chart w1));
        reflexivity. }
    rewrite Hr. destruct (o_onTrade (options w)); reflexivity.
  - intros Ho. rewrite Ho, !app_assoc. apply last_snoc.
Qed.

(** X10.  On a widget with a legend, a trade re-renders the legend exactly
    once, before anything is sent to a series, and what it shows as price
    is the trade price, without a hover block. *)
Theorem trade_renders_its_price_in_the_legend (trade : RealTimeTrade) (w : Widget) :
  truthy (legendElement w) = true ->
  truthy (chart w) = true ->
  o_legendStyle (options w) <> legend_none ->
  exists v rest,
    traceOf (handleTrade host trade w) = SetLegendHTML v :: rest
    /\ l_price v = Some (Price trade)
    /\ l_ohlc v = None
    /\ countCalls isLegendCall rest = 0%nat.
Proof.
  intros Hle Hch Hst.
  destruct (handleTrade_trace trade w) as (tc & Ht & Hf).
  unfold renderCalls in Ht. fields_in Ht. rewrite Hle, Hch in Ht. cbn [andb] in Ht.
  eexists. exists (tc ++ (if o_onTrade (options w) then [CallOnTrade trade] else [])).
  split.
  - rewrite Ht. destruct (o_legendStyle (options w)); [contradiction | |]; reflexivity.
  - split; [reflexivity |]. split; [reflexivity |].
    rewrite countCalls_app.
    rewrite (countCalls_chart_only isLegendCall tc) by (auto; intros []; cbn; congruence).
    destruct (o_onTrade (options w)); reflexivity.
Qed.

(** ** Snapshots, the legend and the callbacks *)

(** Close a goal
    [exists tc w', w' = state /\ trace = tc ++ legend ++ callback /\ Forall _ tc]
    once the handler has been stepped through. *)
Ltac pick_chart_prefix :=
  cbn [app stateOf traceOf fst snd]; rewrite ?app_nil_r;
  first [ match goal with F : Forall _ ?t |- _ => exists t end | exists [] ];
  eexists; split; [reflexivity |];
  split; [| first [assumption | constructor]];
  unfold renderCalls; fields;
  repeat match goal with
    | H : o_legendStyle _ = _ |- _ => fields_in H; rewrite H; clear H
    | H : (truthy _ && truthy _) = _ |- _ => fields_in H; rewrite H; clear H
    end;
  cbn [app]; rewrite ?app_nil_r; reflexivity.

(** The trace of [handleChartUpdate]: calls on the chart, then the legend
    (rendered from the state the handler ends in, and only for a non-empty
    snapshot), then the user's callback. *)
Lemma handleChartUpdate_trace (data : ChartData) (w : Widget) :
  exists tc w',
    w' = stateOf (handleChartUpdate host data w)
    /\ traceOf (handleChartUpdate host data w) =
         tc
         ++ (if (0 <? length (candles data))%nat then renderCalls host w' else [])
         ++ (if o_onDataUpdate (options w) then [CallOnDataUpdate data] else [])
    /\ Forall (fun e => isChartCall e = true) tc.
Proof.
  unfold handleChartUpdate. unfold_m. fields.
  destruct (latest (candles data)) as [c |] eqn:Hl.
  - destruct (latest_Some_nonempty _ _ Hl) as [_ Hlen]. rewrite Hlen.
    repeat step_calls; pick_chart_prefix.
  - assert (Hlen : (0 <? length (candles data))%nat = false).
    { destruct (candles data) as [| c0 cs] eqn:Hcs; [reflexivity |].
      destruct (latest_nonempty (c0 :: cs)) as [c Hc]; [discriminate | congruence]. }
    rewrite Hlen, !andb_false_r. cbn [andb].
    repeat step_calls; pick_chart_prefix.
Qed.

Lemma renderCalls_quiet (p : Effect -> bool) (w : Widget) :
  (forall v, p (SetLegendHTML v) = false) -> countCalls p (renderCalls host w) = 0%nat.
Proof.
  intros Hp. unfold renderCalls.
  destruct (o_legendStyle (options w)),
    (truthy (legendElement w) && truthy (chart w)); cbn; rewrite ?Hp; reflexivity.
Qed.

Lemma renderCalls_no_element (w : Widget) :
  legendElement w = None -> renderCalls host w = [].
Proof.
  intros H. unfold renderCalls. rewrite H.
  destruct (o_legendStyle (options w)); reflexivity.
Qed.

(** X11.  Every snapshot, empty or not and whatever the reconciler does
    with it, reaches a supplied [onDataUpdate] callback exactly once, as
    the last call of the handler; and on a widget with a legend a non-empty
    snapshot renders the legend exactly once, after the series were
    updated, showing the last close as price and the change just stored,
    while an empty snapshot does not render it. *)
Theorem every_snapshot_notifies_and_renders_last (data : ChartData) (w : Widget) :
  let r := handleChartUpdate host data w in
  countCalls isOnDataUpdate (traceOf r)
    = (if o_onDataUpdate (options w) then 1%nat else 0%nat)
  /\ (o_onDataUpdate (options w) = true -> last (traceOf r) = Some (CallOnDataUpdate data))
  /\ (candles data = [] -> countCalls isLegendCall (traceOf r) = 0%nat)
  /\ (forall c,
        latest (candles data) = Some c ->
        truthy (legendElement w) = true -> truthy (chart w) = true ->
        o_legendStyle (options w) <> legend_none ->
        exists tc v,
          traceOf r =
            tc ++ SetLegendHTML v
               :: (if o_onDataUpdate (options w) then [CallOnDataUpdate data] else [])
          /\ Forall (fun e => isChartCall e = true) tc
          /\ l_price v = Some (ClosePrice c)
          /\ l_rate24h v = priceChange (stateOf r)
          /\ l_ohlc v = None).
Proof.
  cbv zeta. destruct (handleChartUpdate_trace data w) as (tc & w' & Hw & Ht & Hf).
  subst w'.
  assert (Hq : forall p, (forall e, isChartCall e = true -> p e = false) ->
                         countCalls p tc = 0%nat)
    by (intros p Hp; apply countCalls_chart_only; assumption).
  repeat split.
  - rewrite Ht, !countCalls_app, Hq by (intros []; cbn; congruence).
    assert (E : countCalls isOnDataUpdate
                  (if (0 <? length (candles data))%nat
                   then renderCalls host (stateOf (handleChartUpdate host data w))
                   else []) = 0%nat).
    { destruct (0 <? length (candles data))%nat; [| reflexivity].
      apply renderCalls_quiet. reflexivity. }
    rewrite E. destruct (o_onDataUpdate (options w)); reflexivity.
  - intros Ho. rewrite Ht, Ho, !app_assoc. apply last_snoc.
  - intros He. rewrite Ht, He, !countCalls_app, Hq by (intros []; cbn; congruence).
    destruct (o_onDataUpdate (options w)); reflexivity.
  - intros c Hl Hle Hch Hst.
    destruct (latest_Some_nonempty _ _ Hl) as [_ Hlen].
    destruct (handleChartUpdate_state data w) as (_ & _ & _ & Hp & _).
    destruct (handleChartUpdate_returns host data w) as (_ & Hc1 & Hl1 & _ & _ & _ & _ & Ho1).
    rewrite Hlen in Ht. unfold renderCalls in Ht.
    rewrite Hc1, Hl1, Ho1, Hle, Hch in Ht. cbn [andb] in Ht.
    exists tc. eexists. split; [| split; [exact Hf |]].
    + rewrite Ht. destruct (o_legendStyle (options w)); [contradiction | |]; reflexivity.
    + cbn [legendView l_price l_rate24h l_ohlc hoverView]. rewrite Hp, Hl. auto.
Qed.

Lemma fireAll_cons (ev : CallbackEvent) (evs : list CallbackEvent) (w : Widget) :
  fireAll host (ev :: evs) w =
    (completionOf (fireAll host evs (stateOf (fire host ev w))),
     stateOf (fireAll host evs (stateOf (fire host ev w))),
     traceOf (fire host ev w) ++ traceOf (fireAll host evs (stateOf (fire host ev w)))).
Proof.
  cbn [fireAll]. unfold bind.
  pose proof (fire_returns host ev w) as Hf.
  destruct (fire host ev w) as [[[[] | msg] w1] t1]; [| discriminate Hf].
  cbn [stateOf traceOf completionOf fst snd].
  destruct (fireAll host evs w1) as [[r w2] t2]. reflexivity.
Qed.

Lemma fire_sameHandles (ev : CallbackEvent) (w : Widget) :
  sameHandles w (stateOf (fire host ev w)).
Proof.
  destruct ev; cbn [fire].
  - apply handleChartUpdate_returns.
  - apply handleTrade_returns.
  - rewrite onCrosshairMove_returns. unfold sameHandles. cbn. auto 10.
Qed.

Lemma sameHandles_trans (w1 w2 w3 : Widget) :
  sameHandles w1 w2 -> sameHandles w2 w3 -> sameHandles w1 w3.
Proof.
  unfold sameHandles.
  intros (A1 & A2 & A3 & A4 & A5 & A6 & A7) (B1 & B2 & B3 & B4 & B5 & B6 & B7).
  repeat split; congruence.
Qed.

(** X12.  No sequence of chart-update, trade and crosshair-move callbacks
    creates, replaces or drops a handle or changes an option: the chart,
    the legend element, the three series, the SDK and the options are, at
    the end, the ones the widget started with; a mounted widget stays
    mounted. *)
Theorem callbacks_keep_handles_and_options (evs : list CallbackEvent) (w : Widget) :
  sameHandles w (stateOf (fireAll host evs w))
  /\ ready (stateOf (fireAll host evs w)) = ready w.
Proof.
  assert (H : sameHandles w (stateOf (fireAll host evs w))).
  { revert w. induction evs as [| ev evs IH]; intros w.
    - unfold sameHandles. cbn. auto 10.
    - rewrite fireAll_cons. cbn [stateOf fst snd].
      apply sameHandles_trans with (stateOf (fire host ev w));
        [apply fire_sameHandles | apply IH]. }
  split; [exact H | apply sameHandles_ready; exact H].
Qed.

Lemma fire_no_legend (ev : CallbackEvent) (w : Widget) :
  legendElement w = None -> countCalls isLegendCall (traceOf (fire host ev w)) = 0%nat.
Proof.
  intros Hn. destruct ev; cbn [fire].
  - destruct (handleChartUpdate_trace data w) as (tc & w' & Hw & Ht & Hf). subst w'.
    destruct (handleChartUpdate_returns host data w) as (_ & _ & Hl1 & _).
    rewrite Ht, !countCalls_app, (countCalls_chart_only isLegendCall tc)
      by (auto; intros []; cbn; congruence).
    rewrite renderCalls_no_element by (rewrite Hl1; exact Hn).
    destruct (0 <? length (candles data))%nat, (o_onDataUpdate (options w)); reflexivity.
  - destruct (handleTrade_trace trade w) as (tc & Ht & Hf).
    rewrite Ht, !countCalls_app, (countCalls_chart_only isLegendCall tc)
      by (auto; intros []; cbn; congruence).
    rewrite renderCalls_no_element by exact Hn.
    destruct (o_onTrade (options w)); reflexivity.
  - rewrite onCrosshairMove_returns. cbn [traceOf snd]. rewrite Hn.
    destruct (o_legendStyle (options w)); reflexivity.
Qed.

(** X13.  A widget without a legend element (the state [legendStyle:
    'none'] leaves behind) never writes legend markup, whatever sequence of
    callbacks fires. *)
Theorem no_legend_element_no_markup (evs : list CallbackEvent) (w : Widget) :
  legendElement w = None ->
  countCalls isLegendCall (traceOf (fireAll host evs w)) = 0%nat.
Proof.
  revert w. induction evs as [| ev evs IH]; intros w Hn; [reflexivity |].
  rewrite fireAll_cons. cbn [traceOf snd]. rewrite countCalls_app.
  rewrite (fire_no_legend ev w Hn), IH; [reflexivity |].
  destruct (fire_sameHandles ev w) as (_ & Hl & _). rewrite Hl. exact Hn.
Qed.

(** X14.  A crosshair move never changes the widget's state, renders the
    legend only in the 'complex' style (at most once), and on a widget
    whose price series is the line series (no candlestick handle) the
    rendered legend never has a hover block, whatever the event carries. *)
Theorem crosshair_move_only_renders (param : option CrosshairParam) (w : Widget) :
  let r := onCrosshairMove host param w in
  completionOf r = Normal tt
  /\ stateOf r = w
  /\ (length (traceOf r) <= 1)%nat
  /\ (o_legendStyle (options w) <> legend_complex -> traceOf r = [])
  /\ (candlestickSeries w = None ->
      forall v, In (SetLegendHTML v) (traceOf r) -> l_ohlc v = None).
Proof.
  cbv zeta. rewrite onCrosshairMove_returns. cbn [completionOf stateOf traceOf fst snd].
  repeat split.
  - destruct (o_legendStyle (options w)),
      (truthy (legendElement w) && truthy (chart w)); cbn; lia.
  - intros Hs. destruct (o_legendStyle (options w)); [reflexivity | reflexivity |].
    contradiction.
  - intros Hn v Hin.
    destruct (o_legendStyle (options w)); try contradiction.
    destruct (truthy (legendElement w) && truthy (chart w)); [| contradiction].
    destruct Hin as [[= <-] | []].
    cbn [legendView l_ohlc]. unfold hoverView. rewrite Hn.
    destruct param as [[[t |] [sd |]] |]; reflexivity.
Qed.

(** With candles at least 60 seconds apart the search of [updateLegend]
    finds the candle whose shifted timestamp is the crosshair time. *)
Lemma findMatchingCandle_exact_hit (cs : list Candle) (i : nat) (c : Candle) :
  minuteSpaced host cs ->
  cs !! i = Some c ->
  findMatchingCandle host cs (localTimestamp host (Timestamp c)) = Some c.
Proof.
  intros Hsp Hi. unfold findMatchingCandle.
  assert (Hc : matchesCrosshair host (localTimestamp host (Timestamp c)) c = true).
  { unfold matchesCrosshair. rewrite Z.sub_diag. reflexivity. }
  destruct (List.find (matchesCrosshair host (localTimestamp host (Timestamp c))) cs)
    as [c' |] eqn:Hf.
  - apply find_first_match in Hf as (l1 & l2 & Hsplit & Hm & _).
    assert (Hj : cs !! length l1 = Some c').
    { rewrite Hsplit. rewrite lookup_app_r by lia.
      replace (length l1 - length l1)%nat with 0%nat by lia. reflexivity. }
    destruct (Nat.eq_dec (length l1) i) as [E | N].
    + rewrite E, Hi in Hj. injection Hj as <-. reflexivity.
    + pose proof (Hsp _ _ _ _ Hj Hi N) as Hfar.
      unfold matchesCrosshair in Hm. apply Z.ltb_lt in Hm. lia.
  - apply find_no_match in Hf.
    rewrite Forall_forall in Hf.
    assert (Hin : c ∈ cs) by (apply list_elem_of_lookup; eauto).
    rewrite (Hf c Hin) in Hc. discriminate Hc.
Qed.

(** X15.  On a widget with a chart, a legend element and a candlestick
    series, whose candles have shifted timestamps at least 60 seconds apart:
    a hover that carries a point of the candlestick series and whose time is
    exactly the shifted timestamp of one of the candles renders the legend
    once, and the hover block shows that point with the metrics of exactly
    that candle; except when that shifted timestamp is 0, which the guard
    on [crosshairParam.time] takes for no time at all, and then the legend
    is rendered without a hover block. *)
Theorem exact_hit_matches_the_hovered_candle
  (this : Widget) (p : CrosshairParam)
  (seriesData : Series -> option CandlestickData) (s : Series) (d : CandlestickData)
  (i : nat) (c : Candle) :
  truthy (legendElement this) = true ->
  truthy (chart this) = true ->
  minuteSpaced host (candles (chartData this)) ->
  candles (chartData this) !! i = Some c ->
  cp_time p = Some (localTimestamp host (Timestamp c)) ->
  cp_seriesData p = Some seriesData ->
  candlestickSeries this = Some s ->
  seriesData s = Some d ->
  exists v,
    updateLegend host (Some p) this = (Normal tt, this, [SetLegendHTML v])
    /\ l_ohlc v =
         if localTimestamp host (Timestamp c) =? 0 then None
         else Some {| h_data := d;
                      h_metrics := Some (candleMetrics (isDark this) c) |}.
Proof.
  intros Hle Hch Hsp Hi Ht Hsd Hs Hd.
  rewrite updateLegend_run, Hle, Hch. cbn [andb].
  eexists. split; [reflexivity |].
  unfold legendView, hoverView. cbn [l_ohlc].
  rewrite Ht, Hsd, Hs, Hd, (findMatchingCandle_exact_hit _ i c Hsp Hi).
  reflexivity.
Qed.

(** ** Mounting, loading and tearing down *)

(** Name the fields of [this] and of its options. *)
Ltac break w :=
  destruct w as [ch le cs ls vs sd cd cp pc pcc il
                 [oc ot os oh ow ov oty oth ol oe od otr occ] pp].

(** What [initializeChart] does on an unmounted widget of a page that
    holds the container. *)
Lemma initializeChart_run (w : Widget) (el : Element) :
  unmounted w ->
  resolveContainer host (options w) = Some el ->
  exists w1 t,
    initializeChart host w = (Normal tt, w1, t)
    /\ ready w1 = true
    /\ chart w1 = Some (ChartApi el)
    /\ legendElement w1 =
         match o_legendStyle (options w) with
         | legend_none => None
         | _ => Some legendDiv
         end
    /\ (options w1 = options w /\ sdk w1 = sdk w /\ chartData w1 = chartData w)
    /\ countCalls isCreateChart t = 1%nat
    /\ addedSeries t =
         activePriceSeries w :: (if o_showVolume (options w) then [HistogramSeries] else [])
    /\ countCalls isLegendCall t =
         match o_legendStyle (options w) with
         | legend_none => 0%nat
         | _ => 1%nat
         end
    /\ countCalls isSdkInitialize t = 0%nat.
Proof.
  intros (Hch & Hle & Hcs & Hls & Hvs) Hres.
  unfold initializeChart. unfold_m. rewrite Hres.
  break w. cbn in Hch, Hle, Hcs, Hls, Hvs. subst ch le cs ls vs.
  unfold activePriceSeries, ready.
  destruct ov, oty, ol, (computedPositionIsStatic host el); cbn;
    rewrite ?updateLegend_run; cbn;
    eexists; eexists; (split; [reflexivity |]); cbn; auto 12.
Qed.

(** X16.  On a page that holds the container, [initializeChart] mounts an
    unmounted widget: it returns normally, creates the chart once on the
    resolved element, adds exactly the price series that [priceSeriesType]
    selects followed by the volume series when [showVolume] is set, creates
    the legend element and renders the legend once unless [legendStyle] is
    'none', and leaves the options as they were. *)
Theorem initializeChart_mounts_the_widget (w : Widget) (el : Element) :
  unmounted w ->
  resolveContainer host (options w) = Some el ->
  let r := initializeChart host w in
  completionOf r = Normal tt
  /\ ready (stateOf r) = true
  /\ chart (stateOf r) = Some (ChartApi el)
  /\ options (stateOf r) = options w
  /\ countCalls isCreateChart (traceOf r) = 1%nat
  /\ addedSeries (traceOf r) =
       activePriceSeries w :: (if o_showVolume (options w) then [HistogramSeries] else [])
  /\ (o_legendStyle (options w) = legend_none ->
      legendElement (stateOf r) = None /\ countCalls isLegendCall (traceOf r) = 0%nat)
  /\ (o_legendStyle (options w) <> legend_none ->
      legendElement (stateOf r) = Some legendDiv
      /\ countCalls isLegendCall (traceOf r) = 1%nat).
Proof.
  intros Hu Hres. cbv zeta.
  destruct (initializeChart_run w el Hu Hres)
    as (w1 & t & Hrun & Hr & Hc & Hl & (Ho & _ & _) & Hn & Ha & Hlc & _).
  rewrite Hrun. cbn [completionOf stateOf traceOf fst snd].
  repeat split; auto.
  - rewrite Hl, H. reflexivity.
  - rewrite Hlc, H. reflexivity.
  - rewrite Hl. destruct (o_legendStyle (options w)); [contradiction | |]; reflexivity.
  - rewrite Hlc. destruct (o_legendStyle (options w)); [contradiction | |]; reflexivity.
Qed.

(** [initialize] after [await this.initializeSDK()], once [initializeChart]
    has returned: [loadTokenData] is entered only for a non-empty token. *)
Lemma initializePromise_run (w w1 : Widget) (t : list Effect) :
  initializeChart host w = (Normal tt, w1, t) ->
  options w1 = options w ->
  sdk w1 = sdk w ->
  sdk w <> None ->
  initializePromise host w =
    if String.eqb (o_tokenId (options w)) ""
    then (Fulfilled, w1, t)
    else (Pending,
          set_chartData emptyChartData
            (set_previousCandleCount 0 (set_isInitialLoad true w1)),
          t ++ [SdkInitialize (o_tokenId (options w))]).
Proof.
  intros Hrun Ho Hs Hsdk.
  destruct (sdk w) as [s |] eqn:Hsdk'; [| contradiction].
  unfold initializePromise, initialize_resume, loadTokenData_begin. unfold_m.
  rewrite Hrun, Ho, Hs. cbn [truthy negb andb].
  destruct (String.eqb (o_tokenId (options w)) "");
    repeat (progress (cbn [truthy negb andb app]; fields; rewrite ?Hs;
                      cbv beta iota zeta));
    rewrite ?app_nil_r; reflexivity.
Qed.

(** X17.  What [initialize] does after the chart is mounted depends on the
    token identifier alone: with an empty [tokenId] the widget mounts and
    the promise is fulfilled without any request to the SDK; with a
    non-empty one the reconciler state is reset (first-delivery flag set,
    previous count 0, no candles) and exactly one [sdk.initialize] request
    for that token is issued, as the last call. *)
Theorem initialize_requests_data_only_for_a_token (w : Widget) (el : Element) :
  unmounted w ->
  sdk w <> None ->
  resolveContainer host (options w) = Some el ->
  let p := fst (fst (initializePromise host w)) in
  let w' := snd (fst (initializePromise host w)) in
  let t := snd (initializePromise host w) in
  ready w' = true
  /\ (o_tokenId (options w) = ""%string ->
      p = Fulfilled /\ countCalls isSdkInitialize t = 0%nat
      /\ chartData w' = chartData w)
  /\ (o_tokenId (options w) <> ""%string ->
      p = Pending
      /\ countCalls isSdkInitialize t = 1%nat
      /\ last t = Some (SdkInitialize (o_tokenId (options w)))
      /\ isInitialLoad w' = true /\ previousCandleCount w' = 0%nat
      /\ chartData w' = emptyChartData).
Proof.
  intros Hu Hsdk Hres. cbv zeta.
  destruct (initializeChart_run w el Hu Hres)
    as (w1 & t & Hrun & Hr & _ & _ & (Ho & Hs & Hcd) & _ & _ & _ & Hni).
  rewrite (initializePromise_run w w1 t Hrun Ho Hs Hsdk).
  destruct (String.eqb_spec (o_tokenId (options w)) ""%string) as [E | N];
    cbn [fst snd].
  - repeat split; auto; intros; congruence.
  - split; [exact Hr |]. split; [intros; congruence |].
    intros _. repeat split.
    + rewrite countCalls_app, Hni. reflexivity.
    + apply last_snoc.
Qed.

(** X18.  When [sdk.initialize] rejects before any callback has run,
    [loadTokenData] records the error and gives up: the chart data is the
    empty list with the error message
    (the Error's message, or "Failed to load token data" for any other
    rejection) and the loading flag cleared, [onError] is called exactly
    once with that message when it was supplied, and no timer is armed, so
    no subscribe can follow.  Without an SDK the method does nothing. *)
Theorem failed_load_is_reported_and_not_retried
  (token : string) (outcome : InitializeOutcome) (w : Widget) :
  let r1 := loadTokenData_begin token w in
  let r2 := loadTokenData_resume outcome (stateOf r1) in
  (sdk w = None -> r1 = (Normal false, w, []))
  /\ (sdk w <> None -> outcome <> InitResolved ->
      completionOf r1 = Normal true
      /\ completionOf r2 = Normal tt
      /\ chartData (stateOf r2) =
           {| candles := []; lastUpdate := None; isLoading := false;
              error := Some (loadErrorMessage outcome) |}
      /\ traceOf r2 =
           (if o_onError (options w) then [CallOnError (loadErrorMessage outcome)] else [])
      /\ countCalls isTimer (traceOf r1 ++ traceOf r2) = 0%nat
      /\ sameHandles w (stateOf r2)).
Proof.
  cbv zeta. unfold loadTokenData_begin, loadTokenData_resume, sameHandles. unfold_m.
  split.
  - intros Hn. rewrite Hn. reflexivity.
  - intros Hs Ho. destruct (sdk w) as [s |] eqn:Hsdk; [| contradiction].
    cbn [truthy negb]. fields. rewrite Hsdk.
    destruct outcome as [| msg |]; [contradiction | |];
      repeat (progress (cbn [truthy negb andb app loadErrorMessage]; fields;
                        rewrite ?Hsdk; cbv beta iota zeta));
      destruct (o_onError (options w)) eqn:Hcb; cbn; rewrite ?Hsdk, ?Hcb;
      repeat split; cbn; assumption.
Qed.

(** X19.  A reload resets the reconciler: after [loadTokenData] has started
    on a mounted widget, the next non-empty snapshot is applied as a full
    replace with a fit request, whatever the previous count and whether or
    not a first delivery had already taken place. *)
Theorem snapshot_after_reload_is_a_full_replace
  (token : string) (data : ChartData) (w : Widget) (c : Candle) :
  ready w = true ->
  sdk w <> None ->
  latest (candles data) = Some c ->
  let w1 := stateOf (loadTokenData_begin token w) in
  chartCalls (traceOf (handleChartUpdate host data w1)) =
    replaceCalls host w (candles data).
Proof.
  intros Hr Hs Hc. cbv zeta.
  assert (Hw1 : stateOf (loadTokenData_begin token w) =
                set_chartData emptyChartData
                  (set_previousCandleCount 0 (set_isInitialLoad true w))).
  { unfold loadTokenData_begin. unfold_m.
    destruct (sdk w) as [s |] eqn:Hsdk; [| contradiction].
    cbn [truthy negb]. fields. rewrite Hsdk. reflexivity. }
  rewrite Hw1.
  assert (Hr1 : ready (set_chartData emptyChartData
                         (set_previousCandleCount 0 (set_isInitialLoad true w))) = true).
  { unfold ready in *. fields. exact Hr. }
  rewrite (handleChartUpdate_chartCalls data _ c Hr1 Hc).
  fields. cbn [negb andb]. unfold replaceCalls. fields. reflexivity.
Qed.

(** ** Waiting for the transport, continued *)

Lemma checkConnection_connects (tr : Transport) (maxWaitMs : Z) (k : nat) :
  reached tr maxWaitMs k ->
  isConnectedAt tr k = true ->
  forall n j, (j + n = k)%nat ->
    exists t,
      checkConnection tr maxWaitMs (S n) j = Some (true, t)
      /\ countCalls isTimer t = n
      /\ countCalls isSubscribe t = 0%nat.
Proof.
  intros Hreach Hon. induction n as [| n IH]; intros j Hj.
  - assert (j = k) by lia. subst j.
    rewrite checkConnection_step, Hon. eexists. repeat split.
  - destruct (Hreach j) as [Hoff Hin]; [lia |].
    rewrite checkConnection_step, Hoff.
    assert (E : (nowAt tr j - startTime tr >? maxWaitMs) = false).
    { rewrite Z.gtb_ltb. apply Z.ltb_ge. exact Hin. }
    rewrite E. destruct (IH (S j)) as (t & Ht & Hn & Hs); [lia |].
    rewrite Ht. eexists. split; [reflexivity |].
    unfold countCalls in *. cbn. rewrite Hn, Hs. split; reflexivity.
Qed.

(** X20.  When the transport is first seen connected at the poll number k
    (counting from 0) and the ceiling had not passed at the earlier polls,
    the wait resolves [true] after arming exactly k timers, and the timer
    callback of a widget that still has its SDK issues exactly one
    subscribe call for the token, as its last call, and nothing else
    changes. *)
Theorem subscribe_follows_the_first_connected_poll
  (tr : Transport) (token : string) (w : Widget) (k : nat) :
  reached tr 5000 k ->
  isConnectedAt tr k = true ->
  sdk w <> None ->
  exists t,
    countCalls isTimer t = k
    /\ (forall fuel, (k < fuel)%nat ->
          waitForWebSocketConnection tr 5000 fuel = Some (true, t))
    /\ (forall fuel, (k < fuel)%nat ->
          exists t',
            subscribeTimer tr fuel token w = Some (Normal tt, w, t')
            /\ countCalls isSubscribe t' = 1%nat
            /\ last t' = Some (SdkSubscribe token)).
Proof.
  intros Hreach Hon Hs.
  destruct (checkConnection_connects tr 5000 k Hreach Hon k 0%nat) as (t & Ht & Hn & Hq);
    [reflexivity |].
  exists t. split; [exact Hn |].
  assert (Hwait : forall fuel, (k < fuel)%nat ->
            waitForWebSocketConnection tr 5000 fuel = Some (true, t)).
  { intros fuel Hf. unfold waitForWebSocketConnection.
    replace fuel with (S k + (fuel - S k))%nat by lia.
    apply checkConnection_more_fuel. exact Ht. }
  split; [exact Hwait |].
  intros fuel Hf. unfold subscribeTimer, subscribeTimer_begin, subscribeTimer_resume.
  unfold_m. rewrite (Hwait fuel Hf).
  destruct (sdk w) as [s |] eqn:Hsdk; [| contradiction]. cbn [truthy].
  rewrite ?Hsdk. eexists. split; [reflexivity |].
  split.
  - cbn [app]. rewrite countCalls_app, Hq. reflexivity.
  - cbn [app]. apply last_snoc.
Qed.

(** X21.  [destroy] is terminal for the widget's own methods: it nulls the
    chart and the SDK and keeps the series handles and the legend element;
    afterwards a second [destroy], a [resize], an [updateVolumeSeries], a
    new [loadTokenData] and a subscribe timer that was still pending all
    return without a call on any collaborator and leave the state as it
    is. *)
Theorem destroyed_widget_methods_do_nothing
  (w : Widget) (width height : option Z) (token : string) (tr : Transport) (fuel : nat) :
  let d := stateOf (destroy w) in
  chart d = None /\ sdk d = None /\ ready d = false
  /\ candlestickSeries d = candlestickSeries w
  /\ lineSeries d = lineSeries w
  /\ volumeSeries d = volumeSeries w
  /\ legendElement d = legendElement w
  /\ destroy d = (Normal tt, d, [])
  /\ resize width height d = (Normal tt, d, [])
  /\ updateVolumeSeries host d = (Normal tt, d, [])
  /\ loadTokenData_begin token d = (Normal false, d, [])
  /\ subscribeTimer tr fuel token d = Some (Normal tt, d, []).
Proof.
  cbv zeta. rewrite destroy_run. cbn [stateOf fst snd].
  repeat split.
Qed.

(** X22.  [updateVolumeSeries] brings the volume series in line with
    [showVolume]: on a widget with a chart it returns normally, afterwards a
    volume handle exists exactly when [showVolume] is set, a series is added
    only if none existed and removed only if one existed, and the chart, the
    price series handles and the options are untouched.  On a mounted
    widget it neither adds nor removes a series. *)
Theorem updateVolumeSeries_follows_showVolume (w : Widget) (c : IChartApi) :
  chart w = Some c ->
  let r := updateVolumeSeries host w in
  let added := countCommands isAddSeriesCommand (snd r) in
  let removed := countCommands isRemoveSeriesCommand (snd r) in
  fst (fst r) = Normal tt
  /\ truthy (volumeSeries (snd (fst r))) = o_showVolume (options w)
  /\ added = (if o_showVolume (options w) && negb (truthy (volumeSeries w))
              then 1%nat else 0%nat)
  /\ removed = (if negb (o_showVolume (options w)) && truthy (volumeSeries w)
                then 1%nat else 0%nat)
  /\ chart (snd (fst r)) = chart w
  /\ candlestickSeries (snd (fst r)) = candlestickSeries w
  /\ lineSeries (snd (fst r)) = lineSeries w
  /\ options (snd (fst r)) = options w
  /\ (ready w = true -> snd (fst r) = w /\ added = 0%nat /\ removed = 0%nat).
Proof.
  intros Hc. cbv zeta. unfold updateVolumeSeries. rewrite Hc.
  break w. cbn in Hc |- *. unfold ready. cbn.
  destruct ov, vs as [[] |]; cbn; destruct (length (candles cd)); cbn;
    repeat match goal with |- _ /\ _ => split end; try reflexivity;
    try exact Hc;
    intros Hr; destruct ch, oty, cs as [[] |], ls as [[] |]; cbn in Hr;
    try discriminate Hr; repeat split.
Qed.

(** ** Data adapter, continued *)

Lemma lookup_map {A B : Type} (f : A -> B) (l : list A) (i : nat) :
  map f l !! i = option_map f (l !! i).
Proof.
  revert i. induction l as [| a l IH]; intros [| i]; cbn; auto.
Qed.

(** X23.  While the host's time-zone offset is the same at every instant
    (no daylight-saving change in range), the adapter keeps the candles'
    order: strictly increasing timestamps give strictly increasing times on
    price-bar, line and volume points alike. *)
Theorem constant_offset_keeps_points_ordered (cs : list Candle) (dark_theme : bool) :
  (forall a b, getTimezoneOffset host a = getTimezoneOffset host b) ->
  ascending (map Timestamp cs) ->
  ascending (map bar_time (map (convertCandleToChartData host) cs))
  /\ ascending (map line_time (map (convertCandleToAreaData host) cs))
  /\ ascending (map vol_time (map (convertCandleToVolumeData host dark_theme) cs)).
Proof.
  intros Hconst Hasc.
  assert (H : forall (g : Candle -> Z),
             (forall c, g c = localTimestamp host (Timestamp c)) ->
             ascending (map g cs)).
  { intros g Hg i j x y Hij Hi Hj.
    rewrite lookup_map in Hi, Hj.
    destruct (cs !! i) as [ci |] eqn:Ei; [| discriminate].
    destruct (cs !! j) as [cj |] eqn:Ej; [| discriminate].
    cbn in Hi, Hj. injection Hi as <-. injection Hj as <-.
    assert (Hlt : Timestamp ci < Timestamp cj).
    { apply (Hasc i j); [exact Hij | |]; rewrite lookup_map; [rewrite Ei | rewrite Ej];
        reflexivity. }
    rewrite !Hg. unfold localTimestamp.
    rewrite (Hconst (Timestamp ci * 1000) (Timestamp cj * 1000)). lia. }
  rewrite !List.map_map. repeat split; apply H; reflexivity.
Qed.

(** ** Callbacks before the chart exists *)

Lemma updateChart_unmounted (data : ChartData) (w : Widget) :
  unmounted w -> updateChart host data w = (Normal tt, w, []).
Proof.
  intros (Hc & Hl & Hcs & Hls & Hvs). unfold updateChart. unfold_m.
  rewrite Hc, Hcs, Hls, Hvs. cbn [truthy]. rewrite !andb_false_r.
  destruct (length (candles data) =? 0)%nat; reflexivity.
Qed.

Lemma updateSingleCandle_unmounted (c : Candle) (w : Widget) :
  unmounted w ->
  updateSingleCandle host c w = (Normal tt, set_currentPrice (Some (ClosePrice c)) w, []).
Proof.
  intros (Hc & Hl & Hcs & Hls & Hvs). unfold updateSingleCandle. unfold_m. fields.
  rewrite Hc, Hcs, Hls, Hvs. cbn [truthy]. rewrite !andb_false_r. reflexivity.
Qed.

Ltac solve_unmounted :=
  match goal with
  | U : unmounted _ |- _ => unfold unmounted in U |- *; fields; exact U
  end.

Ltac step_unmounted :=
  match goal with
  | |- context [updateLegend ?h ?p ?w] =>
      rewrite (updateLegend_run h p w); fields;
      match goal with
      | U : unmounted _ |- _ =>
          let E := fresh "E" in
          let F := fresh "F" in
          pose proof U as (E & F & _); rewrite ?E, ?F; clear E F
      end;
      cbn [truthy andb]; rewrite ?andb_false_r
  | |- context [updateChart ?h ?d ?w] =>
      rewrite (updateChart_unmounted d w) by solve_unmounted
  | |- context [updateSingleCandle ?h ?c ?w] =>
      rewrite (updateSingleCandle_unmounted c w) by solve_unmounted
  | |- context [match latest ?cs with _ => _ end] => destruct (latest cs) eqn:?
  | |- context [match ?cs !! 0%nat with _ => _ end] => destruct (cs !! 0%nat) eqn:?
  | |- context [match o_legendStyle ?o with _ => _ end] => destruct (o_legendStyle o) eqn:?
  | |- context [if ?b then _ else _] =>
      match type of b with bool => destruct b eqn:? end
  end;
  cbv beta iota zeta; fields.

Lemma fire_unmounted (ev : CallbackEvent) (w : Widget) :
  unmounted w ->
  Forall (fun e => isOnDataUpdate e || isOnTrade e = true) (traceOf (fire host ev w)).
Proof.
  intros U. destruct ev; cbn [fire].
  - unfold handleChartUpdate. unfold_m. fields.
    repeat step_unmounted; cbn [app traceOf snd]; repeat constructor.
  - unfold handleTrade. unfold_m. fields.
    repeat step_unmounted; cbn [app traceOf snd]; repeat constructor.
  - rewrite onCrosshairMove_returns. cbn [traceOf snd].
    destruct U as (Hc & _). rewrite Hc, andb_false_r.
    destruct (o_legendStyle (options w)); constructor.
Qed.

(** X24.  Snapshots and trades that arrive before the chart is created
    are only recorded: whatever sequence of callbacks fires on an unmounted
    widget, nothing is sent to a chart, a series or the legend; the only
    calls made are those of the user's [onDataUpdate] and [onTrade]
    callbacks, and the widget stays unmounted. *)
Theorem callbacks_before_mount_only_notify (evs : list CallbackEvent) (w : Widget) :
  unmounted w ->
  Forall (fun e => isOnDataUpdate e || isOnTrade e = true)
         (traceOf (fireAll host evs w))
  /\ unmounted (stateOf (fireAll host evs w)).
Proof.
  revert w. induction evs as [| ev evs IH]; intros w U.
  - split; [constructor | exact U].
  - rewrite fireAll_cons. cbn [traceOf stateOf fst snd].
    assert (U1 : unmounted (stateOf (fire host ev w))).
    { destruct (fire_sameHandles ev w) as (Hc & Hl & Hcs & Hls & Hvs & _).
      destruct U as (Uc & Ul & Ucs & Uls & Uvs).
      unfold unmounted. rewrite Hc, Hl, Hcs, Hls, Hvs. auto. }
    destruct (IH _ U1) as [Ht Hu]. split; [| exact Hu].
    apply Forall_app. split; [apply fire_unmounted; exact U | exact Ht].
Qed.

(** ** Construction *)

(** X25.  On a page that holds the container, construction goes in two
    stages.  [FiPulseWidget.create] returns, without throwing, a widget
    that has its SDK (created, callbacks registered, socket connect
    requested, in that order), the options with the four defaults filled
    in, and no chart yet; the microtask that follows mounts the chart
    without touching the SDK handle, and leaves the promise pending on the
    data request exactly when a non-empty [tokenId] was given. *)
Theorem create_then_mount (o : WidgetOptions) (el : Element) :
  resolveContainer host (applyDefaults o) = Some el ->
  exists w,
    create o = (Normal w, [SdkCreate; SdkRegisterCallbacks; SdkConnectWebSocket])
    /\ unmounted w /\ sdk w = Some Sdk /\ options w = applyDefaults o
    /\ ready (snd (fst (initializePromise host w))) = true
    /\ sdk (snd (fst (initializePromise host w))) = Some Sdk
    /\ fst (fst (initializePromise host w)) =
         (if String.eqb (tokenId o) "" then Fulfilled else Pending).
Proof.
  intros Hres.
  exists (set_sdk (Some Sdk) (newWidget o)).
  split; [reflexivity |].
  assert (Hu : unmounted (set_sdk (Some Sdk) (newWidget o))) by (repeat split).
  split; [exact Hu |]. split; [reflexivity |]. split; [reflexivity |].
  destruct (initializeChart_run (set_sdk (Some Sdk) (newWidget o)) el Hu Hres)
    as (w1 & t & Hrun & Hr & _ & _ & (Ho & Hs & _) & _).
  rewrite (initializePromise_run _ w1 t Hrun Ho Hs) by discriminate.
  cbn [options set_sdk newWidget applyDefaults o_tokenId].
  destruct (String.eqb (tokenId o) ""); cbn [fst snd]; fields; auto.
Qed.

End MoreProperties.

(** * The further properties on concrete runs *)

(** A snapshot that grew by two candles is a full replace. *)
Lemma snapshot_is_live_update_or_full_replace_witness :
  let w := Demo.loaded candle true [Demo.c1; Demo.c2; Demo.c3] in
  let t := traceOf (handleChartUpdate Demo.host
                      (Demo.snapshot [Demo.c1; Demo.c2; Demo.c3; c4; c5]) w) in
  countCalls isSetData t = 2%nat /\ countCalls isUpdate t = 0%nat.
Proof.
  cbv zeta.
  destruct (snapshot_is_live_update_or_full_replace Demo.host
              (Demo.snapshot [Demo.c1; Demo.c2; Demo.c3; c4; c5])
              (Demo.loaded candle true [Demo.c1; Demo.c2; Demo.c3]) c5)
    as [_ H]; [reflexivity | reflexivity |].
  destruct H as (_ & Hs & Hu); [right; right; vm_compute; discriminate |].
  split; [exact Hs | exact Hu].
Defined.

Lemma repeated_snapshot_is_live_update_witness :
  let w := Demo.mounted "#c" line true in
  let data := Demo.snapshot [Demo.c1; Demo.c2; Demo.c3] in
  chartCalls (traceOf (handleChartUpdate Demo.host data
                         (stateOf (handleChartUpdate Demo.host data w)))) =
    [Update LineSeries (LinePoint {| line_time := 7920; line_value := 118 |});
     Update HistogramSeries (volumePoint Demo.host w Demo.c3);
     ScrollToRealTime].
Proof.
  cbv zeta.
  etransitivity;
    [apply (repeated_snapshot_is_live_update Demo.host
              (Demo.snapshot [Demo.c1; Demo.c2; Demo.c3])
              (Demo.mounted "#c" line true) Demo.c3); reflexivity |].
  vm_compute. reflexivity.
Defined.

Lemma single_candle_after_empty_snapshot_is_upserted_witness :
  let w := Demo.mounted "#c" candle false in
  let w1 := stateOf (handleChartUpdate Demo.host (Demo.snapshot []) w) in
  let t := traceOf (handleChartUpdate Demo.host (Demo.snapshot []) w)
           ++ traceOf (handleChartUpdate Demo.host (Demo.snapshot [c4]) w1) in
  chartCalls t = liveCalls Demo.host w c4 /\ countCalls isSetData t = 0%nat.
Proof.
  cbv zeta.
  apply (single_candle_after_empty_snapshot_is_upserted Demo.host
           (Demo.snapshot []) (Demo.snapshot [c4]) (Demo.mounted "#c" candle false) c4);
    reflexivity.
Defined.

Lemma merged_candle_brackets_the_price_witness :
  let w := Demo.loaded line true [Demo.c1; Demo.c2; Demo.c3] in
  exists u,
    latest (candles (chartData (stateOf (handleTrade Demo.host trade31 w)))) = Some u
    /\ (LowPrice u <= 116)%Q /\ (116 <= HighPrice u)%Q
    /\ (LowPrice u <= HighPrice u)%Q.
Proof.
  cbv zeta.
  destruct (merged_candle_brackets_the_price Demo.host trade31
              (Demo.loaded line true [Demo.c1; Demo.c2; Demo.c3]) Demo.c3)
    as (u & Hu & Hlo & Hhi & Hlh & _); [reflexivity | vm_compute; split; discriminate |].
  exists u. repeat split; assumption.
Defined.

Lemma merge_window_is_three_minutes_witness :
  let w := Demo.loaded line true [Demo.c1; Demo.c2; Demo.c3] in
  candles (chartData (stateOf (handleTrade Demo.host trade30 w))) =
    <[2%nat := mergeTrade Demo.c3 trade30]> [Demo.c1; Demo.c2; Demo.c3].
Proof.
  cbv zeta.
  destruct (merge_window_is_three_minutes Demo.host trade30
              (Demo.loaded line true [Demo.c1; Demo.c2; Demo.c3]) Demo.c3)
    as [H _]; [reflexivity | reflexivity |].
  apply H. vm_compute. split; [discriminate | reflexivity].
Defined.

Lemma two_trades_compose_witness :
  let w := Demo.loaded line true [Demo.c1; Demo.c2; Demo.c3] in
  let w2 := stateOf (handleTrade Demo.host trade31
                       (stateOf (handleTrade Demo.host trade30 w))) in
  latest (candles (chartData w2)) =
    Some {| Timestamp := 720; OpenPrice := 102;
            HighPrice := Qmax (Qmax 120 119) 116;
            LowPrice := Qmin (Qmin 102 119) 116;
            ClosePrice := 116;
            VolumeIn := (700 + 238 + 116)%Q;
            VolumeOut := (1 + 2 + 1)%Q;
            TransactionCount := Some 5 |}
  /\ currentPrice w2 = Some 116%Q.
Proof.
  cbv zeta.
  destruct (two_trades_compose Demo.host trade30 trade31
              (Demo.loaded line true [Demo.c1; Demo.c2; Demo.c3]) Demo.c3)
    as [Hc Hp];
    [reflexivity | vm_compute; split; discriminate | vm_compute; split; discriminate |].
  rewrite Hc. split; [reflexivity | exact Hp].
Defined.

Lemma trade_renders_its_price_in_the_legend_witness :
  let w := Demo.loaded candle false [Demo.c1; Demo.c2] in
  exists v rest,
    traceOf (handleTrade Demo.host trade30 w) = SetLegendHTML v :: rest
    /\ l_price v = Some 119%Q
    /\ l_ohlc v = None
    /\ countCalls isLegendCall rest = 0%nat.
Proof.
  cbv zeta.
  apply (trade_renders_its_price_in_the_legend Demo.host trade30
           (Demo.loaded candle false [Demo.c1; Demo.c2]));
    [reflexivity | reflexivity | intros E; vm_compute in E; discriminate E].
Defined.

Lemma no_legend_element_no_markup_witness :
  ready plainMounted = true
  /\ countCalls isLegendCall (traceOf (fireAll Demo.host someEvents plainMounted)) = 0%nat.
Proof.
  split; [reflexivity |].
  apply (no_legend_element_no_markup Demo.host someEvents plainMounted). reflexivity.
Defined.

Lemma exact_hit_matches_the_hovered_candle_witness :
  exists v,
    updateLegend Demo.host (Some (hoverAt 7860))
      (Demo.loaded candle false [Demo.c1; Demo.c2; Demo.c3])
      = (Normal tt, Demo.loaded candle false [Demo.c1; Demo.c2; Demo.c3],
         [SetLegendHTML v])
    /\ l_ohlc v =
         Some {| h_data := mkBar 7860 105 108 101 102;
                 h_metrics := Some (candleMetrics false Demo.c2) |}.
Proof.
  apply (exact_hit_matches_the_hovered_candle Demo.host
           (Demo.loaded candle false [Demo.c1; Demo.c2; Demo.c3])
           (hoverAt 7860)
           (fun s => match s with
                     | CandlestickSeries => Some (mkBar 7860 105 108 101 102)
                     | _ => None
                     end)
           CandlestickSeries (mkBar 7860 105 108 101 102) 1%nat Demo.c2);
    try reflexivity.
  intros [| [| [| i]]] [| [| [| j]]] ci cj Hi Hj Hij; cbn in Hi, Hj;
    try discriminate; try congruence;
    injection Hi as <-; injection Hj as <-; vm_compute; discriminate.
Defined.

Lemma initializeChart_mounts_the_widget_witness :
  let r := initializeChart Demo.host (created (Demo.opts "#c" candle true)) in
  ready (stateOf r) = true
  /\ addedSeries (traceOf r) = [CandlestickSeries; HistogramSeries]
  /\ legendElement (stateOf r) = Some legendDiv.
Proof.
  cbv zeta.
  destruct (initializeChart_mounts_the_widget Demo.host
              (created (Demo.opts "#c" candle true)) (Elem "c"))
    as (_ & Hr & _ & _ & _ & Ha & _ & Hl); [repeat split | reflexivity |].
  split; [exact Hr |]. split; [exact Ha |].
  apply Hl. intros E; vm_compute in E; discriminate E.
Defined.

Lemma initialize_requests_data_only_for_a_token_witness :
  let w := created (Demo.opts "#c" line false) in
  fst (fst (initializePromise Demo.host w)) = Pending
  /\ last (snd (initializePromise Demo.host w)) = Some (SdkInitialize "1-0xabc").
Proof.
  cbv zeta.
  destruct (initialize_requests_data_only_for_a_token Demo.host
              (created (Demo.opts "#c" line false)) (Elem "c"))
    as (_ & _ & H); [repeat split | discriminate | reflexivity |].
  destruct H as (Hp & _ & Hl & _); [intros E; vm_compute in E; discriminate E |].
  split; [exact Hp | exact Hl].
Defined.

Lemma snapshot_after_reload_is_a_full_replace_witness :
  let w := Demo.loaded line true [Demo.c1; Demo.c2; Demo.c3] in
  let w1 := stateOf (loadTokenData_begin "1-0xabc" w) in
  let data := Demo.snapshot [Demo.c1; Demo.c2; Demo.c3; c4] in
  isInitialLoad w = false
  /\ chartCalls (traceOf (handleChartUpdate Demo.host data w1)) =
       replaceCalls Demo.host w [Demo.c1; Demo.c2; Demo.c3; c4].
Proof.
  cbv zeta. split; [reflexivity |].
  apply (snapshot_after_reload_is_a_full_replace Demo.host "1-0xabc"
           (Demo.snapshot [Demo.c1; Demo.c2; Demo.c3; c4])
           (Demo.loaded line true [Demo.c1; Demo.c2; Demo.c3]) c4);
    [reflexivity | discriminate | reflexivity].
Defined.

Lemma subscribe_follows_the_first_connected_poll_witness :
  exists t,
    countCalls isTimer t = 51%nat
    /\ (forall fuel, (51 < fuel)%nat ->
          waitForWebSocketConnection lateTransport 5000 fuel = Some (true, t))
    /\ (forall fuel, (51 < fuel)%nat ->
          exists t',
            subscribeTimer lateTransport fuel "1-0xabc" (Demo.mounted "#c" candle true)
              = Some (Normal tt, Demo.mounted "#c" candle true, t')
            /\ countCalls isSubscribe t' = 1%nat
            /\ last t' = Some (SdkSubscribe "1-0xabc")).
Proof.
  apply (subscribe_follows_the_first_connected_poll lateTransport "1-0xabc"
           (Demo.mounted "#c" candle true) 51);
    [| reflexivity | discriminate].
  intros j Hj. split; [apply Nat.eqb_neq; lia | cbn [lateTransport nowAt startTime]; lia].
Defined.

Lemma updateVolumeSeries_follows_showVolume_witness :
  let w := set_chart (Some (ChartApi (Elem "c"))) (created (Demo.opts "#c" candle true)) in
  let r := updateVolumeSeries Demo.host w in
  truthy (volumeSeries (snd (fst r))) = true
  /\ countCommands isAddSeriesCommand (snd r) = 1%nat
  /\ countCommands isRemoveSeriesCommand (snd r) = 0%nat.
Proof.
  cbv zeta.
  destruct (updateVolumeSeries_follows_showVolume Demo.host
              (set_chart (Some (ChartApi (Elem "c"))) (created (Demo.opts "#c" candle true)))
              (ChartApi (Elem "c")))
    as (_ & Hv & Ha & Hr & _); [reflexivity |].
  split; [exact Hv |]. split; [exact Ha | exact Hr].
Defined.

Lemma constant_offset_keeps_points_ordered_witness :
  map bar_time (map (convertCandleToChartData Demo.host) [Demo.c1; Demo.c2; Demo.c3])
    = [7800; 7860; 7920]
  /\ ascending (map bar_time
                  (map (convertCandleToChartData Demo.host) [Demo.c1; Demo.c2; Demo.c3])).
Proof.
  split; [reflexivity |].
  apply (constant_offset_keeps_points_ordered Demo.host [Demo.c1; Demo.c2; Demo.c3] false).
  - intros a b. reflexivity.
  - intros [| [| [| i]]] [| [| [| j]]] x y Hij Hi Hj; cbn in Hi, Hj;
      try discriminate; try lia;
      injection Hi as <-; injection Hj as <-; reflexivity.
Defined.

Lemma callbacks_before_mount_only_notify_witness :
  let w := created (Demo.opts "#c" candle true) in
  traceOf (fireAll Demo.host someEvents w) =
    [CallOnDataUpdate (Demo.snapshot [Demo.c1; Demo.c2; Demo.c3]); CallOnTrade trade30]
  /\ Forall (fun e => isOnDataUpdate e || isOnTrade e = true)
            (traceOf (fireAll Demo.host someEvents w))
  /\ unmounted (stateOf (fireAll Demo.host someEvents w)).
Proof.
  cbv zeta. split; [vm_compute; reflexivity |].
  apply (callbacks_before_mount_only_notify Demo.host someEvents
           (created (Demo.opts "#c" candle true))).
  repeat split.
Defined.

Lemma create_then_mount_witness :
  exists w,
    create (Demo.opts "#c" line true) =
      (Normal w, [SdkCreate; SdkRegisterCallbacks; SdkConnectWebSocket])
    /\ unmounted w /\ sdk w = Some Sdk
    /\ options w = applyDefaults (Demo.opts "#c" line true)
    /\ ready (snd (fst (initializePromise Demo.host w))) = true
    /\ sdk (snd (fst (initializePromise Demo.host w))) = Some Sdk
    /\ fst (fst (initializePromise Demo.host w)) = Pending.
Proof.
  apply (create_then_mount Demo.host (Demo.opts "#c" line true) (Elem "c")). reflexivity.
Defined.

Lemma snapshot_bookkeeping_witness :
  let w' := stateOf (handleChartUpdate Demo.host
                       (Demo.snapshot [Demo.c1; Demo.c2; Demo.c3])
                       (Demo.mounted "#c" candle true)) in
  previousCandleCount w' = 3%nat
  /\ isInitialLoad w' = false
  /\ currentPrice w' = Some (ClosePrice Demo.c3).
Proof.
  cbv zeta.
  destruct (snapshot_bookkeeping Demo.host
              (Demo.snapshot [Demo.c1; Demo.c2; Demo.c3])
              (Demo.mounted "#c" candle true))
    as (_ & Hn & Hi & Hc & _).
  split; [exact Hn |]. split; [exact Hi |]. apply (Hc Demo.c3). reflexivity.
Defined.

Lemma trade_keeps_the_timeline_witness :
  let w := Demo.loaded line true [Demo.c1; Demo.c2; Demo.c3] in
  let cs' := candles (chartData (stateOf (handleTrade Demo.host trade30 w))) in
  length cs' = 3%nat
  /\ map Timestamp cs' = [600; 660; 720]
  /\ cs' !! 1%nat = Some Demo.c2.
Proof.
  cbv zeta.
  destruct (trade_keeps_the_timeline Demo.host trade30
              (Demo.loaded line true [Demo.c1; Demo.c2; Demo.c3]))
    as (Hl & Ht & _ & Hi).
  split; [exact Hl |]. split; [exact Ht |].
  etransitivity; [apply (Hi 1%nat); cbv; lia | reflexivity].
Defined.

Lemma every_trade_sets_price_and_notifies_witness :
  let r := handleTrade Demo.host trade30 (Demo.loaded candle false [Demo.c1; Demo.c2]) in
  currentPrice (stateOf r) = Some 119%Q
  /\ last (traceOf r) = Some (CallOnTrade trade30).
Proof.
  cbv zeta.
  destruct (every_trade_sets_price_and_notifies Demo.host trade30
              (Demo.loaded candle false [Demo.c1; Demo.c2]))
    as (Hp & _ & _ & Hl).
  split; [exact Hp | apply Hl; reflexivity].
Defined.

Lemma every_snapshot_notifies_and_renders_last_witness :
  let data := Demo.snapshot [Demo.c1; Demo.c2; Demo.c3] in
  let r := handleChartUpdate Demo.host data (Demo.mounted "#c" candle true) in
  last (traceOf r) = Some (CallOnDataUpdate data)
  /\ exists tc v,
       traceOf r = tc ++ [SetLegendHTML v; CallOnDataUpdate data]
       /\ l_price v = Some (ClosePrice Demo.c3).
Proof.
  cbv zeta.
  destruct (every_snapshot_notifies_and_renders_last Demo.host
              (Demo.snapshot [Demo.c1; Demo.c2; Demo.c3])
              (Demo.mounted "#c" candle true))
    as (_ & Hl & _ & H).
  split; [apply Hl; reflexivity |].
  destruct (H Demo.c3) as (tc & v & Ht & _ & Hp & _);
    [reflexivity | reflexivity | reflexivity
     | intros E; vm_compute in E; discriminate E |].
  exists tc, v. split; [exact Ht | exact Hp].
Defined.

Lemma crosshair_move_only_renders_witness :
  let w := Demo.loaded line true [Demo.c1; Demo.c2; Demo.c3] in
  let r := onCrosshairMove Demo.host (Some (hoverAt 7860)) w in
  stateOf r = w
  /\ (length (traceOf r) <= 1)%nat
  /\ (forall v, In (SetLegendHTML v) (traceOf r) -> l_ohlc v = None).
Proof.
  cbv zeta.
  destruct (crosshair_move_only_renders Demo.host (Some (hoverAt 7860))
              (Demo.loaded line true [Demo.c1; Demo.c2; Demo.c3]))
    as (_ & Hs & Hn & _ & Hv).
  split; [exact Hs |]. split; [exact Hn |]. apply Hv. reflexivity.
Defined.

Lemma failed_load_is_reported_and_not_retried_witness :
  let w := Demo.mounted "#c" candle true in
  let r1 := loadTokenData_begin "1-0xabc" w in
  let r2 := loadTokenData_resume (InitRejectedError "HTTP error! status: 500") (stateOf r1) in
  traceOf r2 = [CallOnError "HTTP error! status: 500"]
  /\ countCalls isTimer (traceOf r1 ++ traceOf r2) = 0%nat.
Proof.
  cbv zeta.
  destruct (failed_load_is_reported_and_not_retried "1-0xabc"
              (InitRejectedError "HTTP error! status: 500")
              (Demo.mounted "#c" candle true))
    as (_ & H).
  destruct H as (_ & _ & _ & Ht & Hn & _); [discriminate | discriminate |].
  split; [exact Ht | exact Hn].
Defined.
